(** * Cyberpunk Quotes dashboard: the per-ticker pipeline of [app.py]

    A shallow embedding of [run_app]: the cached lookups, the metric row,
    the chart renderer pair, the news filter, the ticker loop with its
    exception boundary and the refresh check.  Python values are an
    inductive type, dictionaries are [gmap string _], floats are the
    kernel's binary64 numbers.  The script runs in a state and exception
    monad whose state holds the three [st.cache_data] tables, the requests
    sent and the Streamlit calls issued, oldest first. *)

From Stdlib Require Import ZArith QArith Qpower List Bool Ascii String Lia DecimalString.
From Stdlib Require Import Floats.PrimFloat Floats.SpecFloat Floats.FloatOps.
From stdpp Require Import base option list gmap strings.

Local Open Scope Z_scope.
Local Open Scope string_scope.

Local Set Warnings "-register-all".

(** ** Python values *)

Module Py.

(** The values that can sit in a decoded JSON payload or in the [info]
    mapping returned by the market-data client. *)
Inductive pyval : Type :=
| VNone
| VBool (b : bool)
| VInt (z : Z)
| VFloat (f : float)
| VStr (s : string)
| VList (l : list pyval)
| VDict (m : gmap string pyval).

(** [bool(v)]: what [if v], [not v], [a or b] and [a and b] test. *)
Definition truthy (v : pyval) : bool :=
  match v with
  | VNone => false
  | VBool b => b
  | VInt z => negb (Z.eqb z 0)
  | VFloat f => negb (PrimFloat.eqb f PrimFloat.zero)
  | VStr s => negb (String.eqb s "")
  | VList l => match l with [] => false | _ => true end
  | VDict m => negb (bool_decide (m = ∅))
  end.

(** [d.get(k)] with the implicit default [None]. *)
Definition dict_get (d : gmap string pyval) (k : string) : pyval :=
  default VNone (d !! k).

(** [d.get(k, dflt)]. *)
Definition dict_get_or (d : gmap string pyval) (k : string) (dflt : pyval) : pyval :=
  default dflt (d !! k).

(** [a or b] on values: [a] when it is truthy, else [b]. *)
Definition py_or (a b : pyval) : pyval := if truthy a then a else b.

End Py.
Export Py.

(** ** Exceptions and outcomes *)

(** A raised [Exception]: its class name and [str(e)]. *)
Record exn : Type := Exn { exn_class : string; exn_str : string }.

(** What evaluating a Python expression gives: a value or a raised exception. *)
Inductive outcome (A : Type) : Type :=
| Ok (a : A)
| Raise (e : exn).
Arguments Ok {A} a.
Arguments Raise {A} e.

(** ** Number formatting *)

Module Fmt.

(** Decimal digits of a natural number. *)
Definition dec (n : Z) : string := NilZero.string_of_uint (N.to_uint (Z.to_N n)).

(** [s] left-padded with zeros to [w] characters. *)
Fixpoint zpad (w : nat) (s : string) : string :=
  if Nat.leb w (String.length s) then s
  else match w with
       | O => s
       | S w' => "0" ++ zpad w' s
       end.

(** The [,] option: a comma between groups of three digits, counted from
    the right.  [n] is the number of characters left of the current one. *)
Fixpoint group3 (s : string) : string :=
  match s with
  | EmptyString => EmptyString
  | String c rest =>
      let n := String.length rest in
      if andb (Nat.eqb (Nat.modulo n 3) 0) (negb (Nat.eqb n 0))
      then String c ("," ++ group3 rest)
      else String c (group3 rest)
  end.

(** [num / den] rounded to the nearest integer, ties to even ([den > 0],
    [num >= 0]). *)
Definition round_half_even (num den : Z) : Z :=
  let q := num / den in
  let r := num mod den in
  match 2 * r ?= den with
  | Lt => q
  | Gt => q + 1
  | Eq => if Z.even q then q else q + 1
  end.

(** The digits of a non-negative number scaled by [10^prec]: integer part,
    grouped on request, then the fraction when [prec > 0]. *)
Definition fixed_digits (comma : bool) (prec : nat) (scaled : Z) : string :=
  let p := 10 ^ Z.of_nat prec in
  let ip := dec (scaled / p) in
  let ip := if comma then group3 ip else ip in
  match prec with
  | O => ip
  | _ => ip ++ "." ++ zpad prec (dec (scaled mod p))
  end.

(** [format(f, ".{prec}f")] and [format(f, ",.{prec}f")] for a float: the
    exact binary value, correctly rounded to [prec] decimals, ties to even. *)
Definition format_f (comma : bool) (prec : nat) (f : float) : string :=
  match Prim2SF f with
  | S754_nan => "nan"
  | S754_infinity s => if s then "-inf" else "inf"
  | S754_zero s => (if s then "-" else "") ++ fixed_digits comma prec 0
  | S754_finite s m e =>
      let num := Z.pos m * 10 ^ Z.of_nat prec in
      let scaled :=
        if Z.leb 0 e then num * 2 ^ e else round_half_even num (2 ^ (- e)) in
      (if s then "-" else "") ++ fixed_digits comma prec scaled
  end.

(** [float(z)] for an int: the nearest double, [OverflowError] beyond the
    range. *)
Definition float_of_int (z : Z) : outcome float :=
  match binary_normalize prec emax z 0 false with
  | S754_infinity _ => Raise (Exn "OverflowError" "int too large to convert to float")
  | sf => Ok (SF2Prim sf)
  end.

End Fmt.

(** ** The world of one rendering cycle *)

(** A row of a price history: only the index and the [Close] column are
    read by the program. *)
Record row : Type := Row { row_index : Z; Close : float }.

(** [pd.DataFrame] as its rows; [pd.DataFrame()] is the empty one. *)
Definition DataFrame : Type := list row.

(** A decoded picture ([PIL.Image]), opaque to the pipeline. *)
Definition image : Type := string.

(** What [requests.get] returns: the status, the raw body and what
    [response.json()] gives. *)
Record response : Type :=
  Response { status_code : Z; content : string; json : outcome pyval }.

(** Everything the program asks of its environment.  An answer may depend
    on when it is asked: the first argument counts the questions asked so
    far in the cycle, so two calls with the same arguments may differ. *)
Record World : Type := {
  (* yf.Ticker(ticker).history(period=period) *)
  yf_history : nat -> string -> string -> outcome (option DataFrame);
  (* yf.Ticker(ticker).get_info() *)
  yf_get_info : nat -> string -> outcome pyval;
  (* requests.get(FINNHUB_NEWS_URL, params={symbol, from, to, token}, timeout=10) *)
  requests_get_news : nat -> string -> Z -> Z -> string -> outcome response;
  (* requests.get(logo_url, timeout=5) *)
  requests_get_logo : nat -> pyval -> outcome response;
  (* Image.open(BytesIO(content)) *)
  image_open : nat -> string -> outcome image;
  (* datetime.date.today(), as a day number *)
  date_today : nat -> Z;
  (* import matplotlib.pyplot as plt; import mplcyberpunk *)
  mpl_import : nat -> outcome unit;
  (* plt.style.use, plt.subplots, fig.patch.set_alpha, ax.set_facecolor *)
  mpl_setup : nat -> outcome unit;
  (* ax.imshow(bg_image, extent=..., ...) *)
  mpl_imshow : nat -> image -> DataFrame -> outcome unit;
  (* ax.plot(...), the date formatter, grid, title and labels *)
  mpl_plot : nat -> DataFrame -> string -> outcome unit;
  (* mplcyberpunk.add_glow_effects() *)
  mpl_glow : nat -> outcome unit;
  (* go.Figure(...), fig.update_layout, fig.update_xaxes, fig.update_yaxes *)
  plotly_figure : nat -> DataFrame -> string -> outcome unit;
  (* datetime.datetime.fromtimestamp(v).strftime("%b %d, %Y") *)
  news_date : pyval -> outcome string;
  (* repr of a float, a list or a dict *)
  py_repr : pyval -> string
}.

(** A request that leaves the process. *)
Inductive request : Type :=
| ReqHistory (ticker period : string)
| ReqInfo (ticker : string)
| ReqNews (symbol : string) (from to : Z) (token : string)
| ReqLogo (url : pyval).

(** What Streamlit is told to show, in order.  Layout containers
    ([st.columns], the [with] blocks) carry no content of their own and are
    left out. *)
Inductive event : Type :=
| Warning (msg : string)                              (* st.warning *)
| Error (msg : string)                                (* st.error *)
| Info (msg : string)                                 (* st.info *)
| Markdown (body : string)                            (* st.markdown *)
| Html (body : string)                                (* safe_markdown *)
| Caption (body : string)                             (* st.caption *)
| ImageOut (img : image) (width : Z)                  (* st.image *)
| Pyplot (ticker : string) (hist : DataFrame)         (* st.pyplot(fig) *)
| PlotlyChart (ticker : string) (hist : DataFrame)    (* st.plotly_chart(fig) *)
| Metric (label value : string) (delta : option string) (* st.metric *)
| Expander (label body : string)                      (* st.expander + st.write *)
| Subheader (body : string).                          (* st.subheader *)

(** The state threaded through a cycle.  The three tables are the live
    entries of [st.cache_data] for the three decorated functions (an entry
    past its ttl is not in the table); [asked] counts the questions put to
    the world; [sent] and [shown] are the requests made and the Streamlit
    calls issued so far, oldest first. *)
Record St : Type := {
  cache_stock : gmap (string * string) (option DataFrame);
  cache_info : gmap string pyval;
  cache_news : gmap (string * string) (list pyval);
  asked : nat;
  sent : list request;
  shown : list event
}.

Definition set_cache_stock (c : gmap (string * string) (option DataFrame)) (s : St) : St :=
  {| cache_stock := c; cache_info := cache_info s; cache_news := cache_news s;
     asked := asked s; sent := sent s; shown := shown s |}.
Definition set_cache_info (c : gmap string pyval) (s : St) : St :=
  {| cache_stock := cache_stock s; cache_info := c; cache_news := cache_news s;
     asked := asked s; sent := sent s; shown := shown s |}.
Definition set_cache_news (c : gmap (string * string) (list pyval)) (s : St) : St :=
  {| cache_stock := cache_stock s; cache_info := cache_info s; cache_news := c;
     asked := asked s; sent := sent s; shown := shown s |}.
Definition set_asked (n : nat) (s : St) : St :=
  {| cache_stock := cache_stock s; cache_info := cache_info s; cache_news := cache_news s;
     asked := n; sent := sent s; shown := shown s |}.
Definition set_sent (l : list request) (s : St) : St :=
  {| cache_stock := cache_stock s; cache_info := cache_info s; cache_news := cache_news s;
     asked := asked s; sent := l; shown := shown s |}.
Definition set_shown (l : list event) (s : St) : St :=
  {| cache_stock := cache_stock s; cache_info := cache_info s; cache_news := cache_news s;
     asked := asked s; sent := sent s; shown := l |}.

(** ** The monad of the script: state and exceptions *)

Definition M (A : Type) : Type := St -> outcome A * St.

Definition ret {A} (a : A) : M A := fun s => (Ok a, s).

Definition bind {A B} (m : M A) (k : A -> M B) : M B :=
  fun s => match m s with
           | (Ok a, s') => k a s'
           | (Raise e, s') => (Raise e, s')
           end.

Definition raise {A} (e : exn) : M A := fun s => (Raise e, s).

(** [try: body except Exception as e: handler(e)].  What the body did
    before it raised stays done. *)
Definition try_except {A} (body : M A) (handler : exn -> M A) : M A :=
  fun s => match body s with
           | (Ok a, s') => (Ok a, s')
           | (Raise e, s') => handler e s'
           end.

(** Lift a pure outcome. *)
Definition lift {A} (o : outcome A) : M A := fun s => (o, s).

(** Put a question to the world. *)
Definition ask {A} (q : nat -> A) : M A :=
  fun s => (Ok (q (asked s)), set_asked (S (asked s)) s).

(** Put a question whose answer may be an exception. *)
Definition call {A} (q : nat -> outcome A) : M A := bind (ask q) lift.

Definition send (r : request) : M unit :=
  fun s => (Ok tt, set_sent (sent s ++ [r])%list s).

Definition show (e : event) : M unit :=
  fun s => (Ok tt, set_shown (shown s ++ [e])%list s).

Declare Scope script_scope.
Delimit Scope script_scope with script.
Notation "'let*' x := m 'in' k" := (bind m (fun x => k))
  (at level 10, x name, m at level 100, k at level 200) : script_scope.
Notation "m >> k" := (bind m (fun _ => k))
  (at level 100, k at level 200, right associativity) : script_scope.
Local Open Scope script_scope.

(** [for x in xs: body(x)]. *)
Fixpoint for_each {A} (xs : list A) (body : A -> M unit) : M unit :=
  match xs with
  | [] => ret tt
  | x :: rest => body x >> for_each rest body
  end.

(** Outcomes alone form the exception monad. *)
Definition obind {A B} (o : outcome A) (k : A -> outcome B) : outcome B :=
  match o with
  | Ok a => k a
  | Raise e => Raise e
  end.

(** ** String methods *)

Module Str.

(** [c.isspace()] for a one-byte character.  Texts are strings of bytes;
    the white space Python knows beyond ASCII (U+0085, U+00A0, U+3000 and
    the like) takes several bytes and is not recognised here, so [lstrip]
    and [strip] below are Python's on ASCII text only.  Every statement
    that goes through them says so with [Tickers.is_ascii]. *)
Definition is_space (c : ascii) : bool :=
  let n := nat_of_ascii c in
  orb (andb (Nat.leb 9 n) (Nat.leb n 13)) (andb (Nat.leb 28 n) (Nat.leb n 32)).

Fixpoint lstrip (s : string) : string :=
  match s with
  | String c rest => if is_space c then lstrip rest else s
  | EmptyString => EmptyString
  end.

(** [s.strip()], for an ASCII text [s]. *)
Definition strip (s : string) : string :=
  String.rev (lstrip (String.rev (lstrip s))).

(** [s.replace(old, new)] for a non-empty [old], scanning left to right;
    [skip] counts the characters of a match still to be dropped. *)
Fixpoint replace_from (old new : string) (skip : nat) (s : string) : string :=
  match s with
  | EmptyString => EmptyString
  | String c rest =>
      match skip with
      | S k => replace_from old new k rest
      | O =>
          if String.prefix old s
          then new ++ replace_from old new (String.length old - 1) rest
          else String c (replace_from old new 0 rest)
      end
  end.

Definition replace (old new s : string) : string := replace_from old new 0 s.

(** [s.split(sep)[0]]: what stands before the first separator. *)
Fixpoint split_head (sep : ascii) (s : string) : string :=
  match s with
  | EmptyString => EmptyString
  | String c rest => if Ascii.eqb c sep then EmptyString else String c (split_head sep rest)
  end.

End Str.

(** ** Attribute access, [str] and format specifications on values *)

Definition type_name (v : pyval) : string :=
  match v with
  | VNone => "NoneType"
  | VBool _ => "bool"
  | VInt _ => "int"
  | VFloat _ => "float"
  | VStr _ => "str"
  | VList _ => "list"
  | VDict _ => "dict"
  end.

Definition attribute_error {A} (v : pyval) (attr : string) : outcome A :=
  Raise (Exn "AttributeError"
           ("'" ++ type_name v ++ "' object has no attribute '" ++ attr ++ "'")).

(** [v.get(k)]: only a dict has the method. *)
Definition py_get (v : pyval) (k : string) : outcome pyval :=
  match v with
  | VDict m => Ok (dict_get m k)
  | _ => attribute_error v "get"
  end.

(** [v.get(k, dflt)]. *)
Definition py_get_or (v : pyval) (k : string) (dflt : pyval) : outcome pyval :=
  match v with
  | VDict m => Ok (dict_get_or m k dflt)
  | _ => attribute_error v "get"
  end.

(** [str(v)], as an f-string field without a format specification prints
    it; [repr] prints floats and containers. *)
Definition py_str (repr : pyval -> string) (v : pyval) : string :=
  match v with
  | VNone => "None"
  | VBool b => if b then "True" else "False"
  | VInt z => NilZero.string_of_int (Z.to_int z)
  | VStr s => s
  | VFloat _ | VList _ | VDict _ => repr v
  end.

(** [format(v, ",.{prec}f")] when [comma], else [format(v, ".{prec}f")].
    A text rejects the code [f] with the same message under both. *)
Definition format_spec_f (comma : bool) (prec : nat) (v : pyval) : outcome string :=
  match v with
  | VFloat f => Ok (Fmt.format_f comma prec f)
  | VInt z => obind (Fmt.float_of_int z) (fun f => Ok (Fmt.format_f comma prec f))
  | VBool b => Ok (Fmt.format_f comma prec (if b then 1%float else 0%float))
  | VStr _ =>
      Raise (Exn "ValueError" "Unknown format code 'f' for object of type 'str'")
  | VNone | VList _ | VDict _ =>
      Raise (Exn "TypeError"
               ("unsupported format string passed to " ++ type_name v ++ ".__format__"))
  end.

(** Iterating a value, as a comprehension does. *)
Definition py_iter (v : pyval) : outcome (list pyval) :=
  match v with
  | VList l => Ok l
  | VDict m => Ok (VStr <$> (map_to_list m).*1)
  | VStr s => Ok ((fun c => VStr (String c EmptyString)) <$> list_ascii_of_string s)
  | VNone | VBool _ | VInt _ | VFloat _ =>
      Raise (Exn "TypeError" ("'" ++ type_name v ++ "' object is not iterable"))
  end.

(** ** The metric row, as functions of the looked-up data *)

(** [info.get("currentPrice") or info.get("regularMarketPrice")]: the
    second lookup happens only when the first value is falsy. *)
Definition resolve_price (info : pyval) : outcome pyval :=
  obind (py_get info "currentPrice") (fun cp =>
  if truthy cp then Ok cp else py_get info "regularMarketPrice").

(** [f"${price:,.2f}" if price else "N/A"]. *)
Definition price_text (price : pyval) : outcome string :=
  if truthy price
  then obind (format_spec_f true 2 price) (fun t => Ok ("$" ++ t))
  else Ok "N/A".

(** [f"${cap:,.0f}" if cap else "N/A"]. *)
Definition cap_text (cap : pyval) : outcome string :=
  if truthy cap
  then obind (format_spec_f true 0 cap) (fun t => Ok ("$" ++ t))
  else Ok "N/A".

(** [f"${high} / ${low}"]. *)
Definition range_text (repr : pyval -> string) (high low : pyval) : string :=
  "$" ++ py_str repr high ++ " / $" ++ py_str repr low.

(** What the "Current Price" metric shows for an [info] value. *)
Definition current_price_metric (info : pyval) : outcome string :=
  obind (resolve_price info) price_text.

(** What the "Market Cap" metric shows for an [info] value. *)
Definition market_cap_metric (info : pyval) : outcome string :=
  obind (py_get info "marketCap") cap_text.

(** What the "52w High / Low" metric shows for an [info] value. *)
Definition range_metric (repr : pyval -> string) (info : pyval) : outcome string :=
  obind (py_get info "fiftyTwoWeekHigh") (fun high =>
  obind (py_get info "fiftyTwoWeekLow") (fun low =>
  Ok (range_text repr high low))).

(** [col.iloc[-k]] for [k >= 1]. *)
Definition iloc_neg (col : list float) (k : nat) : outcome float :=
  if andb (Nat.leb 1 k) (Nat.leb k (length col))
  then match col !! (length col - k)%nat with
       | Some x => Ok x
       | None => Raise (Exn "IndexError" "single positional indexer is out-of-bounds")
       end
  else Raise (Exn "IndexError" "single positional indexer is out-of-bounds").

(** The body of the "Daily Change" column once [hist_5d] is fetched: the
    value and the delta of the metric, or nothing. *)
Definition daily_change (hist_5d : option DataFrame) : outcome (option (string * string)) :=
  match hist_5d with
  | None => Ok None
  | Some df =>
      if Nat.leb 2 (length df) then
        let col := Close <$> df in
        obind (iloc_neg col 1) (fun last =>
        obind (iloc_neg col 2) (fun prev =>
        let change := PrimFloat.sub last prev in
        obind (iloc_neg col 2) (fun prev' =>
        let pct := PrimFloat.mul (PrimFloat.div change prev') 100 in
        Ok (Some ("$" ++ Fmt.format_f false 2 change,
                  Fmt.format_f false 2 pct ++ "%")))))
      else Ok None
  end.

(** ** The news filter *)

(** The condition of the comprehension:
    [item.get("headline") and item.get("url")]. *)
Definition news_item_ok (item : pyval) : outcome bool :=
  obind (py_get item "headline") (fun h =>
  if truthy h then obind (py_get item "url") (fun u => Ok (truthy u)) else Ok false).

(** [[item for item in items if item.get("headline") and item.get("url")]]
    over the items already drawn from the iterable. *)
Fixpoint news_keep (items : list pyval) : outcome (list pyval) :=
  match items with
  | [] => Ok []
  | item :: rest =>
      obind (news_item_ok item) (fun keep =>
      obind (news_keep rest) (fun kept =>
      Ok (if keep then item :: kept else kept)))
  end.

Definition news_filter (data : pyval) : outcome (list pyval) :=
  obind (py_iter data) news_keep.

(** ** The script *)

(** [@st.cache_data(ttl=...)]: a live entry answers the call, anything else
    runs the body and stores what it returned.  A body that raises stores
    nothing.  The table holds the live entries: the [ttl] (3600 seconds for
    prices and info, 1800 for news) decides when an entry stops being live,
    and an expired entry is an absent one.  No entry expires while a script
    below runs, so what is said of two calls in a row holds within the
    [ttl] of the entry the first one stored. *)
Definition cached {K V} `{Countable K}
    (table : St -> gmap K V) (store : gmap K V -> St -> St)
    (key : K) (body : M V) : M V :=
  fun s =>
    match table s !! key with
    | Some v => (Ok v, s)
    | None =>
        match body s with
        | (Ok v, s') => (Ok v, store (<[key := v]> (table s')) s')
        | (Raise e, s') => (Raise e, s')
        end
    end.

Definition plotly_css : string :=
  "
        <style>
        .plotly-graph-div, .js-plotly-plot svg, .js-plotly-plot .svg-container { background: transparent !important; }
        </style>
        ".

Section Script.

(** The world, and the sidebar controls read before the loop. *)
Variable w : World.
Variable period : string.
Variable finnhub_api : string.
Variable bg_image : option image.

Definition get_stock_data (ticker period : string) : M (option DataFrame) :=
  cached cache_stock set_cache_stock (ticker, period)
    (try_except
       (send (ReqHistory ticker period) >>
        call (fun n => yf_history w n ticker period))
       (fun _ => ret (Some []))).

Definition get_info_cached (ticker : string) : M pyval :=
  cached cache_info set_cache_info ticker
    (try_except
       (send (ReqInfo ticker) >>
        call (fun n => yf_get_info w n ticker))
       (fun _ => ret (VDict ∅))).

Definition get_company_news (symbol api_key : string) : M (list pyval) :=
  cached cache_news set_cache_news (symbol, api_key)
    (if negb (truthy (VStr api_key)) then ret []
     else
       let* today := ask (date_today w) in
       let past := today - 30 in
       let* found :=
         try_except
           (send (ReqNews symbol past today api_key) >>
            let* response := call (fun n => requests_get_news w n symbol past today api_key) in
            if Z.eqb (status_code response) 200 then
              let* data := lift (json response) in
              let* kept := lift (news_filter data) in
              ret (Some kept)
            else ret None)
           (fun _ => ret None) in
       match found with
       | Some news => ret news
       | None => ret []
       end).

(** [info.get("website", "").replace("https://", "").replace("http://", "").split("/")[0]] *)
Definition website_domain (info : pyval) : outcome string :=
  obind (py_get_or info "website" (VStr "")) (fun site =>
  match site with
  | VStr u => Ok (Str.split_head "/" (Str.replace "http://" "" (Str.replace "https://" "" u)))
  | _ => attribute_error site "replace"
  end).

Definition render_company_header (info : pyval) (ticker : string) : M unit :=
  let* logo_url := lift (py_get info "logo_url") in
  let* logo_url :=
    if truthy logo_url then ret logo_url
    else
      let* domain := lift (website_domain info) in
      if truthy (VStr domain)
      then ret (VStr ("https://logo.clearbit.com/" ++ domain))
      else ret logo_url in
  (if truthy logo_url then
     try_except
       (send (ReqLogo logo_url) >>
        let* r := call (fun n => requests_get_logo w n logo_url) in
        if Z.eqb (status_code r) 200 then
          let* img := call (fun n => image_open w n (content r)) in
          show (ImageOut img 100)
        else ret tt)
       (fun _ => ret tt)
   else ret tt) >>
  let* name := lift (py_get_or info "shortName" (VStr ticker)) in
  show (Markdown ("### " ++ py_str (py_repr w) name)) >>
  let* sector := lift (py_get_or info "sector" (VStr "N/A")) in
  let* industry := lift (py_get_or info "industry" (VStr "N/A")) in
  show (Caption (py_str (py_repr w) sector ++ " | " ++ py_str (py_repr w) industry)).

Definition render_matplotlib_cyberpunk_chart
    (hist : DataFrame) (ticker : string) (bg_image : option image) : M bool :=
  let* imported := try_except (call (mpl_import w) >> ret true) (fun _ => ret false) in
  if negb imported then ret false
  else
    call (mpl_setup w) >>
    (match bg_image with
     | Some img => try_except (call (fun n => mpl_imshow w n img hist)) (fun _ => ret tt)
     | None => ret tt
     end) >>
    call (fun n => mpl_plot w n hist ticker) >>
    try_except (call (mpl_glow w)) (fun _ => ret tt) >>
    show (Pyplot ticker hist) >>
    ret true.

Definition render_plotly_fallback (hist : DataFrame) (ticker : string) : M unit :=
  call (fun n => plotly_figure w n hist ticker) >>
  show (Html plotly_css) >>
  show (PlotlyChart ticker hist).

(** Lines 298-300: the primary renderer, then the fallback when it
    reported [False]. *)
Definition render_chart (hist : DataFrame) (ticker : string) : M unit :=
  let* rendered := render_matplotlib_cyberpunk_chart hist ticker bg_image in
  if negb rendered then render_plotly_fallback hist ticker else ret tt.

(** Lines 316-320: the "Daily Change" column. *)
Definition render_daily_change (ticker : string) : M unit :=
  let* hist_5d := get_stock_data ticker "5d" in
  let* change := lift (daily_change hist_5d) in
  match change with
  | Some (value, delta) => show (Metric "Daily Change" value (Some delta))
  | None => ret tt
  end.

(** Lines 303-320: the four metric columns. *)
Definition render_metrics (info : pyval) (ticker : string) : M unit :=
  let* price := lift (resolve_price info) in
  let* cap := lift (py_get info "marketCap") in
  let* high := lift (py_get info "fiftyTwoWeekHigh") in
  let* low := lift (py_get info "fiftyTwoWeekLow") in
  let* shown_price := lift (price_text price) in
  show (Metric "Current Price" shown_price None) >>
  let* shown_cap := lift (cap_text cap) in
  show (Metric "Market Cap" shown_cap None) >>
  show (Metric "52w High / Low" (range_text (py_repr w) high low) None) >>
  render_daily_change ticker.

(** Lines 323-328: the company description. *)
Definition render_summary (info : pyval) : M unit :=
  let* summary := lift (py_get_or info "longBusinessSummary"
                          (VStr "No company description available.")) in
  let* has_text :=
    if truthy summary then
      match summary with
      | VStr text => ret (truthy (VStr (Str.strip text)))
      | _ => lift (attribute_error summary "strip")
      end
    else ret false in
  if has_text
  then show (Expander "📘 Company Info (click to expand)" (py_str (py_repr w) summary))
  else show (Info "No company description available.").

(** The markup of one news card (lines 341-344). *)
Definition article_card (article : pyval) : outcome string :=
  obind (py_get_or article "datetime" (VInt 0)) (fun stamp =>
  obind (news_date w stamp) (fun t_str =>
  obind (py_get article "url") (fun url =>
  obind (py_get article "headline") (fun headline =>
  obind (py_get_or article "source" (VStr "Unknown")) (fun source =>
  Ok ("<div class='news-card'><a href='" ++ py_str (py_repr w) url
      ++ "' target='_blank'><b>" ++ py_str (py_repr w) headline
      ++ "</b></a><br><small>" ++ py_str (py_repr w) source
      ++ " | " ++ t_str ++ "</small></div>")))))).

Definition render_article (article : pyval) : M unit :=
  let* card := lift (article_card article) in
  show (Html card).

(** [for article in news[:5]: ...] *)
Definition render_articles (news : list pyval) : M unit :=
  for_each (take 5 news) render_article.

(** Lines 333-349: the news block and the closing rule. *)
Definition render_news (ticker : string) : M unit :=
  show (Subheader ("📰 " ++ ticker ++ " Recent News")) >>
  let* news :=
    if negb (truthy (VStr finnhub_api)) then
      show (Info "Enter your Finnhub API key in the sidebar to enable company news.") >>
      ret []
    else get_company_news ticker finnhub_api in
  (if truthy (VList news) then render_articles news
   else if truthy (VStr finnhub_api) then show (Info "No recent news available.")
   else ret tt) >>
  show (Html "<hr style='border: 1px solid #00f5ff; opacity: 0.3;'>").

(** [hist is None or hist.empty]. *)
Definition no_data (hist : option DataFrame) : bool :=
  match hist with
  | None => true
  | Some df => match df with [] => true | _ => false end
  end.

(** The body of the [try] of the main loop (lines 287-349). *)
Definition process_ticker (ticker : string) : M unit :=
  let* info := get_info_cached ticker in
  let* hist := get_stock_data ticker period in
  if no_data hist then show (Warning ("No data available for " ++ ticker))
  else
    let df := default [] hist in
    render_company_header info ticker >>
    render_chart df ticker >>
    render_metrics info ticker >>
    render_summary info >>
    show (Markdown "---") >>
    render_news ticker.

(** One turn of the main loop: the [try] and its [except Exception as e]. *)
Definition loop_body (ticker : string) : M unit :=
  try_except (process_ticker ticker)
    (fun e => show (Error ("Could not load info for " ++ ticker ++ ": " ++ exn_str e))).

(** Lines 285-356: the main loop and the footer. *)
Definition main_loop (tickers : list string) : M unit :=
  for_each tickers loop_body >>
  show (Html "<hr>") >>
  show (Html "Built with ❤️ — Wizard Q").

End Script.

(** ** The refresh check (lines 144-149) *)

Module Refresh.

(** [f > z] for a float and an int, which Python compares exactly. *)
Definition float_gt_int (f : float) (z : Z) : bool :=
  match Prim2SF f with
  | S754_nan => false
  | S754_infinity s => negb s
  | S754_zero _ => Z.ltb z 0
  | S754_finite s m e =>
      let v := if s then Z.neg m else Z.pos m in
      if Z.leb 0 e then Z.ltb z (v * 2 ^ e) else Z.ltb (z * 2 ^ (- e)) v
  end.

(** The number a finite float stands for. *)
Definition float_value (f : float) : option Q :=
  match Prim2SF f with
  | S754_zero _ => Some 0%Q
  | S754_finite s m e =>
      Some (inject_Z (if s then Z.neg m else Z.pos m) * Qpower 2 e)%Q
  | _ => None
  end.

(** [st.session_state], of which the script uses one key. *)
Abbreviation session_state := (gmap string float).

(** The check, given the successive readings [t0], [t1] of [time.time()]
    it may take.  The result is the new session state and whether
    [st.experimental_rerun()] was called. *)
Definition refresh_check (t0 t1 : float) (refresh_rate : Z)
    (ss : session_state) : session_state * bool :=
  match ss !! "last_refresh" with
  | None => (<["last_refresh" := t0]> ss, false)
  | Some last =>
      if float_gt_int (PrimFloat.sub t0 last) refresh_rate
      then (<["last_refresh" := t1]> ss, true)
      else (ss, false)
  end.

End Refresh.

(** ** The specification's reading of the metric row and the news filter *)

Module Spec.

(** How a price is displayed: [f"${v:,.2f}"]. *)
Definition price_display (v : pyval) : outcome string :=
  obind (format_spec_f true 2 v) (fun t => Ok ("$" ++ t)).

(** The current-price metric read by field presence: [currentPrice] if
    present, else [regularMarketPrice] if present, else the placeholder. *)
Definition current_price_by_presence (info : gmap string pyval) : outcome string :=
  match info !! "currentPrice" with
  | Some v => price_display v
  | None =>
      match info !! "regularMarketPrice" with
      | Some v => price_display v
      | None => Ok "N/A"
      end
  end.

(** A field that is present with a truthy value. *)
Definition truthy_field (info : gmap string pyval) (k : string) : option pyval :=
  match info !! k with
  | Some v => if truthy v then Some v else None
  | None => None
  end.

(** The current-price metric read by truthiness. *)
Definition current_price_by_truthiness (info : gmap string pyval) : outcome string :=
  match truthy_field info "currentPrice" with
  | Some v => price_display v
  | None =>
      match truthy_field info "regularMarketPrice" with
      | Some v => price_display v
      | None => Ok "N/A"
      end
  end.

(** A news field that is present and holds a non-empty text. *)
Definition field_nonempty (item : gmap string pyval) (k : string) : bool :=
  match item !! k with
  | Some (VStr text) => negb (String.eqb text "")
  | _ => false
  end.

(** A valid news item: headline and url both present and non-empty. *)
Definition news_item_valid (item : gmap string pyval) : bool :=
  andb (field_nonempty item "headline") (field_nonempty item "url").

(** The provider's contract for the two required fields: where present,
    they are texts. *)
Definition text_fields (item : gmap string pyval) : Prop :=
  forall k v, k = "headline" \/ k = "url" -> item !! k = Some v -> exists text, v = VStr text.

(** What a news request is worth (section 6): the filtered items of a 200
    answer with a well-formed body, the empty list for anything else. *)
Definition news_of_response (r : outcome response) : list pyval :=
  match r with
  | Ok resp =>
      if Z.eqb (status_code resp) 200 then
        match json resp with
        | Ok data =>
            match news_filter data with
            | Ok kept => kept
            | Raise _ => []
            end
        | Raise _ => []
        end
      else []
  | Raise _ => []
  end.

(** A failed news request: a network error, a status other than 200, a
    body that does not decode, or a decoded body the filter cannot walk. *)
Definition news_request_failed (r : outcome response) : Prop :=
  match r with
  | Raise _ => True
  | Ok resp =>
      status_code resp <> 200 \/
      (exists e, json resp = Raise e) \/
      (exists data e, json resp = Ok data /\ news_filter data = Raise e)
  end.

(** The news table is sound when every entry stored under an empty API
    key is the empty list, as the lookup itself stores it. *)
Definition news_cache_sound (s : St) : Prop :=
  forall symbol news, cache_news s !! (symbol, "") = Some news -> news = [].

(** A script keeps the news table sound. *)
Definition keeps {A} (m : M A) : Prop :=
  forall s, news_cache_sound s -> news_cache_sound (snd (m s)).

(** A chart was put on the page. *)
Definition is_chart (e : event) : bool :=
  match e with
  | Pyplot _ _ | PlotlyChart _ _ => true
  | _ => false
  end.

(** A metric was put on the page. *)
Definition is_metric (e : event) : bool :=
  match e with
  | Metric _ _ _ => true
  | _ => false
  end.

(** The question number at which [ax.plot] is reached from state [s]:
    after the import, the setup and, with a background, [ax.imshow]. *)
Definition plot_tick (bg_image : option image) (s : St) : nat :=
  (asked s + match bg_image with Some _ => 3 | None => 2 end)%nat.

(** The renderer chain as the claim has it: from every state, for every
    non-empty history, it returns normally and puts exactly one chart on the
    page. *)
Definition chain_always_renders (w : World) (bg : option image) : Prop :=
  forall (hist : DataFrame) (ticker : string) (s : St),
    hist <> [] ->
    exists s' new,
      render_chart w bg hist ticker s = (Ok tt, s') /\
      shown s' = (shown s ++ new)%list /\
      length (List.filter is_chart new) = 1%nat.

(** A metric "N/A" under the given label is among what the metric row
    put on the page. *)
Definition placeholder_shown (w : World) (label : string)
    (info : gmap string pyval) (ticker : string) (s : St) : Prop :=
  exists before after,
    shown (snd (render_metrics w (VDict info) ticker s))
      = (shown s ++ before ++ Metric label "N/A" None :: after)%list.

(** The two guards as the claim has them: whatever else the mapping
    holds, a falsy resolved price shows "N/A" as the current price and a
    falsy market cap shows "N/A" as the market cap. *)
Definition falsy_always_placeholder (w : World) : Prop :=
  forall (info : gmap string pyval) (ticker : string) (s : St),
    (truthy (py_or (dict_get info "currentPrice") (dict_get info "regularMarketPrice"))
       = false ->
     placeholder_shown w "Current Price" info ticker s) /\
    (truthy (dict_get info "marketCap") = false ->
     placeholder_shown w "Market Cap" info ticker s).

End Spec.

(** ** Sample data *)

Module Sample.

Definition offline {A} : outcome A := Raise (Exn "ConnectionError" "offline").

(** A world built from what the two market-data calls and the two first
    matplotlib steps answer; every other request fails, every other
    drawing step succeeds. *)
Definition world (history : string -> string -> outcome (option DataFrame))
    (info : string -> outcome pyval)
    (news : string -> outcome response)
    (import setup : outcome unit) : World :=
  {| yf_history := fun _ => history;
     yf_get_info := fun _ => info;
     requests_get_news := fun _ symbol _ _ _ => news symbol;
     requests_get_logo := fun _ _ => offline;
     image_open := fun _ _ => offline;
     date_today := fun _ => 739925;
     mpl_import := fun _ => import;
     mpl_setup := fun _ => setup;
     mpl_imshow := fun _ _ _ => Ok tt;
     mpl_plot := fun _ _ _ => Ok tt;
     mpl_glow := fun _ => Ok tt;
     plotly_figure := fun _ _ _ => Ok tt;
     news_date := fun _ => Ok "Nov 04, 2026";
     py_repr := fun _ => "" |}.

(** Nothing cached, nothing asked, nothing shown. *)
Definition fresh : St :=
  {| cache_stock := ∅; cache_info := ∅; cache_news := ∅;
     asked := 0; sent := []; shown := [] |}.

Definition two_days : DataFrame := [Row 0 100; Row 1 105].

(** [BAD] has prices but a payload that is no mapping; [NIL] has no
    prices; every other ticker has two days of prices and an empty
    mapping. *)
Definition history_of (ticker period : string) : outcome (option DataFrame) :=
  if String.eqb ticker "NIL" then Ok (Some []) else Ok (Some two_days).

Definition info_of (ticker : string) : outcome pyval :=
  if String.eqb ticker "BAD" then Ok VNone else Ok (VDict ∅).

Definition no_news (symbol : string) : outcome response := offline.

Definition plain : World := world history_of info_of no_news (Ok tt) (Ok tt).

(** matplotlib is not installed. *)
Definition no_mpl : World :=
  world history_of info_of no_news (Raise (Exn "ModuleNotFoundError" "No module named 'mplcyberpunk'")) (Ok tt).

(** matplotlib is installed but the "cyberpunk" style cannot be used. *)
Definition broken_mpl : World :=
  world history_of info_of no_news (Ok tt) (Raise (Exn "OSError" "'cyberpunk' is not a valid package style")).

(** Neither renderer works: matplotlib is not installed and the plotly
    figure cannot be built. *)
Definition no_charts : World :=
  {| yf_history := yf_history no_mpl;
     yf_get_info := yf_get_info no_mpl;
     requests_get_news := requests_get_news no_mpl;
     requests_get_logo := requests_get_logo no_mpl;
     image_open := image_open no_mpl;
     date_today := date_today no_mpl;
     mpl_import := mpl_import no_mpl;
     mpl_setup := mpl_setup no_mpl;
     mpl_imshow := mpl_imshow no_mpl;
     mpl_plot := mpl_plot no_mpl;
     mpl_glow := mpl_glow no_mpl;
     plotly_figure := fun _ _ _ => Raise (Exn "ValueError" "Invalid value for Close");
     news_date := news_date no_mpl;
     py_repr := py_repr no_mpl |}.

(** Every client call fails. *)
Definition dead : World :=
  world (fun _ _ => offline) (fun _ => offline) no_news (Ok tt) (Ok tt).

(** A quote of zero next to a regular market price of five. *)
Definition zero_quote : gmap string pyval :=
  <["currentPrice" := VInt 0]> {[ "regularMarketPrice" := VInt 5 ]}.

(** A zero price and an empty market cap, nothing else. *)
Definition zero_price_empty_cap : gmap string pyval :=
  <["currentPrice" := VInt 0]> {[ "marketCap" := VStr "" ]}.

(** A price that is a text and no number, next to a market cap of zero. *)
Definition text_price_zero_cap : gmap string pyval :=
  <["currentPrice" := VStr "abc"]> {[ "marketCap" := VInt 0 ]}.

(** A session last refreshed at time 1000. *)
Definition refreshed_at_1000 : gmap string float := {[ "last_refresh" := 1000%float ]}.

Definition item (headline url : string) : gmap string pyval :=
  <["headline" := VStr headline]> {[ "url" := VStr url ]}.

End Sample.

(** ** The ticker list typed in the sidebar (line 142) *)

Module Tickers.

(** A one-byte character of ASCII text.  On such text the byte-wise
    [strip] and [upper] below are Python's. *)
Definition is_ascii_char (c : ascii) : bool := Nat.ltb (nat_of_ascii c) 128.

Definition is_ascii (s : string) : bool :=
  forallb is_ascii_char (list_ascii_of_string s).

(** [c.upper()] for an ASCII character. *)
Definition upper_char (c : ascii) : ascii :=
  let n := nat_of_ascii c in
  if andb (Nat.leb 97 n) (Nat.leb n 122) then ascii_of_nat (n - 32) else c.

(** [s.upper()]. *)
Fixpoint upper (s : string) : string :=
  match s with
  | EmptyString => EmptyString
  | String c rest => String (upper_char c) (upper rest)
  end.

(** [s.split(sep)] for a one-character separator: never empty, the empty
    text gives one empty piece. *)
Fixpoint split (sep : ascii) (s : string) : list string :=
  match s with
  | EmptyString => [EmptyString]
  | String c rest =>
      if Ascii.eqb c sep then EmptyString :: split sep rest
      else
        match split sep rest with
        | piece :: pieces => String c piece :: pieces
        | [] => [String c EmptyString]
        end
  end.

(** [[t.strip().upper() for t in tickers_input.split(",") if t.strip()]] *)
Definition parse_tickers (tickers_input : string) : list string :=
  List.map (fun t => upper (Str.strip t))
    (List.filter (fun t => truthy (VStr (Str.strip t))) (split "," tickers_input)).

End Tickers.

(** The same trimming on lists of characters, where reversal has its
    lemmas. *)
Module Trim.

Fixpoint lstrip_list (l : list ascii) : list ascii :=
  match l with
  | c :: rest => if Str.is_space c then lstrip_list rest else l
  | [] => []
  end.

Definition strip_list (l : list ascii) : list ascii :=
  List.rev (lstrip_list (List.rev (lstrip_list l))).

(** The list does not start with white space. *)
Definition head_ok (l : list ascii) : Prop :=
  match l with
  | c :: _ => Str.is_space c = false
  | [] => True
  end.

(** The list neither starts nor ends with white space. *)
Definition trimmed (l : list ascii) : Prop := head_ok l /\ head_ok (List.rev l).

End Trim.

(** Sample sidebar texts. *)
Module Typed.

Definition mixed : string := "AAPL, tsla ,,nvda , ".

Definition blank : string := " , ,,  ".

End Typed.

(** ** The page prologue (lines 49-126) *)

Module Page.

(** The double quote, which the markup below needs. *)
Definition dq : string := String (ascii_of_nat 34) EmptyString.

(** What the prologue asks of the file system and of PIL. *)
Record Files : Type := {
  (* Path("cyberpunk_style_embedded.css").exists(): an error other than
     "no such file" (a directory that may not be searched, say) is raised *)
  css_exists : outcome bool;
  (* css_path.open("r", encoding="utf-8") and fh.read() *)
  css_read : outcome string;
  (* Path("videos/cyberpunk_light.mp4").exists() *)
  video_exists : outcome bool;
  (* path.read_bytes() *)
  video_read_bytes : outcome string;
  (* base64.b64encode(data).decode() *)
  b64encode : string -> string;
  (* Image.open(path) for a file of the repository *)
  image_open_path : string -> outcome image;
  (* Image.open(uploaded_bg) for an uploaded file *)
  image_open_upload : string -> outcome image
}.

(** What the prologue puts on the page: Streamlit calls, and the
    [components.html] call of the video fallback. *)
Inductive item : Type :=
| Streamlit (e : event)
| ComponentsHtml (body : string) (height width : Z).

Definition fallback_css : string :=
  "
        <style>
        @import url('https://fonts.googleapis.com/css2?family=Major+Mono+Display&display=swap');
        .cyberpunk-title { font-family: 'Major Mono Display', monospace; font-size:58px; color:#00eaff; text-align:center; letter-spacing:2px; text-shadow:0 0 8px rgba(0,234,255,0.9),0 0 18px rgba(0,128,170,0.25); position:relative; top:-25px; margin-bottom:6px; }
        .news-card { background: rgba(0,0,0,0.35); padding:8px; border-radius:8px; margin-bottom:8px; }
        .card { background: linear-gradient(180deg, rgba(0,0,0,0.45), rgba(0,0,0,0.25)); border-radius:10px; padding:12px; border:1px solid rgba(0,234,255,0.08); }
        </style>
        ".

Definition local_video (b64 : string) : string :=
  "
                <video autoplay muted loop playsinline style=" ++ dq ++ "position:fixed;top:0;left:0;width:100vw;height:100vh;object-fit:cover;z-index:-1;" ++ dq ++ ">
                    <source src=" ++ dq ++ "data:video/mp4;base64," ++ b64 ++ dq ++ " type=" ++ dq ++ "video/mp4" ++ dq ++ ">
                </video>
                ".

Definition remote_video : string :=
  "
        <video autoplay loop muted playsinline style=" ++ dq ++ "position:fixed;top:0;left:0;width:100vw;height:100vh;object-fit:cover;z-index:-1;" ++ dq ++ ">
            <source src=" ++ dq ++ "https://github.com/eviltosh/final_cyberpunk_quotes_redux_V4/releases/download/v1.0/cyberpunk_light.mp4" ++ dq ++ " type=" ++ dq ++ "video/mp4" ++ dq ++ ">
        </video>
        ".

(** Lines 49-65: the external style sheet when the file exists, else the
    built-in one.  The test [css_path.exists()] stands outside the [try]:
    what it raises leaves the prologue. *)
Definition load_css (fs : Files) : outcome (list event) :=
  obind (css_exists fs) (fun present =>
  if present then
    match css_read fs with
    | Ok text => Ok [Html ("<style>" ++ text ++ "</style>")]
    | Raise _ => Ok []
    end
  else Ok [Html fallback_css]).

(** Lines 70-83: whether the local video was embedded, and what was shown. *)
Definition try_embed_local_video (fs : Files) : bool * list event :=
  match video_exists fs with
  | Ok true =>
      match video_read_bytes fs with
      | Ok data => (true, [Html (local_video (b64encode fs data))])
      | Raise _ => (false, [])
      end
  | Ok false => (false, [])
  | Raise _ => (false, [])
  end.

(** Lines 85-92: the local video, else the one of the GitHub release. *)
Definition video_background (fs : Files) : list item :=
  let (video_embedded, out) := try_embed_local_video fs in
  (Streamlit <$> out) ++
  (if negb video_embedded then [ComponentsHtml remote_video 0 0] else []).

(** An attempt to open a picture. *)
Inductive opened : Type :=
| OpenPath (path : string)
| OpenUpload (file : string).

(** Lines 106-126: the background picture for the charts, with the files
    [Image.open] was called on.  [upload] is what the uploader returns
    when it is shown. *)
Definition choose_background (fs : Files) (bg_choice : string) (upload : option string)
    : option image * list opened :=
  let uploaded_bg :=
    if String.eqb bg_choice "Upload Your Own" then upload else None in
  match uploaded_bg with
  | Some file =>
      match image_open_upload fs file with
      | Ok img => (Some img, [OpenUpload file])
      | Raise _ => (None, [OpenUpload file])
      end
  | None =>
      if String.eqb bg_choice "Beach 1" then
        match image_open_path fs "images/1.jpg" with
        | Ok img => (Some img, [OpenPath "images/1.jpg"])
        | Raise _ => (None, [OpenPath "images/1.jpg"])
        end
      else if String.eqb bg_choice "Beach 2" then
        match image_open_path fs "images/2.jpg" with
        | Ok img => (Some img, [OpenPath "images/2.jpg"])
        | Raise _ => (None, [OpenPath "images/2.jpg"])
        end
      else (None, [])
  end.

End Page.

(** Sample file systems. *)
Module Disk.

(** Nothing can be read: no style sheet, no video, no picture. *)
Definition bare : Page.Files :=
  {| Page.css_exists := Ok false;
     Page.css_read := Sample.offline;
     Page.video_exists := Ok false;
     Page.video_read_bytes := Sample.offline;
     Page.b64encode := fun data => data;
     Page.image_open_path := fun _ => Sample.offline;
     Page.image_open_upload := fun _ => Sample.offline |}.

(** The style sheet and the video exist but cannot be read. *)
Definition locked : Page.Files :=
  {| Page.css_exists := Ok true;
     Page.css_read := Raise (Exn "PermissionError" "Permission denied");
     Page.video_exists := Ok true;
     Page.video_read_bytes := Raise (Exn "PermissionError" "Permission denied");
     Page.b64encode := fun data => data;
     Page.image_open_path := fun _ => Sample.offline;
     Page.image_open_upload := fun _ => Sample.offline |}.

(** The directory of the application may not be searched: asking whether
    the style sheet exists fails. *)
Definition sealed : Page.Files :=
  {| Page.css_exists := Raise (Exn "PermissionError" "Permission denied");
     Page.css_read := Raise (Exn "PermissionError" "Permission denied");
     Page.video_exists := Raise (Exn "PermissionError" "Permission denied");
     Page.video_read_bytes := Raise (Exn "PermissionError" "Permission denied");
     Page.b64encode := fun data => data;
     Page.image_open_path := fun _ => Sample.offline;
     Page.image_open_upload := fun _ => Sample.offline |}.

End Disk.

(** ** What a script leaves in place *)

Module Frame.

(** An entry that has outlived its [ttl] is gone from its table; nothing
    else changes. *)
Definition expire_stock (ticker period : string) (s : St) : St :=
  set_cache_stock (delete (ticker, period) (cache_stock s)) s.

Definition expire_info (ticker : string) (s : St) : St :=
  set_cache_info (delete ticker (cache_info s)) s.

Definition expire_news (symbol api_key : string) (s : St) : St :=
  set_cache_news (delete (symbol, api_key) (cache_news s)) s.

(** A script all of whose Streamlit calls satisfy [P]. *)
Definition shows_only (P : event -> Prop) {A} (m : M A) : Prop :=
  forall s, exists new, shown (snd (m s)) = (shown s ++ new)%list /\ Forall P new.

Definition is_error (e : event) : bool :=
  match e with
  | Error _ => true
  | _ => false
  end.

(** A request answered by one of the three cached lookups. *)
Definition is_lookup (r : request) : bool :=
  match r with
  | ReqLogo _ => false
  | _ => true
  end.

(** Every lookup request sent so far was sent once, and its answer is in
    the table of its lookup. *)
Definition fetched_once (s : St) : Prop :=
  NoDup (List.filter is_lookup (sent s)) /\
  (forall ticker period,
     In (ReqHistory ticker period) (sent s) -> is_Some (cache_stock s !! (ticker, period))) /\
  (forall ticker, In (ReqInfo ticker) (sent s) -> is_Some (cache_info s !! ticker)) /\
  (forall symbol from to token,
     In (ReqNews symbol from to token) (sent s) -> is_Some (cache_news s !! (symbol, token))).

(** A script that keeps a property of the state. *)
Definition holds (I : St -> Prop) {A} (m : M A) : Prop :=
  forall s, I s -> I (snd (m s)).

End Frame.

(** ** Readings of the news payload and of the metric values *)

Module Payload.

(** The mapping behind a value, if it is one. *)
Definition as_mapping (v : pyval) : option (gmap string pyval) :=
  match v with
  | VDict m => Some m
  | _ => None
  end.

(** The test of the filter on a mapping: both fields truthy. *)
Definition both_truthy (item : gmap string pyval) : bool :=
  andb (truthy (dict_get item "headline")) (truthy (dict_get item "url")).

(** A decoded body that is a list of mappings. *)
Definition list_of_mappings (data : pyval) : Prop :=
  exists items : list (gmap string pyval), data = VList (VDict <$> items).

(** A world whose news endpoint answers 200 with the given body. *)
Definition answers (body : pyval) : World :=
  Sample.world Sample.history_of Sample.info_of
    (fun _ => Ok (Response 200 "" (Ok body))) (Ok tt) (Ok tt).

(** A body with one element that is no mapping. *)
Definition one_bad_element : pyval :=
  VList [VDict (Sample.item "A" "https://x"); VInt 5; VDict (Sample.item "B" "https://y")].

(** An error object instead of a list. *)
Definition error_object : pyval := VDict {[ "error" := VStr "API limit reached." ]}.

End Payload.

(** ** Texts without a given character *)

Module Url.

(** The character does not occur in the text. *)
Definition free_of (c : ascii) (s : string) : Prop :=
  ~ In c (list_ascii_of_string s).

(** A host name as it stands in a URL: no slash, no colon. *)
Definition is_host (host : string) : Prop :=
  free_of "/" host /\ free_of ":" host.

(** The two lines every company header ends with: the name, defaulting to
    the ticker, and the sector and industry, each defaulting to "N/A". *)
Definition header_lines (w : World) (info : gmap string pyval) (ticker : string)
    : list event :=
  [Markdown ("### " ++ py_str (py_repr w) (dict_get_or info "shortName" (VStr ticker)));
   Caption (py_str (py_repr w) (dict_get_or info "sector" (VStr "N/A")) ++ " | "
            ++ py_str (py_repr w) (dict_get_or info "industry" (VStr "N/A")))].

(** The logo column of the header (lines 199-207), for the URL the
    header settled on. *)
Definition logo_block (w : World) (logo_url : pyval) : M unit :=
  if truthy logo_url then
    try_except
      (bind (send (ReqLogo logo_url)) (fun _ =>
       bind (call (fun n => requests_get_logo w n logo_url)) (fun r =>
       if Z.eqb (status_code r) 200 then
         bind (call (fun n => image_open w n (content r))) (fun img =>
         show (ImageOut img 100))
       else ret tt)))
      (fun _ => ret tt)
  else ret tt.

(** The name and caption lines of the header (lines 208-210). *)
Definition meta_block (w : World) (info : pyval) (ticker : string) : M unit :=
  bind (lift (py_get_or info "shortName" (VStr ticker))) (fun name =>
  bind (show (Markdown ("### " ++ py_str (py_repr w) name))) (fun _ =>
  bind (lift (py_get_or info "sector" (VStr "N/A"))) (fun sector =>
  bind (lift (py_get_or info "industry" (VStr "N/A"))) (fun industry =>
  show (Caption (py_str (py_repr w) sector ++ " | " ++ py_str (py_repr w) industry)))))).

(** A mapping with a website and nothing else. *)
Definition site (url : pyval) : gmap string pyval := {[ "website" := url ]}.

End Url.

(** * Properties *)

(** ** Lists and [iloc] *)

Lemma two_last_rows {A} (l : list A) :
  (2 <= length l)%nat -> exists front a b, l = (front ++ [a; b])%list.
Proof.
  intros Hlen.
  destruct l as [|b rl _] using rev_ind; [simpl in Hlen; lia|].
  destruct rl as [|a front _] using rev_ind.
  - simpl in Hlen. lia.
  - exists front, a, b. by rewrite <- app_assoc.
Qed.

Lemma iloc_neg_last (front : list float) (a b : float) :
  iloc_neg (front ++ [a; b])%list 1 = Ok b.
Proof.
  unfold iloc_neg. rewrite length_app.
  replace (Nat.leb 1 (length front + length [a; b])) with true
    by (symmetry; apply Nat.leb_le; simpl; lia).
  rewrite lookup_app_r by (simpl; lia).
  replace (length front + length [a; b] - 1 - length front)%nat with 1%nat
    by (simpl; lia).
  reflexivity.
Qed.

Lemma iloc_neg_prev (front : list float) (a b : float) :
  iloc_neg (front ++ [a; b])%list 2 = Ok a.
Proof.
  unfold iloc_neg. rewrite length_app.
  replace (Nat.leb 2 (length front + length [a; b])) with true
    by (symmetry; apply Nat.leb_le; simpl; lia).
  rewrite lookup_app_r by (simpl; lia).
  replace (length front + length [a; b] - 2 - length front)%nat with 0%nat
    by (simpl; lia).
  reflexivity.
Qed.

(** ** The daily change *)

Lemma daily_change_two_last (front : DataFrame) (prev last : row) :
  daily_change (Some (front ++ [prev; last])%list) =
    Ok (Some ("$" ++ Fmt.format_f false 2 (PrimFloat.sub (Close last) (Close prev)),
              Fmt.format_f false 2
                (PrimFloat.mul
                   (PrimFloat.div (PrimFloat.sub (Close last) (Close prev)) (Close prev))
                   100) ++ "%")).
Proof.
  unfold daily_change.
  assert (Hlen : Nat.leb 2 (length (front ++ [prev; last])%list) = true).
  { apply Nat.leb_le. rewrite length_app. simpl. lia. }
  rewrite Hlen, fmap_app. simpl.
  by rewrite iloc_neg_last, iloc_neg_prev.
Qed.

Lemma daily_change_short (df : DataFrame) :
  (length df < 2)%nat -> daily_change (Some df) = Ok None.
Proof.
  intros Hlen. unfold daily_change.
  destruct (Nat.leb_spec 2 (length df)); [lia | done].
Qed.

(** ** The cached lookups, unfolded *)

Lemma get_stock_data_eq (w : World) (ticker period : string) (s : St) :
  get_stock_data w ticker period s =
    match cache_stock s !! (ticker, period) with
    | Some hist => (Ok hist, s)
    | None =>
        let hist :=
          match yf_history w (asked s) ticker period with
          | Ok hist => hist
          | Raise _ => Some []
          end in
        (Ok hist,
         set_cache_stock (<[(ticker, period) := hist]> (cache_stock s))
           (set_asked (S (asked s))
              (set_sent (sent s ++ [ReqHistory ticker period])%list s)))
    end.
Proof.
  unfold get_stock_data, cached.
  destruct (cache_stock s !! (ticker, period)) as [hist|]; [done|].
  unfold try_except, bind, call, ask, lift, send, ret. simpl.
  by destruct (yf_history w (asked s) ticker period).
Qed.

Lemma get_info_cached_eq (w : World) (ticker : string) (s : St) :
  get_info_cached w ticker s =
    match cache_info s !! ticker with
    | Some info => (Ok info, s)
    | None =>
        let info :=
          match yf_get_info w (asked s) ticker with
          | Ok info => info
          | Raise _ => VDict ∅
          end in
        (Ok info,
         set_cache_info (<[ticker := info]> (cache_info s))
           (set_asked (S (asked s))
              (set_sent (sent s ++ [ReqInfo ticker])%list s)))
    end.
Proof.
  unfold get_info_cached, cached.
  destruct (cache_info s !! ticker) as [info|]; [done|].
  unfold try_except, bind, call, ask, lift, send, ret. simpl.
  by destruct (yf_get_info w (asked s) ticker).
Qed.

Lemma get_company_news_eq (w : World) (symbol api_key : string) (s : St) :
  get_company_news w symbol api_key s =
    match cache_news s !! (symbol, api_key) with
    | Some news => (Ok news, s)
    | None =>
        if String.eqb api_key "" then
          (Ok [], set_cache_news (<[(symbol, api_key) := []]> (cache_news s)) s)
        else
          let today := date_today w (asked s) in
          let news :=
            Spec.news_of_response
              (requests_get_news w (S (asked s)) symbol (today - 30) today api_key) in
          (Ok news,
           set_cache_news (<[(symbol, api_key) := news]> (cache_news s))
             (set_asked (S (S (asked s)))
                (set_sent (sent s ++ [ReqNews symbol (today - 30) today api_key])%list s)))
    end.
Proof.
  unfold get_company_news, cached.
  destruct (cache_news s !! (symbol, api_key)) as [news|]; [done|].
  simpl. destruct (String.eqb api_key ""); [done|]. simpl.
  unfold try_except, bind, call, ask, lift, send, ret, Spec.news_of_response. simpl.
  destruct (requests_get_news _ _ _ _ _ _) as [resp|e]; [|done]. simpl.
  destruct (Z.eqb (status_code resp) 200); [|done].
  destruct (json resp) as [data|e]; [|done].
  by destruct (news_filter data).
Qed.

Lemma news_of_failed_response (r : outcome response) :
  Spec.news_request_failed r -> Spec.news_of_response r = [].
Proof.
  destruct r as [resp|e]; [|done]. simpl.
  intros [Hstatus | [[e Hjson] | (data & e & Hjson & Hfilter)]].
  - by destruct (Z.eqb_spec (status_code resp) 200).
  - rewrite Hjson. by destruct (Z.eqb (status_code resp) 200).
  - rewrite Hjson, Hfilter. by destruct (Z.eqb (status_code resp) 200).
Qed.

(** ** An invariant of the news table *)

Section Keeps.

Variable w : World.

Lemma keeps_ret {A} (a : A) : Spec.keeps (ret a).
Proof. by intros s Hs. Qed.

Lemma keeps_lift {A} (o : outcome A) : Spec.keeps (lift o).
Proof. by intros s Hs. Qed.

Lemma keeps_ask {A} (q : nat -> A) : Spec.keeps (ask q).
Proof. by intros s Hs. Qed.

Lemma keeps_send (r : request) : Spec.keeps (send r).
Proof. by intros s Hs. Qed.

Lemma keeps_show (e : event) : Spec.keeps (show e).
Proof. by intros s Hs. Qed.

Lemma keeps_bind {A B} (m : M A) (k : A -> M B) :
  Spec.keeps m -> (forall a, Spec.keeps (k a)) -> Spec.keeps (bind m k).
Proof.
  intros Hm Hk s Hs. unfold bind. specialize (Hm s Hs).
  destruct (m s) as [[a|e] s1]; simpl in *; [by apply Hk | done].
Qed.

Lemma keeps_call {A} (q : nat -> outcome A) : Spec.keeps (call q).
Proof. apply keeps_bind; [apply keeps_ask | intros; apply keeps_lift]. Qed.

Lemma keeps_try_except {A} (body : M A) (handler : exn -> M A) :
  Spec.keeps body -> (forall e, Spec.keeps (handler e)) ->
  Spec.keeps (try_except body handler).
Proof.
  intros Hb Hh s Hs. unfold try_except. specialize (Hb s Hs).
  destruct (body s) as [[a|e] s1]; simpl in *; [done | by apply Hh].
Qed.

Lemma keeps_for_each {A} (xs : list A) (body : A -> M unit) :
  (forall x, Spec.keeps (body x)) -> Spec.keeps (for_each xs body).
Proof.
  intros Hbody. induction xs as [|x xs IH]; simpl.
  - apply keeps_ret.
  - apply keeps_bind; [apply Hbody | by intros _].
Qed.

Lemma keeps_get_stock_data (ticker period : string) :
  Spec.keeps (get_stock_data w ticker period).
Proof.
  intros s Hs. rewrite get_stock_data_eq.
  by destruct (cache_stock s !! _).
Qed.

Lemma keeps_get_info_cached (ticker : string) :
  Spec.keeps (get_info_cached w ticker).
Proof.
  intros s Hs. rewrite get_info_cached_eq.
  by destruct (cache_info s !! _).
Qed.

(** The one writer of the table stores the empty list under an empty key. *)
Lemma keeps_get_company_news (symbol api_key : string) :
  Spec.keeps (get_company_news w symbol api_key).
Proof.
  intros s Hs. rewrite get_company_news_eq.
  destruct (cache_news s !! (symbol, api_key)) eqn:Hmiss; [done|].
  destruct (String.eqb_spec api_key "") as [-> | Hkey].
  - intros symbol' news. simpl.
    destruct (decide (symbol' = symbol)) as [-> | Hne].
    + rewrite lookup_insert_eq. by intros [= <-].
    + rewrite lookup_insert_ne by congruence. apply Hs.
  - intros symbol' news. simpl.
    rewrite lookup_insert_ne by congruence. apply Hs.
Qed.

End Keeps.

Create HintDb keeps.

#[local] Hint Resolve keeps_ret keeps_lift keeps_ask keeps_send keeps_show
  keeps_call keeps_get_stock_data keeps_get_info_cached
  keeps_get_company_news : keeps.

(** Walks a script: splits binds, handlers and loops, and cases on what a
    branch of the script looks at. *)
Ltac keeps_walk :=
  repeat first
    [ progress auto with keeps
    | apply keeps_bind; [|intros ?]
    | apply keeps_try_except; [|intros ?]
    | apply keeps_for_each; intros ?
    | match goal with
      | |- Spec.keeps (if ?b then _ else _) => destruct b
      | |- Spec.keeps (match ?x with _ => _ end) => destruct x
      end ].

Section KeepsScript.

Variable w : World.
Variable period : string.
Variable finnhub_api : string.
Variable bg_image : option image.

Lemma keeps_process_ticker (ticker : string) :
  Spec.keeps (process_ticker w period finnhub_api bg_image ticker).
Proof.
  unfold process_ticker, render_company_header, render_chart,
    render_matplotlib_cyberpunk_chart, render_plotly_fallback, render_metrics,
    render_daily_change, render_summary, render_news, render_articles,
    render_article.
  keeps_walk.
Qed.

(** From a sound news table the main loop ends with a sound news table. *)
Lemma keeps_main_loop (tickers : list string) :
  Spec.keeps (main_loop w period finnhub_api bg_image tickers).
Proof.
  unfold main_loop, loop_body. keeps_walk.
Qed.

Lemma fresh_news_cache_sound : Spec.news_cache_sound Sample.fresh.
Proof. intros symbol news Hin. vm_compute in Hin. discriminate. Qed.

End KeepsScript.

(** ** C2: the cached lookups *)

(** C2. None of the three cached lookups raises.  When the entry is not
    cached and the client fails, the history lookup gives the empty frame,
    the info lookup the empty mapping and the news lookup the empty list;
    with an empty API key the news lookup sends no request, asks the world
    nothing and returns the empty list, both when nothing is cached for
    the key and whenever the news table is sound, which it is at the start
    and stays throughout the main loop. *)
Theorem cached_lookups_absorb_failures
    (w : World) (ticker period api_key : string) (s : St) :
  (exists hist s', get_stock_data w ticker period s = (Ok hist, s')) /\
  (exists info s', get_info_cached w ticker s = (Ok info, s')) /\
  (exists news s', get_company_news w ticker api_key s = (Ok news, s')) /\
  (forall e,
     cache_stock s !! (ticker, period) = None ->
     yf_history w (asked s) ticker period = Raise e ->
     fst (get_stock_data w ticker period s) = Ok (Some [])) /\
  (forall e,
     cache_info s !! ticker = None ->
     yf_get_info w (asked s) ticker = Raise e ->
     fst (get_info_cached w ticker s) = Ok (VDict ∅)) /\
  (cache_news s !! (ticker, api_key) = None ->
   api_key <> "" ->
   Spec.news_request_failed
     (requests_get_news w (S (asked s)) ticker
        (date_today w (asked s) - 30) (date_today w (asked s)) api_key) ->
   fst (get_company_news w ticker api_key s) = Ok []) /\
  (sent (snd (get_company_news w ticker "" s)) = sent s /\
   asked (snd (get_company_news w ticker "" s)) = asked s /\
   (cache_news s !! (ticker, "") = None ->
    fst (get_company_news w ticker "" s) = Ok []) /\
   (Spec.news_cache_sound s ->
    fst (get_company_news w ticker "" s) = Ok [])).
Proof.
  repeat split.
  - rewrite get_stock_data_eq. destruct (cache_stock s !! _); eauto.
  - rewrite get_info_cached_eq. destruct (cache_info s !! _); eauto.
  - rewrite get_company_news_eq.
    destruct (cache_news s !! _); [eauto|].
    destruct (String.eqb api_key ""); eauto.
  - intros e Hmiss Hfail. by rewrite get_stock_data_eq, Hmiss, Hfail.
  - intros e Hmiss Hfail. by rewrite get_info_cached_eq, Hmiss, Hfail.
  - intros Hmiss Hkey Hfail. rewrite get_company_news_eq, Hmiss.
    destruct (String.eqb_spec api_key ""); [done|].
    simpl. by rewrite news_of_failed_response.
  - rewrite get_company_news_eq. by destruct (cache_news s !! _).
  - rewrite get_company_news_eq. by destruct (cache_news s !! _).
  - intros Hmiss. by rewrite get_company_news_eq, Hmiss.
  - intros Hsound. rewrite get_company_news_eq.
    destruct (cache_news s !! (ticker, "")) as [news|] eqn:Hhit; [|done].
    by rewrite (Hsound ticker news Hhit).
Qed.

Lemma cached_lookups_absorb_failures_witness :
  fst (get_stock_data Sample.dead "AAA" "1mo" Sample.fresh) = Ok (Some []) /\
  fst (get_info_cached Sample.dead "AAA" Sample.fresh) = Ok (VDict ∅) /\
  fst (get_company_news Sample.dead "AAA" "key" Sample.fresh) = Ok [] /\
  fst (get_company_news Sample.dead "AAA" "" Sample.fresh) = Ok [].
Proof.
  destruct (cached_lookups_absorb_failures Sample.dead "AAA" "1mo" "key" Sample.fresh)
    as (_ & _ & _ & Hhist & Hinfo & Hnews & _ & _ & Hnokey & _).
  split; [|split; [|split]].
  - apply (Hhist (Exn "ConnectionError" "offline")); reflexivity.
  - apply (Hinfo (Exn "ConnectionError" "offline")); reflexivity.
  - apply Hnews; [reflexivity | discriminate | exact I].
  - apply Hnokey. reflexivity.
Defined.

(** ** C5: the daily change *)

Lemma daily_change_total (hist_5d : option DataFrame) :
  exists r, daily_change hist_5d = Ok r.
Proof.
  destruct hist_5d as [df|]; [|by eexists].
  destruct (Nat.le_gt_cases 2 (length df)) as [Hlen|Hshort].
  - destruct (two_last_rows df Hlen) as (front & a & b & ->).
    eexists. apply daily_change_two_last.
  - eexists. by apply daily_change_short.
Qed.

(** C5. The daily-change metric exists exactly when the 5-day frame has at
    least two rows; its value is the last close minus the one before, its
    delta that change over the close before, times 100, both with two
    decimals; closes 100 and 105 give 5.00 and 5.00%; a shorter frame gives
    no metric, and the computation never raises.  The column shows the
    metric when there is one and nothing otherwise. *)
Theorem daily_change_iff_two_points (hist_5d : option DataFrame) :
  ((exists shown_as, daily_change hist_5d = Ok (Some shown_as)) <->
   (exists df, hist_5d = Some df /\ (2 <= length df)%nat)) /\
  ((~ exists df, hist_5d = Some df /\ (2 <= length df)%nat) <->
   daily_change hist_5d = Ok None) /\
  (forall (front : DataFrame) (prev last : row),
     let change := PrimFloat.sub (Close last) (Close prev) in
     let pct := PrimFloat.mul (PrimFloat.div change (Close prev)) 100 in
     daily_change (Some (front ++ [prev; last])%list) =
       Ok (Some ("$" ++ Fmt.format_f false 2 change, Fmt.format_f false 2 pct ++ "%"))) /\
  daily_change (Some [Row 0 100; Row 1 105]) = Ok (Some ("$5.00", "5.00%")) /\
  (forall (w : World) (ticker : string) (s : St),
     exists hist s1,
       get_stock_data w ticker "5d" s = (Ok hist, s1) /\
       render_daily_change w ticker s =
         (Ok tt,
          match daily_change hist with
          | Ok (Some (value, delta)) =>
              set_shown (shown s1 ++ [Metric "Daily Change" value (Some delta)])%list s1
          | _ => s1
          end)).
Proof.
  split; [|split; [|split; [|split]]].
  - split.
    + intros [shown_as Hd]. destruct hist_5d as [df|]; [|discriminate].
      exists df. split; [done|].
      destruct (Nat.le_gt_cases 2 (length df)) as [|Hshort]; [done|].
      rewrite daily_change_short in Hd by lia. discriminate.
    + intros (df & -> & Hlen).
      destruct (two_last_rows df Hlen) as (front & a & b & ->).
      eexists. apply daily_change_two_last.
  - split.
    + intros Hno. destruct hist_5d as [df|]; [|done].
      apply daily_change_short.
      destruct (Nat.le_gt_cases 2 (length df)) as [Hlen|]; [|lia].
      exfalso. apply Hno. by exists df.
    + intros Hd (df & -> & Hlen).
      destruct (two_last_rows df Hlen) as (front & a & b & ->).
      rewrite daily_change_two_last in Hd. discriminate.
  - intros front prev last. apply daily_change_two_last.
  - vm_compute. reflexivity.
  - intros w ticker s.
    destruct (get_stock_data w ticker "5d" s) as [r s1] eqn:Hget.
    assert (exists hist, r = Ok hist) as [hist ->].
    { rewrite get_stock_data_eq in Hget.
      destruct (cache_stock s !! _); inversion Hget; eauto. }
    exists hist, s1. split; [done|].
    unfold render_daily_change, bind, lift. rewrite Hget.
    destruct (daily_change_total hist) as [[[value delta]|] ->]; done.
Qed.

(** ** C7: the metrics read from [info] *)

Lemma resolve_price_eq (info : gmap string pyval) :
  resolve_price (VDict info) =
    Ok (py_or (dict_get info "currentPrice") (dict_get info "regularMarketPrice")).
Proof. unfold resolve_price, py_or. simpl. by destruct (truthy _). Qed.

Lemma truthy_field_None (info : gmap string pyval) (k : string) :
  Spec.truthy_field info k = None -> truthy (dict_get info k) = false.
Proof.
  unfold Spec.truthy_field, dict_get.
  destruct (info !! k) as [v|]; [|done]. simpl.
  by destruct (truthy v).
Qed.

Lemma truthy_field_Some (info : gmap string pyval) (k : string) (v : pyval) :
  Spec.truthy_field info k = Some v -> dict_get info k = v /\ truthy v = true.
Proof.
  unfold Spec.truthy_field, dict_get.
  destruct (info !! k) as [v'|]; [|done]. simpl.
  destruct (truthy v') eqn:Hv; [|done]. intros [= <-]. done.
Qed.

(** The text of the price metric is the reading by truthiness: the first
    of the two fields that is present with a truthy value, formatted, else
    "N/A". *)
Lemma price_text_by_truthiness (info : gmap string pyval) :
  price_text (py_or (dict_get info "currentPrice") (dict_get info "regularMarketPrice"))
    = Spec.current_price_by_truthiness info.
Proof.
  unfold Spec.current_price_by_truthiness, py_or, price_text, Spec.price_display.
  destruct (Spec.truthy_field info "currentPrice") as [cp|] eqn:Hcp.
  - apply truthy_field_Some in Hcp as [-> Ht]. by rewrite !Ht.
  - rewrite (truthy_field_None _ _ Hcp).
    destruct (Spec.truthy_field info "regularMarketPrice") as [rp|] eqn:Hrp.
    + apply truthy_field_Some in Hrp as [-> Ht]. by rewrite Ht.
    + by rewrite (truthy_field_None _ _ Hrp).
Qed.

(** C7 at the empty mapping and at any mapping without the two range
    fields: the market cap shows "N/A", the 52-week range shows
    "$None / $None"; in general the range metric prints the two looked-up
    values as they are. *)
Theorem range_metric_of_missing_fields (repr : pyval -> string) (info : gmap string pyval) :
  range_metric repr (VDict ∅) = Ok "$None / $None" /\
  range_metric repr
    (VDict (delete "fiftyTwoWeekHigh" (delete "fiftyTwoWeekLow" info)))
    = Ok "$None / $None" /\
  range_metric repr (VDict ∅) <> Ok "N/A" /\
  market_cap_metric (VDict (delete "marketCap" info)) = Ok "N/A" /\
  range_metric repr (VDict info) =
    Ok ("$" ++ py_str repr (dict_get info "fiftyTwoWeekHigh")
        ++ " / $" ++ py_str repr (dict_get info "fiftyTwoWeekLow")).
Proof.
  repeat split.
  - unfold range_metric, py_get, dict_get. simpl.
    rewrite lookup_delete_eq. rewrite lookup_delete_ne by done.
    by rewrite lookup_delete_eq.
  - discriminate.
  - unfold market_cap_metric, py_get, dict_get. simpl.
    by rewrite lookup_delete_eq.
Qed.

(** ** C8: the news filter and the cap of five *)

Lemma news_item_ok_text (item : gmap string pyval) :
  Spec.text_fields item ->
  news_item_ok (VDict item) = Ok (Spec.news_item_valid item).
Proof.
  intros Htext.
  unfold news_item_ok, Spec.news_item_valid, Spec.field_nonempty, dict_get. simpl.
  unfold dict_get.
  destruct (item !! "headline") as [h|] eqn:Hh; simpl; [|done].
  destruct (Htext "headline" h (or_introl eq_refl) Hh) as [text ->]. simpl.
  destruct (negb (String.eqb text "")); [|done]. simpl.
  destruct (item !! "url") as [u|] eqn:Hu; simpl; [|done].
  by destruct (Htext "url" u (or_intror eq_refl) Hu) as [text' ->].
Qed.

Lemma news_keep_text (items : list (gmap string pyval)) :
  Forall Spec.text_fields items ->
  news_keep (VDict <$> items) = Ok (VDict <$> List.filter Spec.news_item_valid items).
Proof.
  induction 1 as [|item items Htext _ IH]; [done|].
  change (news_keep (VDict <$> item :: items)) with
    (obind (news_item_ok (VDict item)) (fun keep =>
     obind (news_keep (VDict <$> items)) (fun kept =>
     Ok (if keep then VDict item :: kept else kept)))).
  rewrite (news_item_ok_text item Htext), IH. simpl.
  by destruct (Spec.news_item_valid item).
Qed.

Lemma filter_sublist {A} (keep : A -> bool) (l : list A) :
  sublist (List.filter keep l) l.
Proof.
  induction l as [|x l IH]; simpl; [constructor|].
  destruct (keep x); by constructor.
Qed.

(** What the news loop puts on the page: one card per article, in order,
    up to the first article whose card cannot be built. *)
Lemma for_each_article_cards (w : World) (articles : list pyval) (s : St) :
  exists cards,
    shown (snd (for_each articles (render_article w) s)) = (shown s ++ (Html <$> cards))%list /\
    (length cards <= length articles)%nat /\
    Forall2 (fun article card => article_card w article = Ok card)
      (take (length cards) articles) cards.
Proof.
  revert s. induction articles as [|article articles IH]; intros s.
  - exists []. simpl. rewrite app_nil_r. split; [done|]. split; [lia|]. constructor.
  - simpl. unfold bind at 1. unfold render_article at 1. unfold bind at 1, lift.
    destruct (article_card w article) as [card|e] eqn:Hcard.
    + unfold show at 1.
      destruct (IH (set_shown (shown s ++ [Html card])%list s)) as (cards & Hshown & Hlen & Hall).
      exists (card :: cards). simpl. split; [|split].
      * rewrite Hshown. simpl. by rewrite <- app_assoc.
      * lia.
      * by constructor.
    + exists []. simpl. rewrite app_nil_r. split; [done|]. split; [lia|]. constructor.
Qed.

Lemma sample_item_text_fields (headline url : string) :
  Spec.text_fields (Sample.item headline url).
Proof.
  intros k v [-> | ->] Hk; vm_compute in Hk; injection Hk as <-; eauto.
Qed.

(** C8. Of the fetched items, whose two required fields are texts where
    present, the filter keeps exactly those with a non-empty headline and a
    non-empty url, in the provider's order; the page gets at most five
    cards, one per kept item from the front of the list.  An item with an
    empty headline is dropped, one with headline "A" and a url is kept. *)
Theorem news_filter_keeps_valid_items
    (w : World) (items : list (gmap string pyval)) (s : St) :
  Forall Spec.text_fields items ->
  let kept := List.filter Spec.news_item_valid items in
  news_filter (VList (VDict <$> items)) = Ok (VDict <$> kept) /\
  (forall item, item ∈ kept <-> item ∈ items /\ Spec.news_item_valid item = true) /\
  sublist kept items /\
  (exists cards,
     shown (snd (render_articles w (VDict <$> kept) s)) = (shown s ++ (Html <$> cards))%list /\
     (length cards <= 5)%nat /\
     Forall2 (fun article card => article_card w article = Ok card)
       (take (length cards) (VDict <$> kept)) cards) /\
  Spec.news_item_valid (Sample.item "" "https://x") = false /\
  Spec.news_item_valid (Sample.item "A" "https://x") = true.
Proof.
  intros Htext kept. split; [|split; [|split; [|split]]].
  - unfold news_filter. simpl. by apply news_keep_text.
  - intros item. unfold kept. rewrite !list_elem_of_In. apply filter_In.
  - apply filter_sublist.
  - unfold render_articles.
    destruct (for_each_article_cards w (take 5 (VDict <$> kept)) s)
      as (cards & Hshown & Hlen & Hall).
    rewrite length_take in Hlen.
    exists cards. split; [done|]. split; [lia|].
    rewrite take_take in Hall.
    by replace (length cards `min` 5)%nat with (length cards) in Hall by lia.
  - split; reflexivity.
Qed.

Lemma news_filter_keeps_valid_items_witness :
  news_filter
    (VList [VDict (Sample.item "" "https://x"); VDict (Sample.item "A" "https://x")])
  = Ok [VDict (Sample.item "A" "https://x")].
Proof.
  apply (news_filter_keeps_valid_items Sample.plain
           [Sample.item "" "https://x"; Sample.item "A" "https://x"] Sample.fresh).
  repeat constructor; apply sample_item_text_fields.
Defined.

(** ** C9: the refresh check *)

(** The comparison is the strict order of the numbers compared. *)
Lemma float_gt_int_exact (f : float) (z : Z) (q : Q) :
  Refresh.float_value f = Some q ->
  Refresh.float_gt_int f z = true <-> (inject_Z z < q)%Q.
Proof.
  unfold Refresh.float_value, Refresh.float_gt_int.
  destruct (Prim2SF f) as [sg| sg | |sg m e]; try discriminate; intros [= <-].
  - rewrite Z.ltb_lt, (Zlt_Qlt z 0). reflexivity.
  - set (v := if sg then Z.neg m else Z.pos m).
    destruct (Z.leb_spec 0 e) as [He|He].
    + rewrite Z.ltb_lt, Zlt_Qlt, inject_Z_mult.
      rewrite (Zpower_Qpower 2 e He). reflexivity.
    + rewrite Z.ltb_lt, Zlt_Qlt, inject_Z_mult.
      assert (Hpow : (0 < inject_Z (2 ^ (- e)))%Q).
      { change (inject_Z 0 < inject_Z (2 ^ (- e)))%Q. rewrite <- Zlt_Qlt.
        apply Z.pow_pos_nonneg; lia. }
      replace e with (- (- e)) at 2 by lia.
      rewrite Qpower_opp, <- (Zpower_Qpower 2 (- e)) by lia.
      split; intros H.
      * apply Qlt_shift_div_l; assumption.
      * apply (Qmult_lt_r _ _ _ Hpow) in H.
        rewrite <- Qmult_assoc, (Qmult_comm (/ _)), Qmult_inv_r, Qmult_1_r in H;
          [assumption|].
        intros Heq. rewrite Heq in Hpow. apply (Qlt_irrefl 0), Hpow.
Qed.

(** C9. With a stored [last_refresh], the check asks for a rerun exactly
    when the elapsed time is strictly greater than the interval; it then
    stores the current clock reading as the new [last_refresh], and
    otherwise leaves the session as it is.  With an interval of 60, an
    elapsed time of 61 reruns and resets, one of 59 or of exactly 60 does
    neither. *)
Theorem refresh_due_iff_elapsed_exceeds_interval
    (t0 t1 last : float) (refresh_rate : Z) (ss : Refresh.session_state) :
  ss !! "last_refresh" = Some last ->
  let elapsed := PrimFloat.sub t0 last in
  (snd (Refresh.refresh_check t0 t1 refresh_rate ss) = true <->
   Refresh.float_gt_int elapsed refresh_rate = true) /\
  (forall q, Refresh.float_value elapsed = Some q ->
     snd (Refresh.refresh_check t0 t1 refresh_rate ss) = true <->
     (inject_Z refresh_rate < q)%Q) /\
  (Refresh.float_gt_int elapsed refresh_rate = true ->
   Refresh.refresh_check t0 t1 refresh_rate ss = (<["last_refresh" := t1]> ss, true)) /\
  (Refresh.float_gt_int elapsed refresh_rate = false ->
   Refresh.refresh_check t0 t1 refresh_rate ss = (ss, false)) /\
  (elapsed = 61%float ->
   Refresh.refresh_check t0 t1 60 ss = (<["last_refresh" := t1]> ss, true)) /\
  (elapsed = 59%float -> Refresh.refresh_check t0 t1 60 ss = (ss, false)) /\
  (elapsed = 60%float -> Refresh.refresh_check t0 t1 60 ss = (ss, false)).
Proof.
  intros Hlast elapsed. unfold Refresh.refresh_check. rewrite Hlast.
  fold elapsed.
  split; [|split; [|split; [|split; [|split; [|split]]]]].
  - by destruct (Refresh.float_gt_int elapsed refresh_rate).
  - intros q Hq. rewrite <- (float_gt_int_exact elapsed refresh_rate q Hq).
    by destruct (Refresh.float_gt_int elapsed refresh_rate).
  - by intros ->.
  - by intros ->.
  - by intros ->.
  - by intros ->.
  - by intros ->.
Qed.

Lemma refresh_due_iff_elapsed_exceeds_interval_witness :
  Refresh.refresh_check 1061 1061.5 60 Sample.refreshed_at_1000
    = (<["last_refresh" := 1061.5%float]> Sample.refreshed_at_1000, true) /\
  Refresh.refresh_check 1059 1059.5 60 Sample.refreshed_at_1000
    = (Sample.refreshed_at_1000, false).
Proof.
  split.
  - destruct (refresh_due_iff_elapsed_exceeds_interval 1061 1061.5 1000 60
                Sample.refreshed_at_1000 eq_refl) as (_ & _ & _ & _ & Hdue & _).
    apply Hdue. reflexivity.
  - destruct (refresh_due_iff_elapsed_exceeds_interval 1059 1059.5 1000 60
                Sample.refreshed_at_1000 eq_refl) as (_ & _ & _ & _ & _ & Hidle & _).
    apply Hidle. reflexivity.
Defined.

(** ** The main loop *)

Section Loop.

Variable w : World.
Variable period : string.
Variable finnhub_api : string.
Variable bg_image : option image.

Abbreviation body := (loop_body w period finnhub_api bg_image).
Abbreviation process := (process_ticker w period finnhub_api bg_image).

Lemma get_info_cached_total (ticker : string) (s : St) :
  exists info s',
    get_info_cached w ticker s = (Ok info, s') /\ shown s' = shown s.
Proof.
  rewrite get_info_cached_eq. destruct (cache_info s !! ticker); eauto.
Qed.

Lemma get_stock_data_total (ticker per : string) (s : St) :
  exists hist s',
    get_stock_data w ticker per s = (Ok hist, s') /\ shown s' = shown s.
Proof.
  rewrite get_stock_data_eq. destruct (cache_stock s !! _); eauto.
Qed.

(** The [except] clause turns every raise of the body into one error line. *)
Lemma loop_body_eq (ticker : string) (s : St) :
  body ticker s =
    match process ticker s with
    | (Ok tt, s') => (Ok tt, s')
    | (Raise e, s') =>
        (Ok tt,
         set_shown
           (shown s' ++ [Error ("Could not load info for " ++ ticker ++ ": " ++ exn_str e)])%list
           s')
    end.
Proof.
  unfold loop_body, try_except.
  by destruct (process ticker s) as [[[]|e] s'].
Qed.

Lemma loop_body_total (ticker : string) (s : St) :
  exists s', body ticker s = (Ok tt, s').
Proof.
  rewrite loop_body_eq. destruct (process ticker s) as [[[]|e] s']; eauto.
Qed.

Lemma for_each_cons {A} (f : A -> M unit) (x : A) (rest : list A) (s s' : St) :
  f x s = (Ok tt, s') -> for_each (x :: rest) f s = for_each rest f s'.
Proof. intros Hx. simpl. unfold bind. by rewrite Hx. Qed.

Lemma for_each_app {A} (f : A -> M unit) (l1 l2 : list A) (s s' : St) :
  for_each l1 f s = (Ok tt, s') -> for_each (l1 ++ l2) f s = for_each l2 f s'.
Proof.
  revert s. induction l1 as [|x l1 IH]; intros s Hl1; simpl in *.
  - unfold ret in Hl1. by injection Hl1 as ->.
  - unfold bind in *. destruct (f x s) as [[[]|e] s1]; [|discriminate].
    by apply IH.
Qed.

Lemma ticker_loop_total (tickers : list string) (s : St) :
  exists s', for_each tickers body s = (Ok tt, s').
Proof.
  revert s. induction tickers as [|t tickers IH]; intros s.
  - by exists s.
  - destruct (loop_body_total t s) as [s1 Ht].
    rewrite (for_each_cons _ _ _ _ _ Ht). apply IH.
Qed.

Lemma main_loop_total (tickers : list string) (s : St) :
  exists s', main_loop w period finnhub_api bg_image tickers s = (Ok tt, s').
Proof.
  unfold main_loop, bind.
  destruct (ticker_loop_total tickers s) as [s1 ->]. by eexists.
Qed.

(** C3. When the history fetched for a ticker is None or empty, the turn
    of the loop puts the "no data" notice for that ticker on the page and
    nothing else: no chart, no metric, and no drawing step is even asked
    for; the turn ends normally and the loop goes on with the next
    ticker. *)
Theorem no_data_ticker_only_warns
    (ticker : string) (rest : list string) (s s1 s2 : St)
    (info : pyval) (hist : option DataFrame) :
  get_info_cached w ticker s = (Ok info, s1) ->
  get_stock_data w ticker period s1 = (Ok hist, s2) ->
  hist = None \/ hist = Some [] ->
  let notice := Warning ("No data available for " ++ ticker) in
  let s' := set_shown (shown s ++ [notice])%list s2 in
  body ticker s = (Ok tt, s') /\
  shown s' = (shown s ++ [notice])%list /\
  Spec.is_chart notice = false /\ Spec.is_metric notice = false /\
  asked s' = asked s2 /\ sent s' = sent s2 /\
  for_each (ticker :: rest) body s = for_each rest body s'.
Proof.
  intros Hinfo Hhist Hempty notice s'.
  assert (Hshown : shown s2 = shown s).
  { destruct (get_info_cached_total ticker s) as (? & ? & Hi & Hs1).
    destruct (get_stock_data_total ticker period s1) as (? & ? & Hh & Hs2).
    rewrite Hinfo in Hi. rewrite Hhist in Hh.
    injection Hi as <- <-. injection Hh as <- <-. congruence. }
  assert (Hproc : process ticker s = (Ok tt, s')).
  { unfold process_ticker, bind. rewrite Hinfo, Hhist.
    assert (no_data hist = true) as -> by (by destruct Hempty as [-> | ->]).
    unfold show. by rewrite Hshown. }
  assert (Hbody : body ticker s = (Ok tt, s')) by (by rewrite loop_body_eq, Hproc).
  repeat split; [done|].
  by apply for_each_cons.
Qed.

(** C1. When the processing of a ticker raises, the turn of the loop for
    that ticker still ends normally: what it had shown stays, one error
    line naming the ticker and carrying the exception text is added, and
    the loop runs the remaining tickers from there, each through its own
    turn, to a normal end, footer included. *)
Theorem ticker_failure_is_isolated
    (before : list string) (ticker : string) (after : list string)
    (s s_before s_fail : St) (e : exn) :
  for_each before body s = (Ok tt, s_before) ->
  process ticker s_before = (Raise e, s_fail) ->
  let report := Error ("Could not load info for " ++ ticker ++ ": " ++ exn_str e) in
  let s_err := set_shown (shown s_fail ++ [report])%list s_fail in
  body ticker s_before = (Ok tt, s_err) /\
  for_each (before ++ ticker :: after) body s = for_each after body s_err /\
  (exists s_end, for_each after body s_err = (Ok tt, s_end)) /\
  (exists s_end,
     main_loop w period finnhub_api bg_image (before ++ ticker :: after) s = (Ok tt, s_end)).
Proof.
  intros Hbefore Hfail report s_err.
  assert (Hbody : body ticker s_before = (Ok tt, s_err))
    by (by rewrite loop_body_eq, Hfail).
  split; [done|]. split; [|split].
  - rewrite (for_each_app _ _ _ _ _ Hbefore). by apply for_each_cons.
  - apply ticker_loop_total.
  - apply main_loop_total.
Qed.

End Loop.

Lemma no_data_ticker_only_warns_witness :
  shown (snd (loop_body Sample.plain "1mo" "" None "NIL" Sample.fresh))
    = [Warning "No data available for NIL"].
Proof.
  assert (Hinfo : get_info_cached Sample.plain "NIL" Sample.fresh
                  = (Ok (VDict ∅), snd (get_info_cached Sample.plain "NIL" Sample.fresh)))
    by (vm_compute; reflexivity).
  assert (Hhist : get_stock_data Sample.plain "NIL" "1mo"
                    (snd (get_info_cached Sample.plain "NIL" Sample.fresh))
                  = (Ok (Some []),
                     snd (get_stock_data Sample.plain "NIL" "1mo"
                            (snd (get_info_cached Sample.plain "NIL" Sample.fresh)))))
    by (vm_compute; reflexivity).
  destruct (no_data_ticker_only_warns Sample.plain "1mo" "" None "NIL" [] _ _ _ _ _
              Hinfo Hhist (or_intror eq_refl)) as (Hbody & _).
  rewrite Hbody. vm_compute. reflexivity.
Defined.

Lemma ticker_failure_is_isolated_witness :
  exists s_err,
    loop_body Sample.plain "1mo" "" None "BAD"
      (snd (for_each ["AAA"] (loop_body Sample.plain "1mo" "" None) Sample.fresh))
      = (Ok tt, s_err) /\
    last (shown s_err)
      = Some (Error "Could not load info for BAD: 'NoneType' object has no attribute 'get'") /\
    for_each ["AAA"; "BAD"; "NIL"] (loop_body Sample.plain "1mo" "" None) Sample.fresh
      = for_each ["NIL"] (loop_body Sample.plain "1mo" "" None) s_err.
Proof.
  assert (Hbefore : for_each ["AAA"] (loop_body Sample.plain "1mo" "" None) Sample.fresh
            = (Ok tt, snd (for_each ["AAA"] (loop_body Sample.plain "1mo" "" None) Sample.fresh)))
    by (vm_compute; reflexivity).
  assert (Hfail : process_ticker Sample.plain "1mo" "" None "BAD"
                    (snd (for_each ["AAA"] (loop_body Sample.plain "1mo" "" None) Sample.fresh))
            = (Raise (Exn "AttributeError" "'NoneType' object has no attribute 'get'"),
               snd (process_ticker Sample.plain "1mo" "" None "BAD"
                      (snd (for_each ["AAA"] (loop_body Sample.plain "1mo" "" None)
                              Sample.fresh)))))
    by (vm_compute; reflexivity).
  destruct (ticker_failure_is_isolated Sample.plain "1mo" "" None
              ["AAA"] "BAD" ["NIL"] _ _ _ _ Hbefore Hfail) as (Hbody & Hrest & _).
  eexists. split; [exact Hbody|]. split; [vm_compute; reflexivity | exact Hrest].
Defined.

(** ** C4: the renderer pair *)

Section Chart.

Variable w : World.
Variable bg_image : option image.
Variable hist : DataFrame.
Variable ticker : string.

Abbreviation plot_tick := (Spec.plot_tick bg_image).

Lemma primary_unavailable (s : St) (e : exn) :
  mpl_import w (asked s) = Raise e ->
  render_matplotlib_cyberpunk_chart w hist ticker bg_image s
    = (Ok false, set_asked (S (asked s)) s).
Proof.
  intros Himport.
  unfold render_matplotlib_cyberpunk_chart, bind, try_except, call, ask, lift, ret.
  simpl. by rewrite Himport.
Qed.

Lemma primary_setup_raises (s : St) (e : exn) :
  mpl_import w (asked s) = Ok tt ->
  mpl_setup w (S (asked s)) = Raise e ->
  exists s',
    render_matplotlib_cyberpunk_chart w hist ticker bg_image s = (Raise e, s') /\
    shown s' = shown s.
Proof.
  intros Himport Hsetup.
  unfold render_matplotlib_cyberpunk_chart, bind, try_except, call, ask, lift, ret.
  simpl. rewrite Himport. simpl. rewrite Hsetup. eauto.
Qed.

Lemma primary_plot_raises (s : St) (e : exn) :
  mpl_import w (asked s) = Ok tt ->
  mpl_setup w (S (asked s)) = Ok tt ->
  mpl_plot w (plot_tick s) hist ticker = Raise e ->
  exists s',
    render_matplotlib_cyberpunk_chart w hist ticker bg_image s = (Raise e, s') /\
    shown s' = shown s.
Proof.
  intros Himport Hsetup Hplot. unfold Spec.plot_tick in Hplot.
  unfold render_matplotlib_cyberpunk_chart, bind, try_except, call, ask, lift, ret.
  simpl. rewrite Himport. simpl. rewrite Hsetup. simpl.
  destruct bg_image as [img|]; simpl.
  - replace (S (S (S (asked s)))) with (asked s + 3)%nat by lia.
    destruct (mpl_imshow w _ img hist); simpl; rewrite Hplot; eauto.
  - replace (S (S (asked s))) with (asked s + 2)%nat by lia.
    rewrite Hplot. eauto.
Qed.

Lemma primary_completes (s : St) :
  mpl_import w (asked s) = Ok tt ->
  mpl_setup w (S (asked s)) = Ok tt ->
  mpl_plot w (plot_tick s) hist ticker = Ok tt ->
  exists s',
    render_matplotlib_cyberpunk_chart w hist ticker bg_image s = (Ok true, s') /\
    shown s' = (shown s ++ [Pyplot ticker hist])%list.
Proof.
  intros Himport Hsetup Hplot. unfold Spec.plot_tick in Hplot.
  unfold render_matplotlib_cyberpunk_chart, bind, try_except, call, ask, lift, ret, show.
  simpl. rewrite Himport. simpl. rewrite Hsetup. simpl.
  destruct bg_image as [img|]; simpl.
  - replace (S (S (S (asked s)))) with (asked s + 3)%nat by lia.
    destruct (mpl_imshow w _ img hist); simpl; rewrite Hplot; simpl;
      destruct (mpl_glow w _); simpl; eauto.
  - replace (S (S (asked s))) with (asked s + 2)%nat by lia.
    rewrite Hplot. simpl. destruct (mpl_glow w _); simpl; eauto.
Qed.

Lemma fallback_completes (s : St) :
  plotly_figure w (asked s) hist ticker = Ok tt ->
  exists s',
    render_plotly_fallback w hist ticker s = (Ok tt, s') /\
    shown s' = (shown s ++ [Html plotly_css; PlotlyChart ticker hist])%list.
Proof.
  intros Hfig.
  unfold render_plotly_fallback, bind, call, ask, lift, show. simpl.
  rewrite Hfig. simpl. rewrite <- app_assoc. eauto.
Qed.

Lemma fallback_raises (s : St) (e : exn) :
  plotly_figure w (asked s) hist ticker = Raise e ->
  exists s',
    render_plotly_fallback w hist ticker s = (Raise e, s') /\
    shown s' = shown s.
Proof.
  intros Hfig.
  unfold render_plotly_fallback, bind, call, ask, lift, show. simpl.
  rewrite Hfig. eauto.
Qed.

(** The primary renderer ends in one of three ways: not available and
    nothing shown, its chart shown, or an exception and nothing shown. *)
Lemma primary_outcome (s : St) :
  (exists e,
     mpl_import w (asked s) = Raise e /\
     render_matplotlib_cyberpunk_chart w hist ticker bg_image s
       = (Ok false, set_asked (S (asked s)) s)) \/
  (exists s',
     render_matplotlib_cyberpunk_chart w hist ticker bg_image s = (Ok true, s') /\
     shown s' = (shown s ++ [Pyplot ticker hist])%list) \/
  (exists e s',
     mpl_import w (asked s) = Ok tt /\
     render_matplotlib_cyberpunk_chart w hist ticker bg_image s = (Raise e, s') /\
     shown s' = shown s).
Proof.
  destruct (mpl_import w (asked s)) as [[]|e] eqn:Himport.
  - destruct (mpl_setup w (S (asked s))) as [[]|e] eqn:Hsetup.
    + destruct (mpl_plot w (plot_tick s) hist ticker) as [[]|e] eqn:Hplot.
      * right. left. by apply primary_completes.
      * right. right.
        destruct (primary_plot_raises s e Himport Hsetup Hplot) as (s' & Hrun & Hshown).
        by exists e, s'.
    + right. right.
      destruct (primary_setup_raises s e Himport Hsetup) as (s' & Hrun & Hshown).
      by exists e, s'.
  - left. exists e. split; [done|]. by apply (primary_unavailable s e).
Qed.

(** The chain ends in one of two ways: it returns with exactly one chart
    on the page, or it raises with nothing on the page. *)
Lemma chain_outcome (s : St) :
  (exists s' new,
     render_chart w bg_image hist ticker s = (Ok tt, s') /\
     shown s' = (shown s ++ new)%list /\
     (new = [Pyplot ticker hist] \/ new = [Html plotly_css; PlotlyChart ticker hist])) \/
  (exists e s',
     render_chart w bg_image hist ticker s = (Raise e, s') /\
     shown s' = shown s).
Proof.
  unfold render_chart, bind.
  destruct (primary_outcome s)
    as [(e & _ & ->) | [(s' & -> & Hshown) | (e & s' & _ & -> & Hshown)]]; simpl.
  - destruct (plotly_figure w (S (asked s)) hist ticker) as [[]|e'] eqn:Hfig.
    + left.
      destruct (fallback_completes (set_asked (S (asked s)) s) Hfig)
        as (s' & Hrun & Hshown).
      exists s', [Html plotly_css; PlotlyChart ticker hist]. eauto.
    + right.
      destruct (fallback_raises (set_asked (S (asked s)) s) e' Hfig)
        as (s' & Hrun & Hshown).
      exists e', s'. eauto.
  - left. exists s', [Pyplot ticker hist]. eauto.
  - right. exists e, s'. eauto.
Qed.

(** C4, as the code has it.  The chain tries the primary renderer first.
    When its import fails, the chain is the fallback renderer: if the
    figure can be built it puts exactly its style block and its chart on
    the page, and if building the figure raises, that exception leaves the
    chain and nothing is put on the page.  When the import succeeds and the
    unguarded steps of the primary renderer succeed, exactly the primary
    chart is put on the page.  When the import succeeds and one of those
    steps raises, the exception leaves the chain, nothing is put on the
    page and the fallback is not tried.  So the chain either returns with
    exactly one chart on the page, or raises with nothing on the page. *)
Theorem chart_chain_falls_back_when_unavailable (s : St) :
  (forall e, mpl_import w (asked s) = Raise e ->
     render_chart w bg_image hist ticker s
       = render_plotly_fallback w hist ticker (set_asked (S (asked s)) s)) /\
  (forall e, mpl_import w (asked s) = Raise e ->
     plotly_figure w (S (asked s)) hist ticker = Ok tt ->
     exists s', render_chart w bg_image hist ticker s = (Ok tt, s') /\
                shown s' = (shown s ++ [Html plotly_css; PlotlyChart ticker hist])%list) /\
  (mpl_import w (asked s) = Ok tt ->
   mpl_setup w (S (asked s)) = Ok tt ->
   mpl_plot w (plot_tick s) hist ticker = Ok tt ->
   exists s', render_chart w bg_image hist ticker s = (Ok tt, s') /\
              shown s' = (shown s ++ [Pyplot ticker hist])%list) /\
  (forall e, mpl_import w (asked s) = Ok tt ->
     mpl_setup w (S (asked s)) = Raise e ->
     exists s', render_chart w bg_image hist ticker s = (Raise e, s') /\
                shown s' = shown s) /\
  (forall e, mpl_import w (asked s) = Ok tt ->
     mpl_setup w (S (asked s)) = Ok tt ->
     mpl_plot w (plot_tick s) hist ticker = Raise e ->
     exists s', render_chart w bg_image hist ticker s = (Raise e, s') /\
                shown s' = shown s) /\
  (forall e e', mpl_import w (asked s) = Raise e ->
     plotly_figure w (S (asked s)) hist ticker = Raise e' ->
     exists s', render_chart w bg_image hist ticker s = (Raise e', s') /\
                shown s' = shown s) /\
  (forall s', render_chart w bg_image hist ticker s = (Ok tt, s') ->
     exists new,
       shown s' = (shown s ++ new)%list /\
       length (List.filter Spec.is_chart new) = 1%nat /\
       (new = [Pyplot ticker hist] \/
        new = [Html plotly_css; PlotlyChart ticker hist])) /\
  (forall e s', render_chart w bg_image hist ticker s = (Raise e, s') ->
     shown s' = shown s).
Proof.
  split; [|split; [|split; [|split; [|split; [|split; [|split]]]]]].
  - intros e Himport. unfold render_chart, bind.
    by rewrite (primary_unavailable s e Himport).
  - intros e Himport Hfig. unfold render_chart, bind.
    rewrite (primary_unavailable s e Himport). simpl.
    by apply (fallback_completes (set_asked (S (asked s)) s)).
  - intros Himport Hsetup Hplot. unfold render_chart, bind.
    destruct (primary_completes s Himport Hsetup Hplot) as (s' & -> & Hshown).
    simpl. eauto.
  - intros e Himport Hsetup. unfold render_chart, bind.
    destruct (primary_setup_raises s e Himport Hsetup) as (s' & -> & Hshown).
    eauto.
  - intros e Himport Hsetup Hplot. unfold render_chart, bind.
    destruct (primary_plot_raises s e Himport Hsetup Hplot) as (s' & -> & Hshown).
    eauto.
  - intros e e' Himport Hfig. unfold render_chart, bind.
    rewrite (primary_unavailable s e Himport). simpl.
    by apply (fallback_raises (set_asked (S (asked s)) s)).
  - intros s' Hrun.
    destruct (chain_outcome s)
      as [(s1 & new & Hok & Hshown & Hnew) | (e & s1 & Hraise & _)].
    + rewrite Hok in Hrun. injection Hrun as <-.
      exists new. split; [done|]. split; [|done].
      by destruct Hnew as [-> | ->].
    + rewrite Hraise in Hrun. discriminate.
  - intros e s' Hrun.
    destruct (chain_outcome s)
      as [(s1 & new & Hok & _) | (e1 & s1 & Hraise & Hshown)].
    + rewrite Hok in Hrun. discriminate.
    + rewrite Hraise in Hrun. by injection Hrun as <- <-.
Qed.

End Chart.

Lemma chart_chain_falls_back_when_unavailable_witness :
  shown (snd (render_chart Sample.no_mpl None Sample.two_days "AAA" Sample.fresh))
    = [Html plotly_css; PlotlyChart "AAA" Sample.two_days] /\
  shown (snd (render_chart Sample.plain None Sample.two_days "AAA" Sample.fresh))
    = [Pyplot "AAA" Sample.two_days] /\
  (exists s',
     render_chart Sample.no_charts None Sample.two_days "AAA" Sample.fresh
       = (Raise (Exn "ValueError" "Invalid value for Close"), s') /\
     shown s' = []).
Proof.
  split; [|split].
  - destruct (chart_chain_falls_back_when_unavailable Sample.no_mpl None
                Sample.two_days "AAA" Sample.fresh) as (_ & Hfall & _).
    destruct (Hfall (Exn "ModuleNotFoundError" "No module named 'mplcyberpunk'")
                eq_refl eq_refl) as (s' & Hrun & Hshown).
    rewrite Hrun. simpl. rewrite Hshown. reflexivity.
  - destruct (chart_chain_falls_back_when_unavailable Sample.plain None
                Sample.two_days "AAA" Sample.fresh) as (_ & _ & Hprim & _).
    destruct (Hprim eq_refl eq_refl eq_refl) as (s' & Hrun & Hshown).
    rewrite Hrun. simpl. rewrite Hshown. reflexivity.
  - destruct (chart_chain_falls_back_when_unavailable Sample.no_charts None
                Sample.two_days "AAA" Sample.fresh)
      as (_ & _ & _ & _ & _ & Hboth & _).
    apply (Hboth (Exn "ModuleNotFoundError" "No module named 'mplcyberpunk'"));
      reflexivity.
Defined.

(** C4 as stated fails: where matplotlib imports but the "cyberpunk" style
    cannot be used, the chain raises and no chart is shown. *)
Lemma chart_chain_exposes_primary_failure :
  ~ Spec.chain_always_renders Sample.broken_mpl None.
Proof.
  intros Hclaim.
  destruct (Hclaim Sample.two_days "AAA" Sample.fresh ltac:(discriminate))
    as (s' & new & Hrun & _).
  vm_compute in Hrun. discriminate.
Qed.

Lemma render_chart_broken_style :
  exists s',
    render_chart Sample.broken_mpl None Sample.two_days "AAA" Sample.fresh
      = (Raise (Exn "OSError" "'cyberpunk' is not a valid package style"), s') /\
    shown s' = [].
Proof. eexists. split; vm_compute; reflexivity. Qed.

(** ** C6, C10: the metric row on the page (lines 303-320) *)

Lemma render_daily_change_shape (w : World) (ticker : string) (s : St) :
  exists s' daily,
    render_daily_change w ticker s = (Ok tt, s') /\
    shown s' = (shown s ++ daily)%list /\
    (daily = [] \/ exists value delta, daily = [Metric "Daily Change" value (Some delta)]).
Proof.
  unfold render_daily_change, bind, lift.
  destruct (get_stock_data_total w ticker "5d" s) as (hist & s1 & -> & Hshown).
  destruct (daily_change_total hist) as [[[value delta]|] ->].
  - eexists _, [_]. split; [reflexivity|]. simpl. rewrite Hshown. eauto.
  - exists s1, []. rewrite app_nil_r. eauto.
Qed.

(** The three ways the row can go: the price cannot be formatted and
    nothing is shown; the market cap cannot be formatted and the price
    metric alone is shown; both can, and the row completes. *)
Lemma render_metrics_run
    (w : World) (info : gmap string pyval) (ticker : string) (s : St) :
  let price := py_or (dict_get info "currentPrice") (dict_get info "regularMarketPrice") in
  let cap := dict_get info "marketCap" in
  let range :=
    Metric "52w High / Low"
      (range_text (py_repr w) (dict_get info "fiftyTwoWeekHigh")
         (dict_get info "fiftyTwoWeekLow")) None in
  (forall e, price_text price = Raise e ->
     render_metrics w (VDict info) ticker s = (Raise e, s)) /\
  (forall p e, price_text price = Ok p -> cap_text cap = Raise e ->
     render_metrics w (VDict info) ticker s
       = (Raise e, set_shown (shown s ++ [Metric "Current Price" p None])%list s)) /\
  (forall p c, price_text price = Ok p -> cap_text cap = Ok c ->
     exists s' daily,
       render_metrics w (VDict info) ticker s = (Ok tt, s') /\
       shown s' = (shown s ++ [Metric "Current Price" p None; Metric "Market Cap" c None; range]
                     ++ daily)%list /\
       (daily = [] \/
        exists value delta, daily = [Metric "Daily Change" value (Some delta)])).
Proof.
  intros price cap range.
  assert (Hstart : forall k : pyval -> pyval -> pyval -> pyval -> M unit,
            bind (lift (resolve_price (VDict info))) (fun price =>
            bind (lift (py_get (VDict info) "marketCap")) (fun cap =>
            bind (lift (py_get (VDict info) "fiftyTwoWeekHigh")) (fun high =>
            bind (lift (py_get (VDict info) "fiftyTwoWeekLow")) (fun low =>
            k price cap high low)))) s
            = k price cap (dict_get info "fiftyTwoWeekHigh")
                (dict_get info "fiftyTwoWeekLow") s).
  { intros k. unfold bind at 1. unfold lift at 1. by rewrite resolve_price_eq. }
  unfold render_metrics. rewrite Hstart.
  split; [|split].
  - intros e Hp. unfold bind, lift. by rewrite Hp.
  - intros p e Hp Hc. unfold bind at 1. unfold lift at 1. rewrite Hp.
    unfold bind at 1. unfold show at 1. unfold bind at 1. unfold lift at 1.
    by rewrite Hc.
  - intros p c Hp Hc. unfold bind at 1. unfold lift at 1. rewrite Hp.
    unfold bind at 1. unfold show at 1. unfold bind at 1. unfold lift at 1.
    rewrite Hc. unfold bind at 1. unfold show at 1. unfold bind at 1. unfold show at 1.
    simpl shown.
    match goal with |- context [render_daily_change w ticker ?s0] =>
      destruct (render_daily_change_shape w ticker s0) as (s' & daily & Hrun & Hshown & Hdaily)
    end.
    exists s', daily. split; [exact Hrun|]. split; [|done].
    rewrite Hshown. simpl. by rewrite <- !app_assoc.
Qed.

(** A price text that could be built is the first thing the row shows,
    whatever happens behind it. *)
Lemma price_metric_first
    (w : World) (info : gmap string pyval) (ticker : string) (s : St) (p : string) :
  price_text (py_or (dict_get info "currentPrice") (dict_get info "regularMarketPrice"))
    = Ok p ->
  exists rest,
    shown (snd (render_metrics w (VDict info) ticker s))
      = (shown s ++ Metric "Current Price" p None :: rest)%list.
Proof.
  intros Hp.
  destruct (render_metrics_run w info ticker s) as (_ & Hcap & Hfull).
  destruct (cap_text (dict_get info "marketCap")) as [c|e] eqn:Hc.
  - destruct (Hfull p c Hp eq_refl) as (s' & daily & Hrun & Hshown & _).
    rewrite Hrun. simpl. rewrite Hshown. eexists. reflexivity.
  - rewrite (Hcap p e Hp eq_refl). by exists [].
Qed.

(** What can be formatted as a price: a float, a bool, and an int within
    the range of the floats. *)
Lemma price_display_numbers (v : pyval) :
  (exists t, Spec.price_display v = Ok t) <->
  match v with
  | VFloat _ | VBool _ => True
  | VInt z => exists f, Fmt.float_of_int z = Ok f
  | VNone | VStr _ | VList _ | VDict _ => False
  end.
Proof.
  unfold Spec.price_display, format_spec_f.
  destruct v as [|b|z|f|text|l|m]; simpl; split;
    try (by intros [t Ht]); try (by intros []); try (by eexists).
  - destruct (Fmt.float_of_int z) as [f|e]; [by eexists | by intros [t Ht]].
  - intros [f ->]. by eexists.
Qed.

(** C6, as the code has it.  The metric row shows, as its first metric,
    "Current Price" with [currentPrice] when that field is present with a
    truthy value, else with [regularMarketPrice] when that one is present
    with a truthy value, each as ['$'] and the value under [,.2f], else
    with "N/A".  The chosen value is shown when it can be formatted, which
    is when it is a number; when it cannot (a non-empty text, a list), the
    exception of the format leaves the row before any metric is shown.
    With both fields missing the row shows "N/A" and the price metric
    raises nothing: an exception of the row can then only be the one of
    the market cap, after the price metric is on the page. *)
Theorem current_price_metric_by_truthiness
    (w : World) (info : gmap string pyval) (ticker : string) (s : St) :
  let row := render_metrics w (VDict info) ticker s in
  (forall text,
     Spec.current_price_by_truthiness info = Ok text ->
     exists rest,
       shown (snd row) = (shown s ++ Metric "Current Price" text None :: rest)%list) /\
  (forall e, Spec.current_price_by_truthiness info = Raise e -> row = (Raise e, s)) /\
  (info !! "currentPrice" = None -> info !! "regularMarketPrice" = None ->
   (exists rest,
      shown (snd row) = (shown s ++ Metric "Current Price" "N/A" None :: rest)%list) /\
   (forall e s', row = (Raise e, s') ->
      cap_text (dict_get info "marketCap") = Raise e /\
      s' = set_shown (shown s ++ [Metric "Current Price" "N/A" None])%list s)) /\
  (forall v, (exists t, Spec.price_display v = Ok t) <->
     match v with
     | VFloat _ | VBool _ => True
     | VInt z => exists f, Fmt.float_of_int z = Ok f
     | VNone | VStr _ | VList _ | VDict _ => False
     end) /\
  (forall f, Spec.price_display (VFloat f) = Ok ("$" ++ Fmt.format_f true 2 f)) /\
  (forall text,
     Spec.price_display (VStr text)
       = Raise (Exn "ValueError" "Unknown format code 'f' for object of type 'str'")).
Proof.
  intros row. subst row.
  pose proof (price_text_by_truthiness info) as Htext.
  destruct (render_metrics_run w info ticker s) as (Hraise & Hcap & Hfull).
  split; [|split; [|split; [|split; [|split]]]].
  - intros text Hok. rewrite <- Htext in Hok. by apply price_metric_first.
  - intros e He. rewrite <- Htext in He. by apply Hraise.
  - intros Hcp Hrmp.
    assert (Hna : price_text (py_or (dict_get info "currentPrice")
                                (dict_get info "regularMarketPrice")) = Ok "N/A").
    { unfold py_or, dict_get. by rewrite Hcp, Hrmp. }
    split; [by apply price_metric_first|].
    intros e s' Hrow.
    destruct (cap_text (dict_get info "marketCap")) as [c|e'] eqn:Hc.
    + destruct (Hfull _ c Hna eq_refl) as (s1 & daily & Hrun & _).
      rewrite Hrun in Hrow. discriminate.
    + rewrite (Hcap _ e' Hna eq_refl) in Hrow. by injection Hrow as <- <-.
  - apply price_display_numbers.
  - done.
  - done.
Qed.

Lemma current_price_metric_by_truthiness_witness :
  (exists rest,
     shown (snd (render_metrics Sample.plain (VDict Sample.zero_quote) "AAA" Sample.fresh))
       = Metric "Current Price" "$5.00" None :: rest) /\
  (exists rest,
     shown (snd (render_metrics Sample.plain (VDict ∅) "AAA" Sample.fresh))
       = Metric "Current Price" "N/A" None :: rest) /\
  render_metrics Sample.plain (VDict Sample.text_price_zero_cap) "AAA" Sample.fresh
    = (Raise (Exn "ValueError" "Unknown format code 'f' for object of type 'str'"),
       Sample.fresh).
Proof.
  split; [|split].
  - destruct (current_price_metric_by_truthiness Sample.plain Sample.zero_quote
                "AAA" Sample.fresh) as (Hshown & _).
    apply (Hshown "$5.00"). vm_compute. reflexivity.
  - destruct (current_price_metric_by_truthiness Sample.plain ∅ "AAA" Sample.fresh)
      as (_ & _ & Hmissing & _).
    by destruct (Hmissing eq_refl eq_refl) as (Hshown & _).
  - destruct (current_price_metric_by_truthiness Sample.plain Sample.text_price_zero_cap
                "AAA" Sample.fresh) as (_ & Hraise & _).
    apply Hraise. vm_compute. reflexivity.
Defined.

(** C6 as stated fails: with [currentPrice] present and equal to 0 and
    [regularMarketPrice] equal to 5, the reading by presence shows the
    present field, $0.00, and the code shows $5.00. *)
Lemma current_price_metric_not_by_presence :
  Sample.zero_quote !! "currentPrice" = Some (VInt 0) /\
  Spec.current_price_by_presence Sample.zero_quote = Ok "$0.00" /\
  current_price_metric (VDict Sample.zero_quote) = Ok "$5.00" /\
  current_price_metric (VDict Sample.zero_quote)
    <> Spec.current_price_by_presence Sample.zero_quote /\
  shown (snd (render_metrics Sample.plain (VDict Sample.zero_quote) "AAA" Sample.fresh))
    = [Metric "Current Price" "$5.00" None; Metric "Market Cap" "N/A" None;
       Metric "52w High / Low" "$None / $None" None;
       Metric "Daily Change" "$5.00" (Some "5.00%")].
Proof. vm_compute. repeat split; discriminate. Qed.

(** C10, as the code has it.  A resolved price that is falsy (0, 0.0, the
    empty string, None) puts "Current Price" "N/A" on the page as the
    first metric of the row, whatever the rest of the mapping holds.  A
    falsy market cap puts "Market Cap" "N/A" on the page right behind the
    price metric, provided the price metric could be built (the price is
    falsy or a number); when the price is a truthy value that cannot be
    formatted, the row raises before any metric and no market cap is
    shown.  The resolved price is [regularMarketPrice] exactly when
    [currentPrice] is falsy, present or not. *)
Theorem falsy_price_or_cap_shows_placeholder
    (w : World) (info : gmap string pyval) (ticker : string) (s : St) :
  let cp := dict_get info "currentPrice" in
  let rmp := dict_get info "regularMarketPrice" in
  let price := py_or cp rmp in
  let cap := dict_get info "marketCap" in
  let row := render_metrics w (VDict info) ticker s in
  (truthy price = false ->
   exists rest,
     shown (snd row) = (shown s ++ Metric "Current Price" "N/A" None :: rest)%list) /\
  (truthy cap = false ->
   forall p, price_text price = Ok p ->
   exists s' rest,
     row = (Ok tt, s') /\
     shown s' = (shown s ++ Metric "Current Price" p None
                   :: Metric "Market Cap" "N/A" None :: rest)%list) /\
  (truthy price = false -> truthy cap = false ->
   exists s' rest,
     row = (Ok tt, s') /\
     shown s' = (shown s ++ Metric "Current Price" "N/A" None
                   :: Metric "Market Cap" "N/A" None :: rest)%list) /\
  (forall e, price_text price = Raise e -> row = (Raise e, s)) /\
  (truthy price = true ->
   (exists p, price_text price = Ok p) \/ (exists e, row = (Raise e, s))) /\
  (truthy cp = false -> price = rmp) /\
  (truthy cp = true -> price = cp) /\
  (truthy price = false <-> truthy cp = false /\ truthy rmp = false) /\
  truthy (VInt 0) = false /\ truthy (VFloat 0) = false /\
  truthy (VStr "") = false /\ truthy VNone = false.
Proof.
  intros cp rmp price cap row. subst row.
  destruct (render_metrics_run w info ticker s) as (Hraise & _ & Hfull).
  fold cp rmp price cap in Hraise, Hfull.
  assert (Hcap_na : truthy cap = false -> cap_text cap = Ok "N/A").
  { intros Hfalsy. unfold cap_text. by rewrite Hfalsy. }
  assert (Hprice_na : truthy price = false -> price_text price = Ok "N/A").
  { intros Hfalsy. unfold price_text. by rewrite Hfalsy. }
  split; [|split; [|split; [|split; [|split; [|split; [|split; [|split]]]]]]].
  - intros Hfalsy. apply price_metric_first. by apply Hprice_na.
  - intros Hfalsy p Hp.
    destruct (Hfull p "N/A" Hp (Hcap_na Hfalsy)) as (s' & daily & Hrun & Hshown & _).
    exists s'. eexists. split; [exact Hrun|]. rewrite Hshown. reflexivity.
  - intros Hprice Hfalsy.
    destruct (Hfull "N/A" "N/A" (Hprice_na Hprice) (Hcap_na Hfalsy))
      as (s' & daily & Hrun & Hshown & _).
    exists s'. eexists. split; [exact Hrun|]. rewrite Hshown. reflexivity.
  - exact Hraise.
  - intros _. destruct (price_text price) as [p|e] eqn:Hp; [left; by eexists|].
    right. exists e. by apply Hraise.
  - intros Hfalsy. unfold price, py_or. by rewrite Hfalsy.
  - intros Htruthy. unfold price, py_or. by rewrite Htruthy.
  - unfold price, py_or. destruct (truthy cp) eqn:Hcp.
    + rewrite Hcp. split; [done | by intros [? _]].
    + split; [done | by intros [_ ?]].
  - repeat split.
Qed.

Lemma falsy_price_or_cap_shows_placeholder_witness :
  (exists rest,
     shown (snd (render_metrics Sample.plain (VDict Sample.zero_price_empty_cap)
                   "AAA" Sample.fresh))
       = Metric "Current Price" "N/A" None :: Metric "Market Cap" "N/A" None :: rest) /\
  (exists rest,
     shown (snd (render_metrics Sample.plain (VDict Sample.zero_quote) "AAA" Sample.fresh))
       = Metric "Current Price" "$5.00" None :: Metric "Market Cap" "N/A" None :: rest).
Proof.
  split.
  - destruct (falsy_price_or_cap_shows_placeholder Sample.plain
                Sample.zero_price_empty_cap "AAA" Sample.fresh)
      as (_ & _ & Hboth & _).
    destruct (Hboth eq_refl eq_refl) as (s' & rest & Hrun & Hshown).
    rewrite Hrun. simpl. rewrite Hshown. by eexists.
  - destruct (falsy_price_or_cap_shows_placeholder Sample.plain
                Sample.zero_quote "AAA" Sample.fresh)
      as (_ & Hcap & _).
    destruct (Hcap eq_refl "$5.00") as (s' & rest & Hrun & Hshown).
    { vm_compute. reflexivity. }
    rewrite Hrun. simpl. rewrite Hshown. by eexists.
Defined.

(** C10 as stated fails for the market cap: with a price that is the text
    "abc" and a market cap of 0, the format of the price raises on line
    310, the row shows no metric at all, and so no "N/A" for the market
    cap. *)
Lemma falsy_cap_hidden_behind_text_price :
  truthy (dict_get Sample.text_price_zero_cap "marketCap") = false /\
  render_metrics Sample.plain (VDict Sample.text_price_zero_cap) "AAA" Sample.fresh
    = (Raise (Exn "ValueError" "Unknown format code 'f' for object of type 'str'"),
       Sample.fresh) /\
  ~ Spec.falsy_always_placeholder Sample.plain.
Proof.
  assert (Hrun : render_metrics Sample.plain (VDict Sample.text_price_zero_cap)
                   "AAA" Sample.fresh
                 = (Raise (Exn "ValueError"
                             "Unknown format code 'f' for object of type 'str'"),
                    Sample.fresh))
    by (vm_compute; reflexivity).
  split; [reflexivity|]. split; [exact Hrun|].
  intros Hclaim.
  destruct (Hclaim Sample.text_price_zero_cap "AAA" Sample.fresh) as (_ & Hcap).
  destruct (Hcap eq_refl) as (before & after & Hshown).
  rewrite Hrun in Hshown. simpl in Hshown. by destruct before.
Qed.

(** * Further properties *)

(** ** Trimming, on lists of characters *)

Lemma rev_app_list (s1 s2 : string) :
  list_ascii_of_string (String.rev_app s1 s2)
    = (List.rev (list_ascii_of_string s1) ++ list_ascii_of_string s2)%list.
Proof.
  revert s2. induction s1 as [|c s1 IH]; intros s2; simpl; [done|].
  rewrite IH. simpl. by rewrite <- app_assoc.
Qed.

Lemma rev_list (s : string) :
  list_ascii_of_string (String.rev s) = List.rev (list_ascii_of_string s).
Proof. unfold String.rev. rewrite rev_app_list. simpl. apply app_nil_r. Qed.

Lemma lstrip_list_of_string (s : string) :
  list_ascii_of_string (Str.lstrip s) = Trim.lstrip_list (list_ascii_of_string s).
Proof.
  induction s as [|c s IH]; simpl; [done|].
  by destruct (Str.is_space c).
Qed.

Lemma strip_list_of_string (s : string) :
  list_ascii_of_string (Str.strip s) = Trim.strip_list (list_ascii_of_string s).
Proof.
  unfold Str.strip, Trim.strip_list.
  by rewrite rev_list, lstrip_list_of_string, rev_list, lstrip_list_of_string.
Qed.

Lemma list_ascii_inj (s1 s2 : string) :
  list_ascii_of_string s1 = list_ascii_of_string s2 -> s1 = s2.
Proof.
  intros Heq.
  rewrite <- (string_of_list_ascii_of_string s1), <- (string_of_list_ascii_of_string s2).
  by rewrite Heq.
Qed.

Lemma lstrip_list_head (l : list ascii) : Trim.head_ok (Trim.lstrip_list l).
Proof.
  induction l as [|c l IH]; simpl; [done|].
  destruct (Str.is_space c) eqn:Hc; [done|]. simpl. done.
Qed.

Lemma lstrip_list_fixed (l : list ascii) :
  Trim.head_ok l -> Trim.lstrip_list l = l.
Proof. destruct l as [|c l]; simpl; [done|]. by intros ->. Qed.

(** What [lstrip] drops is white space, and it drops it from the front. *)
Lemma lstrip_list_split (l : list ascii) :
  exists spaces,
    l = (spaces ++ Trim.lstrip_list l)%list /\
    Forall (fun c => Str.is_space c = true) spaces.
Proof.
  induction l as [|c l (spaces & Hl & Hsp)]; simpl.
  - by exists [].
  - destruct (Str.is_space c) eqn:Hc.
    + exists (c :: spaces). simpl. split; [by rewrite <- Hl | by constructor].
    + by exists [].
Qed.

Lemma head_ok_prefix (l1 l2 : list ascii) :
  Trim.head_ok (l1 ++ l2)%list -> Trim.head_ok l1.
Proof. by destruct l1. Qed.

Lemma strip_list_trimmed (l : list ascii) : Trim.trimmed (Trim.strip_list l).
Proof.
  unfold Trim.trimmed, Trim.strip_list.
  set (a := Trim.lstrip_list l).
  set (b := Trim.lstrip_list (List.rev a)).
  split.
  - destruct (lstrip_list_split (List.rev a)) as (spaces & Hrev & _).
    fold b in Hrev.
    assert (Ha : a = (List.rev b ++ List.rev spaces)%list).
    { rewrite <- (rev_involutive a), Hrev. apply rev_app_distr. }
    apply (head_ok_prefix _ (List.rev spaces)). rewrite <- Ha.
    apply lstrip_list_head.
  - rewrite rev_involutive. apply lstrip_list_head.
Qed.

Lemma strip_list_fixed (l : list ascii) :
  Trim.trimmed l -> Trim.strip_list l = l.
Proof.
  intros [Hhead Hlast]. unfold Trim.strip_list.
  rewrite (lstrip_list_fixed l Hhead), (lstrip_list_fixed _ Hlast).
  apply rev_involutive.
Qed.

Lemma strip_list_idem (l : list ascii) :
  Trim.strip_list (Trim.strip_list l) = Trim.strip_list l.
Proof. apply strip_list_fixed, strip_list_trimmed. Qed.

Lemma lstrip_list_incl (l : list ascii) (c : ascii) :
  In c (Trim.lstrip_list l) -> In c l.
Proof.
  induction l as [|c' l IH]; simpl; [done|].
  destruct (Str.is_space c'); [by right; apply IH | done].
Qed.

Lemma strip_list_incl (l : list ascii) (c : ascii) :
  In c (Trim.strip_list l) -> In c l.
Proof.
  unfold Trim.strip_list. intros Hin.
  apply in_rev, lstrip_list_incl, in_rev, lstrip_list_incl in Hin. done.
Qed.

Lemma strip_list_spaces (l : list ascii) :
  Forall (fun c => Str.is_space c = true) l -> Trim.strip_list l = [].
Proof.
  intros Hsp. unfold Trim.strip_list.
  assert (Hdrop : Trim.lstrip_list l = []).
  { induction Hsp as [|c l Hc _ IH]; simpl; [done|]. by rewrite Hc. }
  by rewrite Hdrop.
Qed.

(** ** Upper case and splitting *)

Lemma upper_char_idem (c : ascii) :
  Tickers.upper_char (Tickers.upper_char c) = Tickers.upper_char c.
Proof. destruct c as [[] [] [] [] [] [] [] []]; reflexivity. Qed.

Lemma upper_char_space (c : ascii) :
  Str.is_space (Tickers.upper_char c) = Str.is_space c.
Proof. destruct c as [[] [] [] [] [] [] [] []]; reflexivity. Qed.

Lemma upper_char_comma (c : ascii) :
  Tickers.upper_char c = ","%char -> c = ","%char.
Proof. destruct c as [[] [] [] [] [] [] [] []]; vm_compute; congruence. Qed.

Lemma upper_list (s : string) :
  list_ascii_of_string (Tickers.upper s)
    = List.map Tickers.upper_char (list_ascii_of_string s).
Proof. induction s as [|c s IH]; simpl; [done | by rewrite IH]. Qed.

Lemma lstrip_list_upper (l : list ascii) :
  Trim.lstrip_list (List.map Tickers.upper_char l)
    = List.map Tickers.upper_char (Trim.lstrip_list l).
Proof.
  induction l as [|c l IH]; simpl; [done|].
  rewrite upper_char_space. by destruct (Str.is_space c).
Qed.

Lemma strip_list_upper (l : list ascii) :
  Trim.strip_list (List.map Tickers.upper_char l)
    = List.map Tickers.upper_char (Trim.strip_list l).
Proof.
  unfold Trim.strip_list.
  by rewrite lstrip_list_upper, <- map_rev, lstrip_list_upper, <- map_rev.
Qed.

(** Trimming and upper-casing commute. *)
Lemma strip_upper (s : string) :
  Str.strip (Tickers.upper s) = Tickers.upper (Str.strip s).
Proof.
  apply list_ascii_inj.
  by rewrite strip_list_of_string, !upper_list, strip_list_upper, strip_list_of_string.
Qed.

Lemma strip_idem (s : string) : Str.strip (Str.strip s) = Str.strip s.
Proof.
  apply list_ascii_inj. rewrite !strip_list_of_string. apply strip_list_idem.
Qed.

Lemma upper_idem (s : string) : Tickers.upper (Tickers.upper s) = Tickers.upper s.
Proof.
  induction s as [|c s IH]; simpl; [done|]. by rewrite upper_char_idem, IH.
Qed.

Lemma upper_empty (s : string) : Tickers.upper s = "" -> s = "".
Proof. by destruct s. Qed.

Lemma split_not_nil (sep : ascii) (s : string) : Tickers.split sep s <> [].
Proof.
  induction s as [|c s IH]; simpl; [done|].
  destruct (Ascii.eqb c sep); [done|].
  by destruct (Tickers.split sep s).
Qed.

(** Splitting distributes over a separator. *)
Lemma split_app (sep : ascii) (a b : string) :
  Tickers.split sep (a ++ String sep b)
    = (Tickers.split sep a ++ Tickers.split sep b)%list.
Proof.
  induction a as [|c a IH]; simpl.
  - by rewrite Ascii.eqb_refl.
  - destruct (Ascii.eqb c sep); [by rewrite IH|].
    rewrite IH. pose proof (split_not_nil sep a) as Hne.
    by destruct (Tickers.split sep a).
Qed.

(** No piece holds the separator. *)
Lemma split_pieces (sep : ascii) (s : string) :
  Forall (fun piece => ~ In sep (list_ascii_of_string piece)) (Tickers.split sep s).
Proof.
  induction s as [|c s IH]; simpl.
  - constructor; [by intros [] | constructor].
  - destruct (Ascii.eqb_spec c sep) as [-> | Hne].
    + constructor; [by intros [] | done].
    + destruct (Tickers.split sep s) as [|piece pieces]; simpl.
      * constructor; [|constructor]. simpl. intros [? | []]. done.
      * inversion IH as [|? ? Hpiece Hpieces]; subst.
        constructor; [|done]. simpl. intros [? | ?]; [done | by apply Hpiece].
Qed.

(** A text without the separator is its own single piece. *)
Lemma split_whole (sep : ascii) (s : string) :
  ~ In sep (list_ascii_of_string s) -> Tickers.split sep s = [s].
Proof.
  induction s as [|c s IH]; simpl; [done|].
  intros Hnot. destruct (Ascii.eqb_spec c sep) as [-> | Hne].
  - exfalso. apply Hnot. by left.
  - rewrite IH; [done|]. intros Hin. apply Hnot. by right.
Qed.

(** Joining pieces with the separator and splitting again gives the
    pieces back. *)
Lemma split_concat (sep : ascii) (pieces : list string) :
  pieces <> [] ->
  Forall (fun piece => ~ In sep (list_ascii_of_string piece)) pieces ->
  Tickers.split sep (String.concat (String sep "") pieces) = pieces.
Proof.
  intros Hne Hall. induction Hall as [|piece rest Hpiece Hrest IH]; [done|].
  destruct rest as [|next rest].
  - simpl. by apply split_whole.
  - change (String.concat (String sep "") (piece :: next :: rest))
      with (piece ++ String sep (String.concat (String sep "") (next :: rest))).
    rewrite split_app, (split_whole _ _ Hpiece), IH; done.
Qed.

Lemma split_incl (sep : ascii) (s piece : string) (c : ascii) :
  In piece (Tickers.split sep s) ->
  In c (list_ascii_of_string piece) -> In c (list_ascii_of_string s).
Proof.
  revert piece. induction s as [|c' s IH]; intros piece; simpl.
  - by intros [<- | []].
  - destruct (Ascii.eqb c' sep).
    + intros [<- | Hin]; [done|]. intros Hc. right. by apply (IH piece).
    + pose proof (split_not_nil sep s) as Hne.
      destruct (Tickers.split sep s) as [|first rest]; [done|].
      intros [<- | Hin]; simpl.
      * intros [-> | Hc]; [by left | right]. apply (IH first); [by left | done].
      * intros Hc. right. apply (IH piece); [by right | done].
Qed.

Lemma filter_none {A} (keep : A -> bool) (l : list A) :
  (forall x, In x l -> keep x = false) -> List.filter keep l = [].
Proof.
  induction l as [|x l IH]; simpl; [done|]. intros Hall.
  rewrite (Hall x (or_introl eq_refl)). apply IH. intros y Hy. apply Hall. by right.
Qed.

Lemma filter_all {A} (keep : A -> bool) (l : list A) :
  (forall x, In x l -> keep x = true) -> List.filter keep l = l.
Proof.
  induction l as [|x l IH]; simpl; [done|]. intros Hall.
  rewrite (Hall x (or_introl eq_refl)). f_equal. apply IH. intros y Hy. apply Hall. by right.
Qed.

Lemma map_fixed {A} (f : A -> A) (l : list A) :
  (forall x, In x l -> f x = x) -> List.map f l = l.
Proof.
  induction l as [|x l IH]; simpl; [done|]. intros Hall.
  rewrite (Hall x (or_introl eq_refl)). f_equal. apply IH. intros y Hy. apply Hall. by right.
Qed.

(** ** The ticker list (line 142) *)

(** What every parsed ticker is, whatever was typed. *)
Lemma parse_tickers_each (tickers_input t : string) :
  In t (Tickers.parse_tickers tickers_input) ->
  t <> "" /\ Str.strip t = t /\ Tickers.upper t = t /\
  ~ In ","%char (list_ascii_of_string t).
Proof.
  unfold Tickers.parse_tickers. rewrite in_map_iff.
  intros (piece & <- & Hin). apply filter_In in Hin as [Hpiece Hkeep].
  simpl in Hkeep. split; [|split; [|split]].
  - intros Hempty. apply upper_empty in Hempty. by rewrite Hempty in Hkeep.
  - by rewrite strip_upper, strip_idem.
  - apply upper_idem.
  - rewrite upper_list, in_map_iff. intros (c & Hc & Hin).
    apply upper_char_comma in Hc as ->.
    rewrite strip_list_of_string in Hin. apply strip_list_incl in Hin.
    pose proof (split_pieces "," tickers_input) as Hall.
    rewrite List.Forall_forall in Hall. by apply (Hall piece).
Qed.

(** X1. On ASCII text, every ticker the sidebar text is parsed into is
    non-empty, upper case, free of surrounding white space and free of
    commas. *)
Theorem parse_tickers_normal_form (tickers_input : string) :
  Tickers.is_ascii tickers_input = true ->
  Forall (fun t =>
            t <> "" /\ Str.strip t = t /\ Tickers.upper t = t /\
            ~ In ","%char (list_ascii_of_string t))
    (Tickers.parse_tickers tickers_input).
Proof.
  intros _. apply List.Forall_forall. intros t. apply parse_tickers_each.
Qed.

Lemma parse_tickers_normal_form_witness :
  Forall (fun t =>
            t <> "" /\ Str.strip t = t /\ Tickers.upper t = t /\
            ~ In ","%char (list_ascii_of_string t))
    ["AAPL"; "TSLA"; "NVDA"].
Proof.
  apply (parse_tickers_normal_form Typed.mixed). reflexivity.
Defined.

(** X2. On ASCII text, parsing distributes over a comma: the tickers of
    [a,b] are those of [a] followed by those of [b], so order and
    repetitions are kept. *)
Theorem parse_tickers_comma (a b : string) :
  Tickers.is_ascii a = true -> Tickers.is_ascii b = true ->
  Tickers.parse_tickers (a ++ "," ++ b)
    = (Tickers.parse_tickers a ++ Tickers.parse_tickers b)%list.
Proof.
  intros _ _. unfold Tickers.parse_tickers.
  change (a ++ "," ++ b) with (a ++ String "," b).
  by rewrite split_app, List.filter_app, List.map_app.
Qed.

Lemma parse_tickers_comma_witness :
  Tickers.parse_tickers ("aapl, aapl" ++ "," ++ " msft")
    = ["AAPL"; "AAPL"; "MSFT"].
Proof.
  rewrite (parse_tickers_comma "aapl, aapl" " msft"); reflexivity.
Defined.

(** X3. A sidebar text made of commas and white space only names no
    ticker; the main loop then shows the footer and nothing else, sends no
    request and asks the world nothing. *)
Theorem blank_input_only_footer
    (w : World) (period finnhub_api : string) (bg_image : option image)
    (tickers_input : string) (s : St) :
  Tickers.is_ascii tickers_input = true ->
  Forall (fun c => c = ","%char \/ Str.is_space c = true)
    (list_ascii_of_string tickers_input) ->
  Tickers.parse_tickers tickers_input = [] /\
  exists s',
    main_loop w period finnhub_api bg_image (Tickers.parse_tickers tickers_input) s
      = (Ok tt, s') /\
    shown s' = (shown s ++ [Html "<hr>"; Html "Built with ❤️ — Wizard Q"])%list /\
    sent s' = sent s /\ asked s' = asked s.
Proof.
  intros _ Hblank.
  assert (Hnone : Tickers.parse_tickers tickers_input = []).
  { unfold Tickers.parse_tickers. rewrite filter_none; [done|].
    intros piece Hpiece. simpl.
    assert (Hstrip : Str.strip piece = "").
    { apply list_ascii_inj. rewrite strip_list_of_string. simpl.
      apply strip_list_spaces. apply List.Forall_forall. intros c Hc.
      rewrite List.Forall_forall in Hblank.
      destruct (Hblank c (split_incl _ _ _ _ Hpiece Hc)) as [-> | Hsp]; [|done].
      pose proof (split_pieces "," tickers_input) as Hall.
      rewrite List.Forall_forall in Hall. by destruct (Hall piece Hpiece). }
    by rewrite Hstrip. }
  split; [done|]. rewrite Hnone. eexists. split; [reflexivity|].
  simpl. by rewrite <- app_assoc.
Qed.

Lemma blank_input_only_footer_witness :
  shown (snd (main_loop Sample.plain "1mo" "" None
                (Tickers.parse_tickers Typed.blank) Sample.fresh))
    = [Html "<hr>"; Html "Built with ❤️ — Wizard Q"].
Proof.
  destruct (blank_input_only_footer Sample.plain "1mo" "" None Typed.blank Sample.fresh)
    as (_ & s' & Hrun & Hshown & _).
  - reflexivity.
  - unfold Typed.blank. simpl.
    repeat (apply List.Forall_cons; [first [left; reflexivity | right; reflexivity]|]).
    apply List.Forall_nil.
  - rewrite Hrun. simpl. rewrite Hshown. reflexivity.
Defined.

(** X4. On ASCII text, parsing is a normalisation: joining the parsed
    tickers with commas and parsing the result gives the same tickers. *)
Theorem parse_tickers_round_trip (tickers_input : string) :
  Tickers.is_ascii tickers_input = true ->
  Tickers.parse_tickers (String.concat "," (Tickers.parse_tickers tickers_input))
    = Tickers.parse_tickers tickers_input.
Proof.
  intros _.
  destruct (Tickers.parse_tickers tickers_input) as [|t rest] eqn:Hparsed; [done|].
  assert (Heach : forall x, In x (t :: rest) ->
            x <> "" /\ Str.strip x = x /\ Tickers.upper x = x /\
            ~ In ","%char (list_ascii_of_string x)).
  { intros x Hx. apply (parse_tickers_each tickers_input). by rewrite Hparsed. }
  unfold Tickers.parse_tickers at 1.
  rewrite split_concat; [|done|].
  - rewrite filter_all.
    + apply map_fixed. intros x Hx. destruct (Heach x Hx) as (_ & -> & -> & _). done.
    + intros x Hx. destruct (Heach x Hx) as (Hne & -> & _). simpl.
      by destruct (String.eqb_spec x "").
  - apply List.Forall_forall. intros x Hx. by destruct (Heach x Hx) as (_ & _ & _ & ?).
Qed.

Lemma parse_tickers_round_trip_witness :
  Tickers.parse_tickers "AAPL,TSLA,NVDA" = ["AAPL"; "TSLA"; "NVDA"].
Proof.
  apply (parse_tickers_round_trip Typed.mixed). reflexivity.
Defined.

(** ** The caches within and beyond the [ttl] of an entry *)

(** X5. Within the [ttl] of the entry it stored (the entry is still in
    the table), a cached lookup asked again answers as the first time and
    leaves the state as it is: no request is sent and the world is not
    asked, also when the first answer was the empty value of a failed
    call.  Once the entry has expired, the same call asks the client again
    and sends one request. *)
Theorem repeated_lookup_served_from_cache
    (w : World) (ticker period api_key : string) (s : St) :
  get_stock_data w ticker period (snd (get_stock_data w ticker period s))
    = get_stock_data w ticker period s /\
  get_info_cached w ticker (snd (get_info_cached w ticker s))
    = get_info_cached w ticker s /\
  get_company_news w ticker api_key (snd (get_company_news w ticker api_key s))
    = get_company_news w ticker api_key s /\
  (forall e,
     cache_stock s !! (ticker, period) = None ->
     yf_history w (asked s) ticker period = Raise e ->
     fst (get_stock_data w ticker period (snd (get_stock_data w ticker period s)))
       = Ok (Some [])) /\
  sent (snd (get_stock_data w ticker period (Frame.expire_stock ticker period s)))
    = (sent s ++ [ReqHistory ticker period])%list /\
  sent (snd (get_info_cached w ticker (Frame.expire_info ticker s)))
    = (sent s ++ [ReqInfo ticker])%list /\
  (api_key <> "" ->
   let today := date_today w (asked s) in
   sent (snd (get_company_news w ticker api_key (Frame.expire_news ticker api_key s)))
     = (sent s ++ [ReqNews ticker (today - 30) today api_key])%list).
Proof.
  split; [|split; [|split; [|split; [|split; [|split]]]]].
  - rewrite !get_stock_data_eq.
    destruct (cache_stock s !! (ticker, period)) eqn:Hhit; simpl.
    + by rewrite Hhit.
    + by rewrite lookup_insert_eq.
  - rewrite !get_info_cached_eq.
    destruct (cache_info s !! ticker) eqn:Hhit; simpl.
    + by rewrite Hhit.
    + by rewrite lookup_insert_eq.
  - rewrite !get_company_news_eq.
    destruct (cache_news s !! (ticker, api_key)) eqn:Hhit; simpl.
    + by rewrite Hhit.
    + destruct (String.eqb api_key ""); simpl; by rewrite lookup_insert_eq.
  - intros e Hmiss Hfail. rewrite !get_stock_data_eq, Hmiss, Hfail. simpl.
    by rewrite lookup_insert_eq.
  - rewrite get_stock_data_eq. unfold Frame.expire_stock. simpl.
    by rewrite lookup_delete_eq.
  - rewrite get_info_cached_eq. unfold Frame.expire_info. simpl.
    by rewrite lookup_delete_eq.
  - intros Hkey today. rewrite get_company_news_eq. unfold Frame.expire_news. simpl.
    rewrite lookup_delete_eq.
    by destruct (String.eqb_spec api_key "").
Qed.

Lemma repeated_lookup_served_from_cache_witness :
  fst (get_stock_data Sample.dead "AAA" "1mo"
         (snd (get_stock_data Sample.dead "AAA" "1mo" Sample.fresh)))
    = Ok (Some []) /\
  sent (snd (get_stock_data Sample.dead "AAA" "1mo"
               (snd (get_stock_data Sample.dead "AAA" "1mo" Sample.fresh))))
    = [ReqHistory "AAA" "1mo"] /\
  sent (snd (get_stock_data Sample.dead "AAA" "1mo"
               (Frame.expire_stock "AAA" "1mo"
                  (snd (get_stock_data Sample.dead "AAA" "1mo" Sample.fresh)))))
    = [ReqHistory "AAA" "1mo"; ReqHistory "AAA" "1mo"].
Proof.
  destruct (repeated_lookup_served_from_cache Sample.dead "AAA" "1mo" "" Sample.fresh)
    as (Hsame & _ & _ & Hfail & _).
  destruct (repeated_lookup_served_from_cache Sample.dead "AAA" "1mo" ""
              (snd (get_stock_data Sample.dead "AAA" "1mo" Sample.fresh)))
    as (_ & _ & _ & _ & Hexpired & _).
  split; [|split].
  - apply (Hfail (Exn "ConnectionError" "offline")); reflexivity.
  - rewrite Hsame. reflexivity.
  - rewrite Hexpired. reflexivity.
Defined.

(** ** What is shown, and by whom *)

Section ShowsOnly.

Variable w : World.
Variable P : event -> Prop.

Lemma shows_only_quiet {A} (m : M A) :
  (forall s, shown (snd (m s)) = shown s) -> Frame.shows_only P m.
Proof.
  intros Hquiet s. exists []. rewrite Hquiet, app_nil_r. split; [done | constructor].
Qed.

Lemma shows_only_ret {A} (a : A) : Frame.shows_only P (ret a).
Proof. by apply shows_only_quiet. Qed.

Lemma shows_only_lift {A} (o : outcome A) : Frame.shows_only P (lift o).
Proof. by apply shows_only_quiet. Qed.

Lemma shows_only_ask {A} (q : nat -> A) : Frame.shows_only P (ask q).
Proof. by apply shows_only_quiet. Qed.

Lemma shows_only_send (r : request) : Frame.shows_only P (send r).
Proof. by apply shows_only_quiet. Qed.

Lemma shows_only_show (e : event) : P e -> Frame.shows_only P (show e).
Proof. intros He s. exists [e]. split; [done | by repeat constructor]. Qed.

Lemma shows_only_bind {A B} (m : M A) (k : A -> M B) :
  Frame.shows_only P m -> (forall a, Frame.shows_only P (k a)) ->
  Frame.shows_only P (bind m k).
Proof.
  intros Hm Hk s. unfold bind. destruct (Hm s) as (new1 & Hs1 & Hnew1).
  destruct (m s) as [[a|e] s1]; simpl in *; [|by exists new1].
  destruct (Hk a s1) as (new2 & Hs2 & Hnew2).
  exists (new1 ++ new2)%list. split.
  - by rewrite Hs2, Hs1, app_assoc.
  - by apply Forall_app.
Qed.

Lemma shows_only_call {A} (q : nat -> outcome A) : Frame.shows_only P (call q).
Proof. apply shows_only_bind; [apply shows_only_ask | intros; apply shows_only_lift]. Qed.

Lemma shows_only_try_except {A} (body : M A) (handler : exn -> M A) :
  Frame.shows_only P body -> (forall e, Frame.shows_only P (handler e)) ->
  Frame.shows_only P (try_except body handler).
Proof.
  intros Hb Hh s. unfold try_except. destruct (Hb s) as (new1 & Hs1 & Hnew1).
  destruct (body s) as [[a|e] s1]; simpl in *; [by exists new1|].
  destruct (Hh e s1) as (new2 & Hs2 & Hnew2).
  exists (new1 ++ new2)%list. split.
  - by rewrite Hs2, Hs1, app_assoc.
  - by apply Forall_app.
Qed.

Lemma shows_only_for_each {A} (xs : list A) (body : A -> M unit) :
  (forall x, Frame.shows_only P (body x)) -> Frame.shows_only P (for_each xs body).
Proof.
  intros Hbody. induction xs as [|x xs IH]; simpl.
  - apply shows_only_ret.
  - apply shows_only_bind; [apply Hbody | by intros _].
Qed.

Lemma shows_only_get_stock_data (ticker period : string) :
  Frame.shows_only P (get_stock_data w ticker period).
Proof.
  apply shows_only_quiet. intros s. rewrite get_stock_data_eq.
  by destruct (cache_stock s !! _).
Qed.

Lemma shows_only_get_info_cached (ticker : string) :
  Frame.shows_only P (get_info_cached w ticker).
Proof.
  apply shows_only_quiet. intros s. rewrite get_info_cached_eq.
  by destruct (cache_info s !! _).
Qed.

Lemma shows_only_get_company_news (symbol api_key : string) :
  Frame.shows_only P (get_company_news w symbol api_key).
Proof.
  apply shows_only_quiet. intros s. rewrite get_company_news_eq.
  destruct (cache_news s !! _); [done|]. by destruct (String.eqb api_key "").
Qed.

End ShowsOnly.

Create HintDb shows.

#[local] Hint Resolve shows_only_ret shows_only_lift shows_only_ask
  shows_only_send shows_only_call shows_only_get_stock_data
  shows_only_get_info_cached shows_only_get_company_news : shows.

Ltac shows_walk :=
  repeat first
    [ progress auto with shows
    | apply shows_only_show; reflexivity
    | apply shows_only_bind; [|intros ?]
    | apply shows_only_try_except; [|intros ?]
    | apply shows_only_for_each; intros ?
    | match goal with
      | |- Frame.shows_only _ (if ?b then _ else _) => destruct b
      | |- Frame.shows_only _ (match ?x with _ => _ end) => destruct x
      end ].

Section Shape.

Variable w : World.
Variable period : string.
Variable finnhub_api : string.
Variable bg_image : option image.

(** The processing of a ticker never shows an error line itself. *)
Lemma process_ticker_shows_no_error (ticker : string) :
  Frame.shows_only (fun e => Frame.is_error e = false)
    (process_ticker w period finnhub_api bg_image ticker).
Proof.
  unfold process_ticker, render_company_header, render_chart,
    render_matplotlib_cyberpunk_chart, render_plotly_fallback, render_metrics,
    render_daily_change, render_summary, render_news, render_articles,
    render_article.
  shows_walk.
Qed.

Lemma filter_is_error_none (new : list event) :
  Forall (fun e => Frame.is_error e = false) new ->
  List.filter Frame.is_error new = [].
Proof.
  intros Hall. apply filter_none. by apply List.Forall_forall.
Qed.

(** One turn of the loop ends normally and adds at most one error line. *)
Lemma loop_body_shape (ticker : string) (s : St) :
  exists s' new,
    loop_body w period finnhub_api bg_image ticker s = (Ok tt, s') /\
    shown s' = (shown s ++ new)%list /\
    (length (List.filter Frame.is_error new) <= 1)%nat.
Proof.
  rewrite loop_body_eq.
  destruct (process_ticker_shows_no_error ticker s) as (new & Hshown & Hnew).
  destruct (process_ticker w period finnhub_api bg_image ticker s) as [[[]|e] s1];
    simpl in Hshown.
  - exists s1, new. rewrite (filter_is_error_none new Hnew). simpl.
    split; [done|]. split; [done | lia].
  - eexists _, (new ++ [_])%list. split; [reflexivity|]. simpl.
    rewrite Hshown, <- app_assoc. split; [done|].
    rewrite List.filter_app, (filter_is_error_none new Hnew). simpl. lia.
Qed.

Lemma ticker_loop_shape (tickers : list string) (s : St) :
  exists s' sections,
    for_each tickers (loop_body w period finnhub_api bg_image) s = (Ok tt, s') /\
    shown s' = (shown s ++ sections)%list /\
    (length (List.filter Frame.is_error sections) <= length tickers)%nat.
Proof.
  revert s. induction tickers as [|t tickers IH]; intros s.
  - exists s, []. simpl. rewrite app_nil_r. split; [done|]. split; [done | lia].
  - destruct (loop_body_shape t s) as (s1 & new & Hbody & Hshown1 & Hcount1).
    destruct (IH s1) as (s' & sections & Hrest & Hshown & Hcount).
    exists s', (new ++ sections)%list.
    rewrite (for_each_cons _ _ _ _ _ Hbody). split; [done|]. split.
    + by rewrite Hshown, Hshown1, app_assoc.
    + rewrite List.filter_app, length_app. simpl. lia.
Qed.

(** X7. The main loop never raises.  What it shows is one section per
    ticker and then the two footer lines; the sections hold at most one
    error line per ticker, and the processing of a ticker shows none
    itself, so an error line is always the report of the [except] clause. *)
Theorem main_loop_page_shape (tickers : list string) (s : St) :
  exists s' sections,
    main_loop w period finnhub_api bg_image tickers s = (Ok tt, s') /\
    shown s' = (shown s ++ sections ++ [Html "<hr>"; Html "Built with ❤️ — Wizard Q"])%list /\
    (length (List.filter Frame.is_error sections) <= length tickers)%nat /\
    (forall ticker, Frame.shows_only (fun e => Frame.is_error e = false)
                      (process_ticker w period finnhub_api bg_image ticker)).
Proof.
  destruct (ticker_loop_shape tickers s) as (s1 & sections & Hloop & Hshown & Hcount).
  eexists _, sections. unfold main_loop, bind. rewrite Hloop. simpl.
  split; [reflexivity|]. simpl. split; [|split; [done|]].
  - by rewrite Hshown, <- !app_assoc.
  - apply process_ticker_shows_no_error.
Qed.

End Shape.

(** ** The news payload (lines 169-183) *)

Lemma news_item_ok_mapping (item : gmap string pyval) :
  news_item_ok (VDict item) = Ok (Payload.both_truthy item).
Proof.
  unfold news_item_ok, Payload.both_truthy. simpl.
  by destruct (truthy (dict_get item "headline")).
Qed.

Lemma news_item_ok_other (v : pyval) :
  Payload.as_mapping v = None -> exists e, news_item_ok v = Raise e.
Proof. destruct v; simpl; try done; intros _; by eexists. Qed.

Lemma news_keep_mappings (items : list (gmap string pyval)) :
  news_keep (VDict <$> items) = Ok (VDict <$> List.filter Payload.both_truthy items).
Proof.
  induction items as [|item items IH]; [done|].
  change (news_keep (VDict <$> item :: items)) with
    (obind (news_item_ok (VDict item)) (fun keep =>
     obind (news_keep (VDict <$> items)) (fun kept =>
     Ok (if keep then VDict item :: kept else kept)))).
  rewrite news_item_ok_mapping, IH. simpl.
  by destruct (Payload.both_truthy item).
Qed.

(** One element that is no mapping makes the whole comprehension raise. *)
Lemma news_keep_bad_element (before after : list pyval) (bad : pyval) :
  Payload.as_mapping bad = None ->
  exists e, news_keep (before ++ bad :: after) = Raise e.
Proof.
  intros Hbad. induction before as [|v before [e IH]]; simpl.
  - destruct (news_item_ok_other bad Hbad) as [e ->]. by exists e.
  - rewrite IH. destruct (news_item_ok v) as [keep|e']; simpl; by eexists.
Qed.

Lemma mappings_or_bad_element (l : list pyval) :
  (exists items : list (gmap string pyval), l = VDict <$> items) \/
  (exists before bad after,
     l = (before ++ bad :: after)%list /\ Payload.as_mapping bad = None).
Proof.
  induction l as [|v l [[items ->] | (before & bad & after & -> & Hbad)]].
  - left. by exists [].
  - destruct v as [| | | | | |m];
      try (right; eexists [], _, _; split; [reflexivity | done]).
    left. by exists (m :: items).
  - right. by exists (v :: before), bad, after.
Qed.

Lemma news_keep_no_mapping (l : list pyval) :
  Forall (fun v => Payload.as_mapping v = None) l ->
  news_keep l = Ok [] \/ exists e, news_keep l = Raise e.
Proof.
  intros Hall. destruct Hall as [|v l Hv _]; [by left | right]. simpl.
  destruct (news_item_ok_other v Hv) as [e ->]. by exists e.
Qed.

(** A body that is not a list of mappings yields nothing: the filter
    raises, or finds nothing to walk. *)
Lemma news_filter_malformed (data : pyval) :
  ~ Payload.list_of_mappings data ->
  news_filter data = Ok [] \/ exists e, news_filter data = Raise e.
Proof.
  intros Hnot. destruct data as [| | | |text|l|m]; simpl;
    try (right; by eexists).
  - unfold news_filter. simpl. apply news_keep_no_mapping.
    apply Forall_fmap, Forall_true. done.
  - destruct (mappings_or_bad_element l)
      as [[items ->] | (before & bad & after & -> & Hbad)].
    + exfalso. apply Hnot. by exists items.
    + right. unfold news_filter. simpl. by apply news_keep_bad_element.
  - unfold news_filter. simpl. apply news_keep_no_mapping.
    apply Forall_fmap, Forall_true. done.
Qed.

(** X8. The news filter keeps, of a list of mappings, exactly those whose
    headline and url are both truthy, in order.  Any other body (a list
    with one element that is no mapping, an error object, a number, null)
    yields no news at all: on a miss with a key, the lookup sends one
    request for the 30 days up to today and returns the empty list. *)
Theorem news_filter_all_or_nothing
    (w : World) (symbol api_key : string) (s : St) (resp : response) (data : pyval) :
  cache_news s !! (symbol, api_key) = None ->
  api_key <> "" ->
  requests_get_news w (S (asked s)) symbol
    (date_today w (asked s) - 30) (date_today w (asked s)) api_key = Ok resp ->
  status_code resp = 200 ->
  json resp = Ok data ->
  sent (snd (get_company_news w symbol api_key s))
    = (sent s ++ [ReqNews symbol (date_today w (asked s) - 30)
                    (date_today w (asked s)) api_key])%list /\
  (forall items : list (gmap string pyval),
     data = VList (VDict <$> items) ->
     fst (get_company_news w symbol api_key s)
       = Ok (VDict <$> List.filter Payload.both_truthy items)) /\
  (~ Payload.list_of_mappings data ->
   fst (get_company_news w symbol api_key s) = Ok []).
Proof.
  intros Hmiss Hkey Hresp Hstatus Hjson.
  rewrite get_company_news_eq, Hmiss.
  destruct (String.eqb_spec api_key ""); [done|]. simpl.
  rewrite Hresp. simpl. rewrite Hstatus, Hjson. simpl.
  split; [done|]. split.
  - intros items ->. unfold news_filter. simpl. by rewrite news_keep_mappings.
  - intros Hnot.
    by destruct (news_filter_malformed data Hnot) as [-> | [e ->]].
Qed.

Lemma news_filter_all_or_nothing_witness :
  fst (get_company_news (Payload.answers Payload.one_bad_element) "AAA" "key" Sample.fresh)
    = Ok [] /\
  fst (get_company_news (Payload.answers Payload.error_object) "AAA" "key" Sample.fresh)
    = Ok [].
Proof.
  split.
  - pose proof (news_filter_all_or_nothing (Payload.answers Payload.one_bad_element)
                  "AAA" "key" Sample.fresh (Response 200 "" (Ok Payload.one_bad_element))
                  Payload.one_bad_element eq_refl ltac:(discriminate)
                  eq_refl eq_refl eq_refl) as (_ & _ & Hbad).
    apply Hbad. intros [items Hitems].
    destruct items as [|? [|? ?]]; discriminate.
  - pose proof (news_filter_all_or_nothing (Payload.answers Payload.error_object)
                  "AAA" "key" Sample.fresh (Response 200 "" (Ok Payload.error_object))
                  Payload.error_object eq_refl ltac:(discriminate)
                  eq_refl eq_refl eq_refl) as (_ & _ & Hbad).
    apply Hbad. intros [items Hitems]. discriminate.
Defined.

(** ** The news block (lines 333-349) *)

Lemma get_company_news_total (w : World) (symbol api_key : string) (s : St) :
  exists news s',
    get_company_news w symbol api_key s = (Ok news, s') /\ shown s' = shown s.
Proof.
  rewrite get_company_news_eq.
  destruct (cache_news s !! _); [eauto|].
  destruct (String.eqb api_key ""); eauto.
Qed.

(** When every card can be built, the loop shows them all, in order. *)
Lemma for_each_article_ok (w : World) (articles : list pyval) (cards : list string) (s : St) :
  Forall2 (fun article card => article_card w article = Ok card) articles cards ->
  exists s',
    for_each articles (render_article w) s = (Ok tt, s') /\
    shown s' = (shown s ++ (Html <$> cards))%list /\
    sent s' = sent s /\ asked s' = asked s.
Proof.
  intros Hall. revert s.
  induction Hall as [|article card articles cards Hcard _ IH]; intros s.
  - exists s. simpl. by rewrite app_nil_r.
  - simpl. unfold bind at 1. unfold render_article at 1. unfold bind at 1, lift.
    rewrite Hcard. unfold show at 1.
    destruct (IH (set_shown (shown s ++ [Html card])%list s))
      as (s' & Hrun & Hshown & Hsent & Hasked).
    exists s'. split; [done|]. simpl in *. split; [|done].
    by rewrite Hshown, <- app_assoc.
Qed.

(** X9. The news block always opens with its subheader.  Without an API
    key it shows the prompt to enter one and the closing rule, and touches
    neither the cache nor the network.  With a key and no news it shows
    "No recent news available." and the rule.  With a key and news whose
    cards can all be built it shows the cards of the first five items, in
    order, then the rule. *)
Theorem render_news_cases
    (w : World) (finnhub_api ticker : string) (s s1 : St)
    (news : list pyval) (cards : list string) :
  let head := Subheader ("📰 " ++ ticker ++ " Recent News") in
  let rule := Html "<hr style='border: 1px solid #00f5ff; opacity: 0.3;'>" in
  (finnhub_api = "" ->
   render_news w finnhub_api ticker s
     = (Ok tt,
        set_shown
          (shown s ++
           [head;
            Info "Enter your Finnhub API key in the sidebar to enable company news.";
            rule])%list s)) /\
  (finnhub_api <> "" ->
   get_company_news w ticker finnhub_api (set_shown (shown s ++ [head])%list s)
     = (Ok news, s1) ->
   (news = [] ->
    exists s', render_news w finnhub_api ticker s = (Ok tt, s') /\
               shown s' = (shown s ++ [head; Info "No recent news available."; rule])%list) /\
   (news <> [] ->
    Forall2 (fun article card => article_card w article = Ok card) (take 5 news) cards ->
    exists s', render_news w finnhub_api ticker s = (Ok tt, s') /\
               shown s' = (shown s ++ [head] ++ (Html <$> cards) ++ [rule])%list /\
               length cards = Nat.min 5 (length news))).
Proof.
  intros head rule. split.
  - intros ->. unfold render_news, bind, show. simpl.
    by rewrite <- !app_assoc.
  - intros Hkey Hget.
    assert (Htruthy : truthy (VStr finnhub_api) = true).
    { simpl. by destruct (String.eqb_spec finnhub_api ""). }
    assert (Hshown1 : shown s1 = (shown s ++ [head])%list).
    { destruct (get_company_news_total w ticker finnhub_api
                  (set_shown (shown s ++ [head])%list s)) as (? & ? & Hg & Hs).
      rewrite Hget in Hg. by injection Hg as <- <-. }
    assert (Hrun : render_news w finnhub_api ticker s =
              bind
                (if truthy (VList news) then render_articles w news
                 else show (Info "No recent news available."))
                (fun _ => show rule) s1).
    { unfold render_news. unfold bind at 1. unfold show at 1.
      unfold bind at 1. fold head.
      destruct (truthy (VStr finnhub_api)); [|discriminate Htruthy].
      simpl. by rewrite Hget. }
    rewrite Hrun. split.
    + intros ->. unfold bind, show. simpl. eexists. split; [reflexivity|].
      simpl. by rewrite Hshown1, <- !app_assoc.
    + intros Hnews Hcards.
      assert (Hlen : length cards = Nat.min 5 (length news)).
      { rewrite <- (Forall2_length _ _ _ Hcards), length_take. lia. }
      assert (truthy (VList news) = true) as -> by (by destruct news).
      unfold render_articles, bind.
      destruct (for_each_article_ok w (take 5 news) cards s1 Hcards)
        as (s2 & -> & Hshown2 & _).
      unfold show. simpl. eexists. split; [reflexivity|]. split; [|exact Hlen].
      simpl. by rewrite Hshown2, Hshown1, <- !app_assoc.
Qed.

Lemma render_news_cases_witness :
  shown (snd (render_news Sample.plain "" "AAA" Sample.fresh))
    = [Subheader "📰 AAA Recent News";
       Info "Enter your Finnhub API key in the sidebar to enable company news.";
       Html "<hr style='border: 1px solid #00f5ff; opacity: 0.3;'>"] /\
  shown (snd (render_news Sample.plain "key" "AAA" Sample.fresh))
    = [Subheader "📰 AAA Recent News"; Info "No recent news available.";
       Html "<hr style='border: 1px solid #00f5ff; opacity: 0.3;'>"].
Proof.
  split.
  - destruct (render_news_cases Sample.plain "" "AAA" Sample.fresh Sample.fresh [] [])
      as (Hnokey & _).
    rewrite (Hnokey eq_refl). reflexivity.
  - assert (Hget : get_company_news Sample.plain "AAA" "key"
                     (set_shown (shown Sample.fresh ++ [Subheader "📰 AAA Recent News"])%list
                        Sample.fresh)
                   = (Ok [], snd (get_company_news Sample.plain "AAA" "key"
                        (set_shown (shown Sample.fresh ++ [Subheader "📰 AAA Recent News"])%list
                           Sample.fresh))))
      by (vm_compute; reflexivity).
    destruct (render_news_cases Sample.plain "key" "AAA" Sample.fresh
                (snd (get_company_news Sample.plain "AAA" "key"
                        (set_shown (shown Sample.fresh ++ [Subheader "📰 AAA Recent News"])%list
                           Sample.fresh))) [] [])
      as (_ & Hkey).
    destruct (Hkey ltac:(discriminate) Hget) as (Hnone & _).
    destruct (Hnone eq_refl) as (s' & Hrun & Hshown).
    rewrite Hrun. simpl. rewrite Hshown. reflexivity.
Defined.

(** ** The company description (lines 323-328) *)

(** X10. The description block never shows a missing description as
    missing: without the field, the placeholder text itself is shown
    inside the expander.  An ASCII text that is empty or all white space,
    and any falsy value, give the "No company description available."
    notice; any other ASCII text is shown in the expander; a truthy value
    that is no text raises AttributeError before anything is shown.  (A
    text with characters beyond ASCII is left out: Python strips Unicode
    white space too, which [Str.strip] does not know.) *)
Theorem render_summary_cases (w : World) (info : gmap string pyval) (s : St) :
  let label := "📘 Company Info (click to expand)" in
  let notice := Info "No company description available." in
  (info !! "longBusinessSummary" = None ->
   render_summary w (VDict info) s
     = (Ok tt, set_shown
                 (shown s ++ [Expander label "No company description available."])%list s)) /\
  (forall text,
     info !! "longBusinessSummary" = Some (VStr text) ->
     Tickers.is_ascii text = true ->
     Str.strip text = "" ->
     render_summary w (VDict info) s
       = (Ok tt, set_shown (shown s ++ [notice])%list s)) /\
  (forall text,
     info !! "longBusinessSummary" = Some (VStr text) ->
     Tickers.is_ascii text = true ->
     Str.strip text <> "" ->
     render_summary w (VDict info) s
       = (Ok tt, set_shown (shown s ++ [Expander label text])%list s)) /\
  (forall v,
     info !! "longBusinessSummary" = Some v ->
     truthy v = false ->
     render_summary w (VDict info) s
       = (Ok tt, set_shown (shown s ++ [notice])%list s)) /\
  (forall v,
     info !! "longBusinessSummary" = Some v ->
     truthy v = true ->
     (forall text, v <> VStr text) ->
     exists e, render_summary w (VDict info) s = (Raise e, s) /\
               exn_class e = "AttributeError").
Proof.
  intros label notice.
  unfold render_summary, bind, lift, py_get_or, dict_get_or.
  split; [|split; [|split; [|split]]].
  - by intros ->.
  - intros text -> _ Hblank. simpl.
    destruct (String.eqb text ""); simpl; [done|]. by rewrite Hblank.
  - intros text -> _ Hblank. simpl.
    destruct (String.eqb_spec text "") as [-> | _]; [done|]. simpl.
    by destruct (String.eqb_spec (Str.strip text) "").
  - intros v -> Hfalsy. simpl. by rewrite Hfalsy.
  - intros v -> Htruthy Hnot. simpl. rewrite Htruthy.
    destruct v as [| | | |text| |]; simpl in *;
      try discriminate;
      try (eexists; split; reflexivity).
    by destruct (Hnot text).
Qed.

Lemma render_summary_cases_witness :
  shown (snd (render_summary Sample.plain (VDict ∅) Sample.fresh))
    = [Expander "📘 Company Info (click to expand)" "No company description available."] /\
  shown (snd (render_summary Sample.plain
                (VDict {[ "longBusinessSummary" := VStr "   " ]}) Sample.fresh))
    = [Info "No company description available."] /\
  shown (snd (render_summary Sample.plain
                (VDict {[ "longBusinessSummary" := VStr " Makes phones. " ]})
                Sample.fresh))
    = [Expander "📘 Company Info (click to expand)" " Makes phones. "] /\
  fst (render_summary Sample.plain
         (VDict {[ "longBusinessSummary" := VInt 7 ]}) Sample.fresh)
    = Raise (Exn "AttributeError" "'int' object has no attribute 'strip'").
Proof.
  split; [|split; [|split]].
  - destruct (render_summary_cases Sample.plain ∅ Sample.fresh) as (Hmissing & _).
    rewrite (Hmissing eq_refl). reflexivity.
  - destruct (render_summary_cases Sample.plain
                {[ "longBusinessSummary" := VStr "   " ]} Sample.fresh)
      as (_ & Hblank & _).
    rewrite (Hblank "   " eq_refl eq_refl eq_refl). reflexivity.
  - destruct (render_summary_cases Sample.plain
                {[ "longBusinessSummary" := VStr " Makes phones. " ]} Sample.fresh)
      as (_ & _ & Htext & _).
    rewrite (Htext " Makes phones. " eq_refl eq_refl ltac:(discriminate)). reflexivity.
  - destruct (render_summary_cases Sample.plain
                {[ "longBusinessSummary" := VInt 7 ]} Sample.fresh)
      as (_ & _ & _ & _ & Hbad).
    destruct (Hbad (VInt 7) eq_refl eq_refl ltac:(discriminate)) as (e & Hrun & _).
    reflexivity.
Defined.

(** ** The logo domain (line 193) *)

Lemma free_of_cons (c a : ascii) (s : string) :
  Url.free_of c (String a s) -> a <> c /\ Url.free_of c s.
Proof.
  unfold Url.free_of. simpl. intros Hfree. split.
  - intros ->. apply Hfree. by left.
  - intros Hin. apply Hfree. by right.
Qed.

Lemma prefix_cons (a b : ascii) (s1 s2 : string) :
  String.prefix (String a s1) (String b s2)
    = if ascii_dec a b then String.prefix s1 s2 else false.
Proof. reflexivity. Qed.

Lemma append_nil (s : string) : "" ++ s = s.
Proof. reflexivity. Qed.

Lemma append_cons (c : ascii) (s t : string) : String c s ++ t = String c (s ++ t).
Proof. reflexivity. Qed.

Lemma append_empty_r (s : string) : s ++ "" = s.
Proof.
  induction s as [|c s IH]; [done|]. by rewrite append_cons, IH.
Qed.

Lemma prefix_self (x s : string) : String.prefix x (x ++ s) = true.
Proof.
  induction x as [|c x IH].
  - rewrite append_nil. by destruct s.
  - rewrite append_cons, prefix_cons. by destruct (ascii_dec c c).
Qed.

(** A pattern whose first colon comes after slash-free characters cannot
    start inside a colon-free text that is followed by nothing or by a
    slash. *)
Lemma prefix_blocked (letters tail host rest : string) :
  Url.free_of "/" letters ->
  Url.free_of ":" host ->
  rest = "" \/ (exists r, rest = String "/" r) ->
  String.prefix (letters ++ String ":" tail) (host ++ rest) = false.
Proof.
  intros Hletters Hhost Hrest. revert host Hhost.
  induction letters as [|a letters IH]; intros host Hhost.
  - destruct host as [|c host]; rewrite ?append_nil, ?append_cons.
    + destruct Hrest as [-> | [r ->]]; [done|].
      rewrite prefix_cons. by destruct (ascii_dec ":" "/").
    + apply free_of_cons in Hhost as [Hc _].
      rewrite prefix_cons.
      destruct (ascii_dec ":" c) as [Heq | _]; [congruence | done].
  - apply free_of_cons in Hletters as [Ha Hletters].
    destruct host as [|c host]; rewrite ?append_nil, ?append_cons.
    + destruct Hrest as [-> | [r ->]]; [done|].
      rewrite prefix_cons.
      destruct (ascii_dec a "/") as [Heq | _]; [congruence | done].
    + apply free_of_cons in Hhost as [_ Hhost].
      rewrite prefix_cons.
      destruct (ascii_dec a c); [|done]. by apply IH.
Qed.

Lemma replace_from_skip (old new x s : string) :
  Str.replace_from old new (String.length x) (x ++ s) = Str.replace_from old new 0 s.
Proof.
  induction x as [|c x IH]; [by rewrite append_nil|].
  rewrite append_cons. simpl. apply IH.
Qed.

Lemma replace_from_start (old new : string) (c : ascii) (s : string) :
  Str.replace_from old new 0 (String c s)
    = if String.prefix old (String c s)
      then new ++ Str.replace_from old new (String.length old - 1) s
      else String c (Str.replace_from old new 0 s).
Proof. reflexivity. Qed.

(** A leading occurrence is replaced, and the scan goes on behind it. *)
Lemma replace_leading (c : ascii) (old new s : string) :
  Str.replace (String c old) new (String c old ++ s)
    = new ++ Str.replace (String c old) new s.
Proof.
  unfold Str.replace.
  change (Str.replace_from (String c old) new 0 (String c old ++ s))
    with (if String.prefix (String c old) (String c old ++ s)
          then new ++ Str.replace_from (String c old) new
                        (String.length (String c old) - 1) (old ++ s)
          else String c (Str.replace_from (String c old) new 0 (old ++ s))).
  rewrite (prefix_self (String c old) s).
  replace (String.length (String c old) - 1)%nat with (String.length old)
    by (simpl; lia).
  by rewrite replace_from_skip.
Qed.

(** The scan walks through a host untouched. *)
Lemma replace_through_host (letters tail new host rest : string) :
  Url.free_of "/" letters ->
  Url.free_of ":" host ->
  rest = "" \/ (exists r, rest = String "/" r) ->
  Str.replace (letters ++ String ":" tail) new (host ++ rest)
    = host ++ Str.replace (letters ++ String ":" tail) new rest.
Proof.
  intros Hletters Hhost Hrest. unfold Str.replace.
  induction host as [|c host IH]; [by rewrite !append_nil|].
  pose proof (prefix_blocked letters tail (String c host) rest Hletters Hhost Hrest)
    as Hblocked.
  apply free_of_cons in Hhost as [_ Hhost].
  rewrite !append_cons in *. rewrite replace_from_start, Hblocked. by rewrite IH.
Qed.

Lemma split_head_host (host rest : string) :
  Url.free_of "/" host ->
  rest = "" \/ (exists r, rest = String "/" r) ->
  Str.split_head "/" (host ++ rest) = host.
Proof.
  intros Hhost Hrest. induction host as [|c host IH].
  - rewrite append_nil. by destruct Hrest as [-> | [r ->]].
  - apply free_of_cons in Hhost as [Hc Hhost].
    rewrite append_cons. simpl.
    destruct (Ascii.eqb_spec c "/"); [done|]. by rewrite IH.
Qed.

Lemma free_of_https : Url.free_of "/" "https".
Proof.
  unfold Url.free_of. simpl. intros H.
  repeat (destruct H as [H | H]; [discriminate|]). done.
Qed.

Lemma free_of_http : Url.free_of "/" "http".
Proof.
  unfold Url.free_of. simpl. intros H.
  repeat (destruct H as [H | H]; [discriminate|]). done.
Qed.

(** A character other than the first of the pattern is kept. *)
Lemma replace_other (a c : ascii) (old new s : string) :
  a <> c ->
  Str.replace (String a old) new (String c s)
    = String c (Str.replace (String a old) new s).
Proof.
  intros Hne. unfold Str.replace. rewrite replace_from_start, prefix_cons.
  by destruct (ascii_dec a c).
Qed.

(** Both scheme removals leave [host/path] with its host in front. *)
Lemma strip_schemes_host (host path : string) :
  Url.is_host host ->
  exists path',
    Str.replace "http://" "" (Str.replace "https://" "" (host ++ String "/" path))
      = host ++ String "/" path'.
Proof.
  intros [Hslash Hcolon].
  change "https://" with ("https" ++ String ":" "//").
  rewrite (replace_through_host "https" "//" "" host (String "/" path)
             free_of_https Hcolon (or_intror (ex_intro _ path eq_refl))).
  change ("https" ++ String ":" "//") with (String "h" "ttps://").
  rewrite (replace_other "h" "/") by discriminate.
  change "http://" with ("http" ++ String ":" "//").
  rewrite (replace_through_host "http" "//" "" host _
             free_of_http Hcolon (or_intror (ex_intro _ _ eq_refl))).
  change ("http" ++ String ":" "//") with (String "h" "ttp://").
  rewrite (replace_other "h" "/") by discriminate.
  eauto.
Qed.

Lemma strip_schemes_bare (host : string) :
  Url.is_host host ->
  Str.replace "http://" "" (Str.replace "https://" "" host) = host.
Proof.
  intros [Hslash Hcolon].
  rewrite <- (append_empty_r host) at 1.
  change "https://" with ("https" ++ String ":" "//").
  rewrite (replace_through_host "https" "//" "" host ""
             free_of_https Hcolon (or_introl eq_refl)).
  change (Str.replace ("https" ++ String ":" "//") "" "") with "".
  change "http://" with ("http" ++ String ":" "//").
  rewrite (replace_through_host "http" "//" "" host ""
             free_of_http Hcolon (or_introl eq_refl)).
  change (Str.replace ("http" ++ String ":" "//") "" "") with "".
  by rewrite !append_empty_r.
Qed.

Lemma strip_https_over_http (x : string) :
  Str.replace "https://" "" ("http://" ++ x)
    = "http://" ++ Str.replace "https://" "" x.
Proof.
  change ("http://" ++ x)
    with (String "h" (String "t" (String "t" (String "p"
            (String ":" (String "/" (String "/" x))))))).
  unfold Str.replace at 1. rewrite replace_from_start.
  change (String.prefix "https://"
            (String "h" (String "t" (String "t" (String "p"
               (String ":" (String "/" (String "/" x))))))))
    with false.
  fold (Str.replace "https://" ""
          (String "t" (String "t" (String "p" (String ":" (String "/" (String "/" x))))))).
  by rewrite !(replace_other "h") by discriminate.
Qed.

(** X12. For a website that is a host name, with or without a scheme
    in front and with or without a path behind (six shapes: each of
    "https://", "http://" and no scheme, followed by the host alone or by
    the host, a slash and a path), the logo domain is the host name;
    without a website it is empty. *)
Theorem website_domain_is_host (info : gmap string pyval) (host path : string) :
  Url.is_host host ->
  (info !! "website" = Some (VStr ("https://" ++ host ++ "/" ++ path)) ->
   website_domain (VDict info) = Ok host) /\
  (info !! "website" = Some (VStr ("http://" ++ host ++ "/" ++ path)) ->
   website_domain (VDict info) = Ok host) /\
  (info !! "website" = Some (VStr (host ++ "/" ++ path)) ->
   website_domain (VDict info) = Ok host) /\
  (info !! "website" = Some (VStr host) -> website_domain (VDict info) = Ok host) /\
  (info !! "website" = None -> website_domain (VDict info) = Ok "") /\
  (info !! "website" = Some (VStr ("https://" ++ host)) ->
   website_domain (VDict info) = Ok host) /\
  (info !! "website" = Some (VStr ("http://" ++ host)) ->
   website_domain (VDict info) = Ok host).
Proof.
  intros Hhost.
  destruct (strip_schemes_host host path Hhost) as [path' Hstripped].
  pose proof (strip_schemes_bare host Hhost) as Hbare.
  pose proof Hhost as [Hslash _].
  assert (Hhead : Str.split_head "/" host = host).
  { rewrite <- (append_empty_r host) at 1. apply split_head_host; eauto. }
  unfold website_domain, py_get_or, dict_get_or. simpl.
  split; [|split; [|split; [|split; [|split; [|split]]]]]; intros ->; simpl; f_equal.
  - change ("https://" ++ host ++ "/" ++ path)
      with (String "h" "ttps://" ++ (host ++ String "/" path)).
    rewrite replace_leading, append_nil, Hstripped.
    apply split_head_host; eauto.
  - change ("http://" ++ host ++ "/" ++ path)
      with ("http://" ++ (host ++ String "/" path)).
    rewrite strip_https_over_http.
    change ("http://" ++ Str.replace "https://" "" (host ++ String "/" path))
      with (String "h" "ttp://" ++ Str.replace "https://" "" (host ++ String "/" path)).
    rewrite replace_leading, append_nil, Hstripped.
    apply split_head_host; eauto.
  - change (host ++ "/" ++ path) with (host ++ String "/" path).
    rewrite Hstripped. apply split_head_host; eauto.
  - by rewrite Hbare.
  - change ("https://" ++ host) with (String "h" "ttps://" ++ host).
    by rewrite replace_leading, append_nil, Hbare.
  - rewrite strip_https_over_http.
    change ("http://" ++ Str.replace "https://" "" host)
      with (String "h" "ttp://" ++ Str.replace "https://" "" host).
    by rewrite replace_leading, append_nil, Hbare.
Qed.

Lemma website_domain_is_host_witness :
  website_domain (VDict (Url.site (VStr "https://www.apple.com/us/shop"))) = Ok "www.apple.com" /\
  website_domain (VDict (Url.site (VStr "https://www.apple.com"))) = Ok "www.apple.com" /\
  website_domain (VDict (Url.site (VStr "http://www.apple.com"))) = Ok "www.apple.com".
Proof.
  assert (Hhost : Url.is_host "www.apple.com").
  { split; unfold Url.free_of; simpl; intros H;
      repeat (destruct H as [H | H]; [discriminate|]); done. }
  split; [|split].
  - destruct (website_domain_is_host (Url.site (VStr "https://www.apple.com/us/shop"))
                "www.apple.com" "us/shop" Hhost) as (Hhttps & _).
    apply Hhttps. reflexivity.
  - destruct (website_domain_is_host (Url.site (VStr "https://www.apple.com"))
                "www.apple.com" "" Hhost) as (_ & _ & _ & _ & _ & Hhttps & _).
    apply Hhttps. reflexivity.
  - destruct (website_domain_is_host (Url.site (VStr "http://www.apple.com"))
                "www.apple.com" "" Hhost) as (_ & _ & _ & _ & _ & _ & Hhttp).
    apply Hhttp. reflexivity.
Defined.

(** ** The company header (lines 189-210) *)

(** The header is the choice of a logo URL, the logo column and the two
    text lines. *)
Lemma render_company_header_eq (w : World) (info : pyval) (ticker : string) :
  render_company_header w info ticker =
    bind (lift (py_get info "logo_url")) (fun logo_url =>
    bind (if truthy logo_url then ret logo_url
          else bind (lift (website_domain info)) (fun domain =>
               if truthy (VStr domain)
               then ret (VStr ("https://logo.clearbit.com/" ++ domain))
               else ret logo_url)) (fun logo_url =>
    bind (Url.logo_block w logo_url) (fun _ => Url.meta_block w info ticker))).
Proof. reflexivity. Qed.

(** Whatever the logo request and the decoder answer, the logo column ends
    normally; it shows the picture or nothing, after one request. *)
Lemma logo_block_total (w : World) (logo_url : pyval) (s : St) :
  exists s' logo,
    Url.logo_block w logo_url s = (Ok tt, s') /\
    shown s' = (shown s ++ logo)%list /\
    (logo = [] \/ exists img, logo = [ImageOut img 100]) /\
    sent s' = (sent s ++ if truthy logo_url then [ReqLogo logo_url] else [])%list.
Proof.
  unfold Url.logo_block. destruct (truthy logo_url).
  - unfold try_except, bind, call, ask, lift, send, show, ret. simpl.
    destruct (requests_get_logo w (asked s) logo_url) as [r|e]; simpl.
    + destruct (Z.eqb (status_code r) 200); simpl.
      * destruct (image_open w (S (asked s)) (content r)) as [img|e]; simpl.
        -- eexists _, [ImageOut img 100]. repeat split; eauto.
        -- eexists _, []. rewrite app_nil_r. repeat split; eauto.
      * eexists _, []. rewrite app_nil_r. repeat split; eauto.
    + eexists _, []. rewrite app_nil_r. repeat split; eauto.
  - exists s, []. rewrite !app_nil_r. repeat split; eauto.
Qed.

Lemma meta_block_eq (w : World) (info : gmap string pyval) (ticker : string) (s : St) :
  Url.meta_block w (VDict info) ticker s
    = (Ok tt, set_shown (shown s ++ Url.header_lines w info ticker)%list s).
Proof.
  unfold Url.meta_block, Url.header_lines, bind, lift, show. simpl.
  by rewrite <- app_assoc.
Qed.

(** X11. For a mapping whose logo URL is truthy, or whose website is a
    text or missing, the company header never raises, whatever the logo
    request answers: it shows the logo or nothing, then the name
    (defaulting to the ticker) and the sector and industry (defaulting to
    "N/A").  With a falsy logo URL the logo is asked of Clearbit for the
    website's domain, and not asked at all when that domain is empty.  A
    website that is present but no text, next to a falsy logo URL, raises
    AttributeError before anything is shown. *)
Theorem company_header_cases
    (w : World) (info : gmap string pyval) (ticker : string) (s : St) :
  (truthy (dict_get info "logo_url") = true \/
   (forall v, info !! "website" = Some v -> exists u, v = VStr u) ->
   exists s' logo,
     render_company_header w (VDict info) ticker s = (Ok tt, s') /\
     shown s' = (shown s ++ logo ++ Url.header_lines w info ticker)%list /\
     (logo = [] \/ exists img, logo = [ImageOut img 100])) /\
  (forall domain,
     truthy (dict_get info "logo_url") = false ->
     website_domain (VDict info) = Ok domain ->
     sent (snd (render_company_header w (VDict info) ticker s))
       = (sent s ++ if String.eqb domain "" then []
                    else [ReqLogo (VStr ("https://logo.clearbit.com/" ++ domain))])%list) /\
  (forall v,
     truthy (dict_get info "logo_url") = false ->
     info !! "website" = Some v ->
     (forall u, v <> VStr u) ->
     exists e, render_company_header w (VDict info) ticker s = (Raise e, s) /\
               exn_class e = "AttributeError").
Proof.
  rewrite render_company_header_eq.
  assert (Hrun : forall logo_url s0,
            shown s0 = shown s ->
            exists s' logo,
              bind (Url.logo_block w logo_url)
                (fun _ => Url.meta_block w (VDict info) ticker) s0 = (Ok tt, s') /\
              shown s' = (shown s ++ logo ++ Url.header_lines w info ticker)%list /\
              (logo = [] \/ exists img, logo = [ImageOut img 100]) /\
              sent s' = (sent s0 ++ if truthy logo_url then [ReqLogo logo_url] else [])%list).
  { intros logo_url s0 Hs0. unfold bind.
    destruct (logo_block_total w logo_url s0) as (s1 & logo & -> & Hshown & Hlogo & Hsent).
    rewrite meta_block_eq. eexists _, logo. split; [reflexivity|]. simpl.
    split; [by rewrite Hshown, Hs0, <- app_assoc | done]. }
  split; [|split].
  - intros Hok. unfold bind at 1. simpl. unfold bind at 1.
    destruct (truthy (dict_get info "logo_url")) eqn:Hlogo.
    + simpl. destruct (Hrun (dict_get info "logo_url") s eq_refl)
        as (s' & logo & Hr & Hshown & Hshape & _). eauto.
    + destruct Hok as [? | Hsite]; [done|].
      unfold bind at 1. unfold website_domain, py_get_or, dict_get_or. simpl.
      destruct (info !! "website") as [v|] eqn:Hv; simpl.
      * destruct (Hsite v eq_refl) as [u ->]. simpl.
        match goal with |- context [if ?b then _ else _] => destruct b end;
          simpl;
          match goal with |- context [bind (Url.logo_block w ?l)] =>
            destruct (Hrun l s eq_refl) as (s' & logo & Hr & Hshown & Hshape & _)
          end; eauto.
      * destruct (Hrun (dict_get info "logo_url") s eq_refl)
          as (s' & logo & Hr & Hshown & Hshape & _). eauto.
  - intros domain Hlogo Hdomain. unfold bind at 1. simpl. unfold bind at 1.
    rewrite Hlogo. unfold bind at 1. rewrite Hdomain. simpl.
    destruct (String.eqb domain ""); simpl.
    + destruct (Hrun (dict_get info "logo_url") s eq_refl)
        as (s' & logo & -> & _ & _ & Hsent). simpl. by rewrite Hsent, Hlogo.
    + destruct (Hrun (VStr ("https://logo.clearbit.com/" ++ domain)) s eq_refl)
        as (s' & logo & -> & _ & _ & Hsent). simpl. rewrite Hsent.
      by destruct (truthy (VStr ("https://logo.clearbit.com/" ++ domain))) eqn:Ht.
  - intros v Hlogo Hv Hnot. unfold bind at 1. simpl. unfold bind at 1.
    rewrite Hlogo. unfold bind at 1.
    unfold website_domain, py_get_or, dict_get_or. simpl. rewrite Hv. simpl.
    destruct v as [| | | |u| |]; simpl; try (eexists; split; reflexivity).
    by destruct (Hnot u).
Qed.

Lemma company_header_cases_witness :
  (exists e,
     render_company_header Sample.plain (VDict (Url.site VNone)) "AAA" Sample.fresh
       = (Raise e, Sample.fresh) /\ exn_class e = "AttributeError") /\
  (exists s' logo,
     render_company_header Sample.plain (VDict (Url.site (VStr "https://x.org/")))
       "AAA" Sample.fresh = (Ok tt, s') /\
     shown s' = (shown Sample.fresh ++ logo ++
                 Url.header_lines Sample.plain (Url.site (VStr "https://x.org/")) "AAA")%list /\
     (logo = [] \/ exists img, logo = [ImageOut img 100])).
Proof.
  split.
  - destruct (company_header_cases Sample.plain (Url.site VNone) "AAA" Sample.fresh)
      as (_ & _ & Hbad).
    apply (Hbad VNone); [reflexivity | reflexivity | discriminate].
  - destruct (company_header_cases Sample.plain (Url.site (VStr "https://x.org/"))
                "AAA" Sample.fresh) as (Hok & _).
    apply Hok. right. intros v Hv. vm_compute in Hv. injection Hv as <-. eauto.
Defined.

(** ** The metric row (lines 303-320) *)

(** X13. The metric row shows its metrics in a fixed order: current
    price, market cap, 52-week range, then the daily change if there is
    one.  A price that cannot be formatted raises before any metric is
    shown, a market cap that cannot be formatted raises after the price
    metric alone.  Floats can always be formatted; a non-empty text
    cannot, and raises ValueError "Unknown format code 'f' for object of
    type 'str'", which the except clause of the loop then prints. *)
Theorem metrics_row_cases
    (w : World) (info : gmap string pyval) (ticker : string) (s : St) :
  let price := py_or (dict_get info "currentPrice") (dict_get info "regularMarketPrice") in
  let cap := dict_get info "marketCap" in
  let range :=
    Metric "52w High / Low"
      (range_text (py_repr w) (dict_get info "fiftyTwoWeekHigh")
         (dict_get info "fiftyTwoWeekLow")) None in
  (forall e, price_text price = Raise e ->
     render_metrics w (VDict info) ticker s = (Raise e, s)) /\
  (forall p e, price_text price = Ok p -> cap_text cap = Raise e ->
     render_metrics w (VDict info) ticker s
       = (Raise e, set_shown (shown s ++ [Metric "Current Price" p None])%list s)) /\
  (forall p c, price_text price = Ok p -> cap_text cap = Ok c ->
     exists s' daily,
       render_metrics w (VDict info) ticker s = (Ok tt, s') /\
       shown s' = (shown s ++ [Metric "Current Price" p None; Metric "Market Cap" c None; range]
                     ++ daily)%list /\
       (daily = [] \/
        exists value delta, daily = [Metric "Daily Change" value (Some delta)])) /\
  (forall f, exists p c, price_text (VFloat f) = Ok p /\ cap_text (VFloat f) = Ok c) /\
  (forall text, text <> "" ->
     let e := Exn "ValueError" "Unknown format code 'f' for object of type 'str'" in
     price_text (VStr text) = Raise e /\ cap_text (VStr text) = Raise e).
Proof.
  intros price cap range.
  destruct (render_metrics_run w info ticker s) as (Hprice & Hcap & Hfull).
  split; [exact Hprice|]. split; [exact Hcap|]. split; [exact Hfull|]. split.
  - intros f. unfold price_text, cap_text. simpl.
    destruct (negb (PrimFloat.eqb f PrimFloat.zero)); eexists _, _; split; reflexivity.
  - intros text Htext. unfold price_text, cap_text. simpl.
    by destruct (String.eqb_spec text "").
Qed.

Lemma metrics_row_cases_witness :
  render_metrics Sample.plain (VDict {[ "currentPrice" := VStr "189.50" ]}) "AAA" Sample.fresh
    = (Raise (Exn "ValueError" "Unknown format code 'f' for object of type 'str'"),
       Sample.fresh) /\
  render_metrics Sample.plain
    (VDict (<["currentPrice" := VFloat 189.5]> {[ "marketCap" := VList [VInt 1] ]}))
    "AAA" Sample.fresh
    = (Raise (Exn "TypeError" "unsupported format string passed to list.__format__"),
       set_shown [Metric "Current Price" "$189.50" None] Sample.fresh).
Proof.
  split.
  - destruct (metrics_row_cases Sample.plain {[ "currentPrice" := VStr "189.50" ]}
                "AAA" Sample.fresh) as (Hprice & _).
    apply Hprice. reflexivity.
  - destruct (metrics_row_cases Sample.plain
                (<["currentPrice" := VFloat 189.5]> {[ "marketCap" := VList [VInt 1] ]})
                "AAA" Sample.fresh) as (_ & Hcap & _).
    apply (Hcap "$189.50"); vm_compute; reflexivity.
Defined.

(** ** The refresh check on a session (lines 144-149) *)

(** X14. The first check of a session stores the clock reading and never
    asks for a rerun.  After any check [last_refresh] is set, and no other
    key of the session state is touched; a rerun is asked for only with a
    stored [last_refresh], which is then the second clock reading, and a
    check that asks for none leaves a session with a stored [last_refresh]
    as it is. *)
Theorem refresh_check_session
    (t0 t1 : float) (refresh_rate : Z) (ss : Refresh.session_state) :
  let after := fst (Refresh.refresh_check t0 t1 refresh_rate ss) in
  let rerun := snd (Refresh.refresh_check t0 t1 refresh_rate ss) in
  (ss !! "last_refresh" = None ->
   after = <["last_refresh" := t0]> ss /\ rerun = false) /\
  is_Some (after !! "last_refresh") /\
  (forall k, k <> "last_refresh" -> after !! k = ss !! k) /\
  (rerun = true ->
   is_Some (ss !! "last_refresh") /\ after !! "last_refresh" = Some t1) /\
  (rerun = false -> is_Some (ss !! "last_refresh") -> after = ss).
Proof.
  intros after rerun. subst after rerun. unfold Refresh.refresh_check.
  destruct (ss !! "last_refresh") as [last|] eqn:Hlast.
  - destruct (Refresh.float_gt_int (PrimFloat.sub t0 last) refresh_rate); simpl.
    + split; [done|]. split; [by rewrite lookup_insert_eq|].
      split; [by intros k Hk; rewrite lookup_insert_ne|].
      split; [by rewrite lookup_insert_eq | done].
    + split; [done|]. split; [by rewrite Hlast|]. by repeat split.
  - simpl. split; [done|]. split; [by rewrite lookup_insert_eq|].
    split; [by intros k Hk; rewrite lookup_insert_ne|].
    split; [done | by intros _ [? ?]].
Qed.

Lemma refresh_check_session_witness :
  Refresh.refresh_check 1000 1000.5 60 ∅ = ({[ "last_refresh" := 1000%float ]}, false).
Proof.
  destruct (refresh_check_session 1000 1000.5 60 ∅) as (Hfirst & _).
  destruct (Hfirst eq_refl) as [Hafter Hrerun].
  rewrite (surjective_pairing (Refresh.refresh_check 1000 1000.5 60 ∅)).
  simpl in Hafter, Hrerun. rewrite Hafter, Hrerun. reflexivity.
Defined.

(** ** The page prologue (lines 49-126) *)

(** X15. The style-sheet step raises exactly when the test
    [css_path.exists()], which stands outside the [try], raises, and then
    with that exception.  Otherwise it emits at most one style sheet: the
    built-in one exactly when the file does not exist, the file's text when
    it exists and can be read, and none at all when it exists but cannot be
    read.  The video step, whose test stands inside the [try], emits exactly
    one video element whatever the file system answers: the local one when
    the file exists and can be read, else the one of the GitHub release. *)
Theorem prologue_css_and_video (fs : Page.Files) :
  (forall e, Page.load_css fs = Raise e <-> Page.css_exists fs = Raise e) /\
  (forall sheets, Page.load_css fs = Ok sheets -> (length sheets <= 1)%nat) /\
  (Page.load_css fs = Ok [Html Page.fallback_css] <-> Page.css_exists fs = Ok false) /\
  (Page.css_exists fs = Ok true ->
   (forall text, Page.css_read fs = Ok text ->
      Page.load_css fs = Ok [Html ("<style>" ++ text ++ "</style>")]) /\
   (forall e, Page.css_read fs = Raise e -> Page.load_css fs = Ok [])) /\
  (exists one, Page.video_background fs = [one]) /\
  (forall data,
     Page.video_exists fs = Ok true -> Page.video_read_bytes fs = Ok data ->
     Page.video_background fs
       = [Page.Streamlit (Html (Page.local_video (Page.b64encode fs data)))]) /\
  (Page.video_exists fs <> Ok true \/ (exists e, Page.video_read_bytes fs = Raise e) ->
   Page.video_background fs = [Page.ComponentsHtml Page.remote_video 0 0]).
Proof.
  unfold Page.load_css, Page.video_background, Page.try_embed_local_video.
  split; [|split; [|split; [|split; [|split; [|split]]]]].
  - intros e. destruct (Page.css_exists fs) as [[]|e']; simpl.
    + by destruct (Page.css_read fs).
    + done.
    + split; by intros [= ->].
  - intros sheets. destruct (Page.css_exists fs) as [[]|e]; simpl.
    + destruct (Page.css_read fs); intros [= <-]; simpl; lia.
    + intros [= <-]. simpl. lia.
    + done.
  - destruct (Page.css_exists fs) as [[]|e]; simpl; [|done|done].
    split; [|done]. destruct (Page.css_read fs) as [text|e]; [|done].
    intros [= Heq].
  - intros ->. simpl. split.
    + by intros text ->.
    + by intros e ->.
  - destruct (Page.video_exists fs) as [[]|e]; [|by eexists|by eexists].
    destruct (Page.video_read_bytes fs); by eexists.
  - by intros data -> ->.
  - intros [Hexists | [e Hread]].
    + destruct (Page.video_exists fs) as [[]|e]; done.
    + rewrite Hread. by destruct (Page.video_exists fs) as [[]|e'].
Qed.

Lemma prologue_css_and_video_witness :
  Page.load_css Disk.locked = Ok [] /\
  Page.video_background Disk.locked = [Page.ComponentsHtml Page.remote_video 0 0] /\
  Page.load_css Disk.bare = Ok [Html Page.fallback_css] /\
  Page.load_css Disk.sealed = Raise (Exn "PermissionError" "Permission denied") /\
  Page.video_background Disk.sealed = [Page.ComponentsHtml Page.remote_video 0 0].
Proof.
  destruct (prologue_css_and_video Disk.locked) as (_ & _ & _ & Hcss & _ & _ & Hvideo).
  destruct (prologue_css_and_video Disk.bare) as (_ & _ & Hfallback & _).
  destruct (prologue_css_and_video Disk.sealed) as (Hraise & _ & _ & _ & _ & _ & Hremote).
  split; [|split; [|split; [|split]]].
  - destruct (Hcss eq_refl) as (_ & Hlocked).
    apply (Hlocked (Exn "PermissionError" "Permission denied")). reflexivity.
  - apply Hvideo. right. by eexists.
  - apply Hfallback. reflexivity.
  - apply Hraise. reflexivity.
  - apply Hremote. left. discriminate.
Defined.

(** X16. Choosing the chart background never raises and opens at most one
    file.  A picture is returned only when that one file could be opened.
    Any choice other than "Beach 1", "Beach 2" and "Upload Your Own" opens
    nothing and gives no background, and so does "Upload Your Own" with
    nothing uploaded; an upload is looked at only under "Upload Your Own". *)
Theorem choose_background_cases
    (fs : Page.Files) (bg_choice : string) (upload : option string) :
  let chosen := fst (Page.choose_background fs bg_choice upload) in
  let opens := snd (Page.choose_background fs bg_choice upload) in
  (length opens <= 1)%nat /\
  (forall img, chosen = Some img ->
     (exists path, opens = [Page.OpenPath path] /\ Page.image_open_path fs path = Ok img) \/
     (exists file, opens = [Page.OpenUpload file] /\ upload = Some file /\
                   Page.image_open_upload fs file = Ok img)) /\
  (bg_choice <> "Beach 1" -> bg_choice <> "Beach 2" -> bg_choice <> "Upload Your Own" ->
   chosen = None /\ opens = []) /\
  (bg_choice = "Upload Your Own" -> upload = None -> chosen = None /\ opens = []) /\
  (bg_choice <> "Upload Your Own" ->
   Page.choose_background fs bg_choice upload = Page.choose_background fs bg_choice None).
Proof.
  intros chosen opens. subst chosen opens. unfold Page.choose_background.
  destruct (String.eqb_spec bg_choice "Upload Your Own") as [-> | Hup].
  - destruct upload as [file|]; simpl.
    + destruct (Page.image_open_upload fs file) as [img|e] eqn:Hopen; simpl.
      * split; [lia|]. split; [|by repeat split].
        intros ? [= <-]. right. by exists file.
      * split; [lia|]. by repeat split.
    + split; [simpl; lia|]. by repeat split.
  - destruct (String.eqb_spec bg_choice "Beach 1") as [-> | H1].
    + destruct (Page.image_open_path fs "images/1.jpg") as [img|e] eqn:Hopen; simpl.
      * split; [lia|]. split; [|by repeat split].
        intros ? [= <-]. left. by exists "images/1.jpg".
      * split; [lia|]. by repeat split.
    + destruct (String.eqb_spec bg_choice "Beach 2") as [-> | H2].
      * destruct (Page.image_open_path fs "images/2.jpg") as [img|e] eqn:Hopen; simpl.
        -- split; [lia|]. split; [|by repeat split].
           intros ? [= <-]. left. by exists "images/2.jpg".
        -- split; [lia|]. by repeat split.
      * simpl. split; [lia|]. by repeat split.
Qed.

Lemma choose_background_cases_witness :
  Page.choose_background Disk.bare "Classic" (Some "mine.png") = (None, []).
Proof.
  destruct (choose_background_cases Disk.bare "Classic" (Some "mine.png"))
    as (_ & _ & Hother & _).
  destruct Hother as [Hchosen Hopens]; try discriminate.
  destruct (Page.choose_background Disk.bare "Classic" (Some "mine.png"))
    as [chosen opens].
  simpl in Hchosen, Hopens. by subst.
Defined.

(** ** One fetch per key *)

Section Holds.

Variable w : World.
Variable I : St -> Prop.

Hypothesis I_asked : forall s n, I s -> I (set_asked n s).
Hypothesis I_shown : forall s l, I s -> I (set_shown l s).
Hypothesis I_logo : forall s url, I s -> I (set_sent (sent s ++ [ReqLogo url])%list s).
Hypothesis I_stock : forall ticker period, Frame.holds I (get_stock_data w ticker period).
Hypothesis I_info : forall ticker, Frame.holds I (get_info_cached w ticker).
Hypothesis I_news : forall symbol key, Frame.holds I (get_company_news w symbol key).

Lemma holds_ret {A} (a : A) : Frame.holds I (ret a).
Proof. by intros s Hs. Qed.

Lemma holds_lift {A} (o : outcome A) : Frame.holds I (lift o).
Proof. by intros s Hs. Qed.

Lemma holds_ask {A} (q : nat -> A) : Frame.holds I (ask q).
Proof. intros s Hs. by apply I_asked. Qed.

Lemma holds_show (e : event) : Frame.holds I (show e).
Proof. intros s Hs. by apply I_shown. Qed.

Lemma holds_send_logo (url : pyval) : Frame.holds I (send (ReqLogo url)).
Proof. intros s Hs. by apply I_logo. Qed.

Lemma holds_bind {A B} (m : M A) (k : A -> M B) :
  Frame.holds I m -> (forall a, Frame.holds I (k a)) -> Frame.holds I (bind m k).
Proof.
  intros Hm Hk s Hs. unfold bind. specialize (Hm s Hs).
  destruct (m s) as [[a|e] s1]; simpl in *; [by apply Hk | done].
Qed.

Lemma holds_call {A} (q : nat -> outcome A) : Frame.holds I (call q).
Proof. apply holds_bind; [apply holds_ask | intros; apply holds_lift]. Qed.

Lemma holds_try_except {A} (body : M A) (handler : exn -> M A) :
  Frame.holds I body -> (forall e, Frame.holds I (handler e)) ->
  Frame.holds I (try_except body handler).
Proof.
  intros Hb Hh s Hs. unfold try_except. specialize (Hb s Hs).
  destruct (body s) as [[a|e] s1]; simpl in *; [done | by apply Hh].
Qed.

Lemma holds_for_each {A} (xs : list A) (body : A -> M unit) :
  (forall x, Frame.holds I (body x)) -> Frame.holds I (for_each xs body).
Proof.
  intros Hbody. induction xs as [|x xs IH]; simpl.
  - apply holds_ret.
  - apply holds_bind; [apply Hbody | by intros _].
Qed.

(** A property kept by the three lookups, by the logo request and by
    showing and asking is kept by the whole main loop. *)
Lemma holds_main_loop
    (period finnhub_api : string) (bg_image : option image) (tickers : list string) :
  Frame.holds I (main_loop w period finnhub_api bg_image tickers).
Proof.
  unfold main_loop, loop_body.
  repeat first
    [ apply holds_ret | apply holds_lift | apply holds_ask | apply holds_show
    | apply holds_call | apply holds_send_logo
    | apply I_stock | apply I_info | apply I_news
    | apply holds_bind; [|intros ?]
    | apply holds_try_except; [|intros ?]
    | apply holds_for_each; intros ?
    | match goal with
      | |- Frame.holds _ (if ?b then _ else _) => destruct b
      | |- Frame.holds _ (match ?x with _ => _ end) => destruct x
      end ].
Qed.

End Holds.

Lemma in_lookup_filter (r : request) (l : list request) :
  Frame.is_lookup r = true -> In r (List.filter Frame.is_lookup l) -> In r l.
Proof. intros _ Hin. by apply filter_In in Hin as [? _]. Qed.

(** Sending a fresh lookup request keeps the requests distinct. *)
Lemma nodup_lookup_snoc (r : request) (l : list request) :
  Frame.is_lookup r = true -> ~ In r l ->
  NoDup (List.filter Frame.is_lookup l) ->
  NoDup (List.filter Frame.is_lookup (l ++ [r])).
Proof.
  intros Hr Hnew Hnodup. rewrite List.filter_app. simpl. rewrite Hr.
  apply NoDup_app. split; [done|]. split; [|apply NoDup_singleton].
  intros x Hx Hxr. apply list_elem_of_singleton in Hxr as ->.
  apply Hnew. apply list_elem_of_In in Hx. by apply in_lookup_filter.
Qed.

Lemma in_snoc {A} (x y : A) (l : list A) : In x (l ++ [y]) -> In x l \/ x = y.
Proof. rewrite in_app_iff. simpl. intuition. Qed.

Section Once.

Variable w : World.

Lemma fetched_once_logo (s : St) (url : pyval) :
  Frame.fetched_once s -> Frame.fetched_once (set_sent (sent s ++ [ReqLogo url])%list s).
Proof.
  intros (Hnodup & Hstock & Hinfo & Hnews). unfold Frame.fetched_once. simpl.
  rewrite List.filter_app. simpl. rewrite app_nil_r.
  split; [done|]. repeat split.
  - intros t p Hin. apply in_snoc in Hin as [Hin | [=]]. by apply Hstock.
  - intros t Hin. apply in_snoc in Hin as [Hin | [=]]. by apply Hinfo.
  - intros sym f t k Hin. apply in_snoc in Hin as [Hin | [=]]. by apply (Hnews sym f t k).
Qed.

Lemma fetched_once_stock (ticker period : string) :
  Frame.holds Frame.fetched_once (get_stock_data w ticker period).
Proof.
  intros s (Hnodup & Hstock & Hinfo & Hnews). rewrite get_stock_data_eq.
  destruct (cache_stock s !! (ticker, period)) eqn:Hmiss; [done|].
  unfold Frame.fetched_once. simpl. repeat split.
  - apply nodup_lookup_snoc; [done| |done].
    intros Hin. apply Hstock in Hin. rewrite Hmiss in Hin. by destruct Hin.
  - intros t p Hin. apply in_snoc in Hin as [Hin | [= -> ->]].
    + apply Hstock in Hin.
      destruct (decide ((t, p) = (ticker, period))) as [-> | Hne].
      * by rewrite lookup_insert_eq.
      * by rewrite lookup_insert_ne.
    + by rewrite lookup_insert_eq.
  - intros t Hin. apply in_snoc in Hin as [Hin | [=]]. by apply Hinfo.
  - intros sym f t k Hin. apply in_snoc in Hin as [Hin | [=]]. by apply (Hnews sym f t k).
Qed.

Lemma fetched_once_info (ticker : string) :
  Frame.holds Frame.fetched_once (get_info_cached w ticker).
Proof.
  intros s (Hnodup & Hstock & Hinfo & Hnews). rewrite get_info_cached_eq.
  destruct (cache_info s !! ticker) eqn:Hmiss; [done|].
  unfold Frame.fetched_once. simpl. repeat split.
  - apply nodup_lookup_snoc; [done| |done].
    intros Hin. apply Hinfo in Hin. rewrite Hmiss in Hin. by destruct Hin.
  - intros t p Hin. apply in_snoc in Hin as [Hin | [=]]. by apply Hstock.
  - intros t Hin. apply in_snoc in Hin as [Hin | [= ->]].
    + apply Hinfo in Hin.
      destruct (decide (t = ticker)) as [-> | Hne].
      * by rewrite lookup_insert_eq.
      * by rewrite lookup_insert_ne.
    + by rewrite lookup_insert_eq.
  - intros sym f t k Hin. apply in_snoc in Hin as [Hin | [=]]. by apply (Hnews sym f t k).
Qed.

Lemma fetched_once_news (symbol api_key : string) :
  Frame.holds Frame.fetched_once (get_company_news w symbol api_key).
Proof.
  intros s (Hnodup & Hstock & Hinfo & Hnews). rewrite get_company_news_eq.
  destruct (cache_news s !! (symbol, api_key)) eqn:Hmiss; [done|].
  assert (Hkeep : forall news sym f t k,
            In (ReqNews sym f t k) (sent s) ->
            is_Some (<[(symbol, api_key) := news]> (cache_news s) !! (sym, k))).
  { intros news sym f t k Hin. apply Hnews in Hin.
    destruct (decide ((sym, k) = (symbol, api_key))) as [-> | Hne].
    - by rewrite lookup_insert_eq.
    - by rewrite lookup_insert_ne. }
  destruct (String.eqb api_key "").
  - unfold Frame.fetched_once. simpl. repeat split; try done.
    intros sym f t k Hin. by apply (Hkeep _ sym f t k).
  - unfold Frame.fetched_once. simpl. repeat split.
    + apply nodup_lookup_snoc; [done| |done].
      intros Hin. apply Hnews in Hin. rewrite Hmiss in Hin. by destruct Hin.
    + intros t p Hin. apply in_snoc in Hin as [Hin | [=]]. by apply Hstock.
    + intros t Hin. apply in_snoc in Hin as [Hin | [=]]. by apply Hinfo.
    + intros sym f t k Hin. apply in_snoc in Hin as [Hin | [= -> _ _ ->]].
      * by apply (Hkeep _ sym f t k).
      * by rewrite lookup_insert_eq.
Qed.

(** X17. Within a cycle no history, info or news request is sent twice:
    if every lookup request sent so far was sent once and has its answer in
    the cache, as at the start of a fresh process, the same holds after the
    main loop, however often a ticker is listed. *)
Theorem main_loop_fetches_once
    (period finnhub_api : string) (bg_image : option image)
    (tickers : list string) (s : St) :
  Frame.fetched_once s ->
  Frame.fetched_once (snd (main_loop w period finnhub_api bg_image tickers s)) /\
  NoDup (List.filter Frame.is_lookup
           (sent (snd (main_loop w period finnhub_api bg_image tickers s)))).
Proof.
  intros Hs.
  assert (Hend : Frame.fetched_once
                   (snd (main_loop w period finnhub_api bg_image tickers s))).
  { apply (holds_main_loop w Frame.fetched_once); try done.
    - apply fetched_once_logo.
    - apply fetched_once_stock.
    - apply fetched_once_info.
    - apply fetched_once_news. }
  split; [done|]. by destruct Hend.
Qed.

End Once.

Lemma fresh_fetched_once : Frame.fetched_once Sample.fresh.
Proof.
  unfold Frame.fetched_once, Sample.fresh. simpl.
  split; [constructor|]. repeat split; by intros.
Qed.

Lemma main_loop_fetches_once_witness :
  NoDup (List.filter Frame.is_lookup
           (sent (snd (main_loop Sample.plain "1mo" "" None ["AAA"; "AAA"] Sample.fresh)))).
Proof.
  apply (main_loop_fetches_once Sample.plain "1mo" "" None ["AAA"; "AAA"] Sample.fresh).
  apply fresh_fetched_once.
Defined.
